(** * SAGAN/sagan_model.py: graph construction of the SAGAN model

    The file embeds the class [SAGAN] of [SAGAN/sagan_model.py]: its
    constructor, [generator], [discriminator] and [build_sagan].  The
    program only *builds* a TensorFlow graph, so tensors are symbolic
    expressions, the default graph is an explicit state (its variable store
    and its summary collection) and Python exceptions are an error result.

    Not modelled: the numeric values of tensors, the seeding of lines 10-11
    and the non-trainable variables of the optimizers.  Of a float the model
    keeps the expression that computes it, and of the file system whether the
    log directory of the summary writer can be made.  Sizes are Python
    [int]s, the session is a TensorFlow session, and the model is built at
    the root variable scope. *)

From Stdlib Require Import ZArith List String Ascii Bool QArith Lia DecimalString.
Import ListNotations.
Local Open Scope string_scope.
Local Open Scope list_scope.
Local Open Scope Z_scope.

(* ------------------------------------------------------------------------- *)
(** ** Python values, exceptions, [range], [def] *)

(** The exceptions of the program; [OpError] is [tf.errors.OpError], raised by
    TensorFlow for a failed operation on the file system. *)
Inductive exn : Type := SyntaxError | TypeError | AssertionError | ValueError | OpError.

Inductive result (A : Type) : Type :=
| Ok (a : A)
| Raise (e : exn).
Arguments Ok {A} a.
Arguments Raise {A} e.

(** The floats of the program all come from [np.log2(height)] (line 52).  A
    float is kept as the expression that computes it: the result of [np.log2]
    is a binary64 that depends on the rounding of the platform, so that its
    value is read off the expression only where binary64 is exact (see
    [float_value]). *)
Inductive pyfloat : Type :=
| FLog2 (n : Z)                       (* np.log2(n) *)
| FSub (a : pyfloat) (k : Z)          (* a - k *)
| FFloorDiv (a : pyfloat) (k : Z).    (* a // k *)

(** A Python number is an [int] or a float. *)
Inductive pyval : Type :=
| PyInt (n : Z)
| PyFloat (r : pyfloat).

(** [np.log2] of a Python [int]: NumPy converts an integer of the 64-bit
    ranges ([int64], [uint64]) and returns a float, [-inf] for 0 and [nan] for
    a negative integer (with a warning, no exception); an integer outside
    these ranges is a [TypeError]. *)
Definition np_log2 (n : Z) : result pyfloat :=
  if (- 2 ^ 63 <=? n) && (n <? 2 ^ 64) then Ok (FLog2 n) else Raise TypeError.

(** Integers that binary64 holds exactly, whatever the computation. *)
Definition exact_int (v : Z) : bool := Z.abs v <=? 2 ^ 53.

(** The value of a float where binary64 gives it without rounding: the
    logarithm of a power of two is its exponent, and the difference and the
    floor quotient of small integers are exact.  [None]: a rounded logarithm,
    [-inf] or [nan]. *)
Fixpoint float_value (f : pyfloat) : option Z :=
  match f with
  | FLog2 n =>
      if (0 <? n) && (n <? 2 ^ 64) && (2 ^ Z.log2 n =? n) then Some (Z.log2 n) else None
  | FSub a k =>
      match float_value a with
      | Some v => if exact_int v && exact_int k then Some (v - k) else None
      | None => None
      end
  | FFloorDiv a k =>
      match float_value a with
      | Some v => if exact_int v && (0 <? k) && exact_int k then Some (v / k) else None
      | None => None
      end
  end.

(** [v - k] for an [int] literal [k]. *)
Definition py_sub (v : pyval) (k : Z) : pyval :=
  match v with
  | PyInt n => PyInt (n - k)
  | PyFloat r => PyFloat (FSub r k)
  end.

(** [v // k] for a positive [int] literal [k]: floor division keeps the type
    of [v]. *)
Definition py_floordiv (v : pyval) (k : Z) : pyval :=
  match v with
  | PyInt n => PyInt (n / k)
  | PyFloat r => PyFloat (FFloorDiv r k)
  end.

(** The integers [lo, lo+1, ..., hi-1]. *)
Definition zrange (lo hi : Z) : list Z :=
  map (fun k => lo + Z.of_nat k) (seq 0 (Z.to_nat (hi - lo))).

(** [range(lo, hi)]: a float argument is a [TypeError] ("object cannot be
    interpreted as an integer"). *)
Definition py_range (lo hi : pyval) : result (list Z) :=
  match lo, hi with
  | PyInt a, PyInt b => Ok (zrange a b)
  | _, _ => Raise TypeError
  end.

(** ['%d' % n]. *)
Definition fmt_d (n : Z) : string := NilZero.string_of_int (Z.to_int n).

(** [name.startswith(p)]. *)
Definition startswith (p name : string) : bool := String.prefix p name.

Fixpoint has_duplicate (names : list string) : bool :=
  match names with
  | [] => false
  | n :: rest => existsb (String.eqb n) rest || has_duplicate rest
  end.

(** A [def] statement: the compiler rejects a parameter list that names a
    parameter twice ("duplicate argument in function definition") before
    anything of the module runs. *)
Definition def_function {F : Type} (params : list string) (body : F) : result F :=
  if has_duplicate params then Raise SyntaxError else Ok body.

(* ------------------------------------------------------------------------- *)
(** ** The graph: shapes, variables, symbolic tensors *)

Definition dim : Type := option Z.          (* [None]: unknown (batch) size *)
Definition shape : Type := list dim.

Record variable : Type := { v_name : string; v_shape : list Z }.

Inductive layer_kind : Type :=
| Conv2d (f k s : Z)
| Deconv2d (f k s : Z)
| Dense (units : Z)
| BatchNorm.

Inductive unop : Type :=
| Relu
| LeakyRelu (alpha : Q)
| Dropout (rate : Q) (name : string)
| Flatten
| Reshape (target : list Z)
| Tanh.

Inductive tensor : Type :=
| Placeholder (name : string) (sh : shape)
| Layer (k : layer_kind) (name : string) (w b : variable) (inp : tensor)
| Unary (u : unop) (inp : tensor)
| OnesLike (inp : tensor)
| ZerosLike (inp : tensor)
| Add (a b : tensor)
| SceLoss (logits labels : tensor).

(** What a loss attribute holds: the float it is initialised with, or a
    tensor of the graph. *)
Inductive lossval : Type :=
| LFloat (q : Q)
| LTensor (t : tensor).

(** A TensorFlow session, the value of the parameter [s], and its attribute
    [graph]. *)
Inductive session : Type := Session.

Inductive graph_ref : Type := GraphOf (s : session).

Definition session_graph (s : session) : graph_ref := GraphOf s.

(** The state a construction runs in: the default graph and, of the file
    system, what the summary writer meets there. *)
Record graph : Type := {
  g_vars : list variable;                   (* trainable variables, in creation order *)
  g_summaries : list (string * lossval);    (* the summary collection *)
  fs_denied : list string;                  (* paths at which no directory can be made *)
  fs_events : list (string * graph_ref)     (* log directories with an event file, and
                                               the graph written to it *)
}.

(** A new default graph, in a working directory where nothing is denied. *)
Definition fresh_graph : graph :=
  {| g_vars := []; g_summaries := []; fs_denied := []; fs_events := [] |}.

(** Graph construction: reads and extends the state, or raises. *)
Definition M (A : Type) : Type := graph -> result (A * graph).

Definition ret {A : Type} (a : A) : M A := fun gr => Ok (a, gr).

Definition raise {A : Type} (e : exn) : M A := fun _ => Raise e.

Definition bind {A B : Type} (m : M A) (k : A -> M B) : M B :=
  fun gr => match m gr with
            | Ok (a, gr') => k a gr'
            | Raise e => Raise e
            end.

Definition lift {A : Type} (r : result A) : M A :=
  fun gr => match r with
            | Ok a => Ok (a, gr)
            | Raise e => Raise e
            end.

Notation "x <- m ;; k" := (bind m (fun x => k))
  (at level 61, m at next level, right associativity).
Notation "' pat <- m ;; k" := (bind m (fun x => match x with pat => k end))
  (at level 61, pat pattern, m at next level, right associativity).

(** [for i in l: x = body(i, x)]. *)
Fixpoint for_each {A : Type} (l : list Z) (body : Z -> A -> M A) (a : A) : M A :=
  match l with
  | [] => ret a
  | i :: rest => a' <- body i a ;; for_each rest body a'
  end.

(* ------------------------------------------------------------------------- *)
(** ** Static shapes *)

Definition ceil_div (n s : Z) : Z := (n + s - 1) / s.

(** Number of elements, when every size is known. *)
Definition known_size (sh : shape) : option Z :=
  fold_right (fun d acc => match d, acc with
                           | Some n, Some m => Some (n * m)
                           | _, _ => None
                           end) (Some 1) sh.

(** Modelled from the spec: the layers are those of the missing [tfutil].
    Shapes of the weight, of the bias and of the output of a layer applied to
    an input of shape [sh]; [None] when the input does not fit.  A
    convolution of stride 1 preserves the resolution and one of stride 2
    halves it (rounding up); the transposed convolution multiplies it.  The
    numbers of filters and of units are taken as they come: what the layers
    make of a number below 1 is not modelled, and the statements that a
    network can be built are about numbers from 1. *)
Definition layer_shapes (k : layer_kind) (sh : shape) : option (list Z * list Z * shape) :=
  match k with
  | Conv2d f ks s =>
      match sh with
      | [b; h; w; Some c] =>
          Some ([ks; ks; c; f], [f],
                [b; option_map (fun n => ceil_div n s) h;
                    option_map (fun n => ceil_div n s) w; Some f])
      | _ => None
      end
  | Deconv2d f ks s =>
      match sh with
      | [b; h; w; Some c] =>
          Some ([ks; ks; f; c], [f],
                [b; option_map (Z.mul s) h; option_map (Z.mul s) w; Some f])
      | _ => None
      end
  | Dense units =>
      match last sh None with
      | Some n => Some ([n; units], [units], removelast sh ++ [Some units])
      | None => None
      end
  | BatchNorm =>
      match last sh None with
      | Some c => Some ([c], [c], sh)
      | None => None
      end
  end.

(** [tf.reshape]: a target with one [-1]; with an unknown input size the
    [-1] stays unknown and nothing is checked at construction. *)
Definition reshape_shape (target : list Z) (sh : shape) : option shape :=
  let rest := fold_right Z.mul 1 (filter (fun d => negb (d =? -1)) target) in
  match known_size sh with
  | None => Some (map (fun d => if d =? -1 then None else Some d) target)
  | Some total =>
      if existsb (Z.eqb (-1)) target
      then if (rest =? 0) || negb (total mod rest =? 0) then None
           else Some (map (fun d => if d =? -1 then Some (total / rest) else Some d) target)
      else if rest =? total then Some (map Some target) else None
  end.

Definition unary_shape (u : unop) (sh : shape) : option shape :=
  match u with
  | Relu | LeakyRelu _ | Dropout _ _ | Tanh => Some sh
  | Flatten =>
      match sh with
      | [] => None
      | b :: rest => Some [b; known_size rest]
      end
  | Reshape target => reshape_shape target sh
  end.

Fixpoint shape_of (t : tensor) : option shape :=
  match t with
  | Placeholder _ sh => Some sh
  | Layer k _ _ _ inp =>
      match shape_of inp with
      | Some sh => option_map snd (layer_shapes k sh)
      | None => None
      end
  | Unary u inp =>
      match shape_of inp with
      | Some sh => unary_shape u sh
      | None => None
      end
  | OnesLike inp | ZerosLike inp => shape_of inp
  | Add a _ => shape_of a
  | SceLoss _ _ => Some []
  end.

(** The parameters the value of a tensor depends on, in application order.
    [ones_like] and [zeros_like] only read the shape of their argument. *)
Fixpoint params_of (t : tensor) : list variable :=
  match t with
  | Placeholder _ _ => []
  | Layer _ _ w b inp => params_of inp ++ [w; b]
  | Unary _ inp => params_of inp
  | OnesLike _ | ZerosLike _ => []
  | Add a b => params_of a ++ params_of b
  | SceLoss logits labels => params_of logits ++ params_of labels
  end.

(** The names of all the parametrised layers below a tensor. *)
Fixpoint layer_names (t : tensor) : list string :=
  match t with
  | Placeholder _ _ => []
  | Layer _ name _ _ inp => layer_names inp ++ [name]
  | Unary _ inp => layer_names inp
  | OnesLike inp | ZerosLike inp => layer_names inp
  | Add a b => layer_names a ++ layer_names b
  | SceLoss logits labels => layer_names logits ++ layer_names labels
  end.

(* ------------------------------------------------------------------------- *)
(** ** Variable scopes and the variable store *)

Record var_scope : Type := { sc_name : string; sc_reuse : bool }.

(** [with tf.variable_scope(name, reuse=reuse)] at the root scope: [None]
    inherits the root's setting, which is not to reuse. *)
Definition variable_scope (name : string) (reuse : option bool) : var_scope :=
  {| sc_name := name;
     sc_reuse := match reuse with Some r => r | None => false end |}.

(** An explicit [reuse=] argument of a layer overrides the scope's; [None]
    inherits it. *)
Definition with_reuse (sc : var_scope) (reuse : option bool) : var_scope :=
  match reuse with
  | Some r => {| sc_name := sc_name sc; sc_reuse := r |}
  | None => sc
  end.

Definition find_var (name : string) (gr : graph) : option variable :=
  find (fun v => String.eqb (v_name v) name) (g_vars gr).

Definition add_var (v : variable) (gr : graph) : graph :=
  {| g_vars := g_vars gr ++ [v]; g_summaries := g_summaries gr;
     fs_denied := fs_denied gr; fs_events := fs_events gr |}.

Definition shape_eqb (a b : list Z) : bool :=
  if list_eq_dec Z.eq_dec a b then true else false.

(** [tf.get_variable] inside a scope: without reuse the name must be new, with
    reuse it must exist with the requested shape; otherwise [ValueError]. *)
Definition get_variable (sc : var_scope) (name : string) (sh : list Z) : M variable :=
  fun gr =>
    let full := (sc_name sc ++ "/" ++ name ++ ":0")%string in
    match find_var full gr with
    | Some v =>
        if sc_reuse sc
        then if shape_eqb (v_shape v) sh then Ok (v, gr) else Raise ValueError
        else Raise ValueError
    | None =>
        if sc_reuse sc then Raise ValueError
        else let v := {| v_name := full; v_shape := sh |} in Ok (v, add_var v gr)
    end.

(** [tf.trainable_variables()]. *)
Definition trainable_variables : M (list variable) :=
  fun gr => Ok (g_vars gr, gr).

(** Modelled from the spec: what the layers of the missing [tfutil] share,
    "per-layer weight/bias tensors, owned by the framework's
    variable-management system, scoped by name": a weight and a bias, created
    or looked up under the scope. *)
Definition param_layer (sc : var_scope) (k : layer_kind) (name : string)
    (inp : tensor) : M tensor :=
  match shape_of inp with
  | None => raise ValueError
  | Some sh =>
      match layer_shapes k sh with
      | None => raise ValueError
      | Some (wsh, bsh, _) =>
          w <- get_variable sc (name ++ "/weight")%string wsh ;;
          b <- get_variable sc (name ++ "/bias")%string bsh ;;
          ret (Layer k name w b inp)
      end
  end.

(* ------------------------------------------------------------------------- *)
(** ** The helper module [tfutil] (imported as [t], not part of the sources) *)

(** Modelled from the spec: [tfutil.conv2d(x, f, k, s, name=...)] is missing.
    The spec calls it a convolution, a "learned spatial transform" with
    per-layer weight and bias owned by the variable store and scoped by name,
    whose stride halves (2) or preserves (1) the spatial resolution. *)
Definition conv2d (sc : var_scope) (inp : tensor) (f k s : Z) (name : string) : M tensor :=
  param_layer sc (Conv2d f k s) name inp.

(** Modelled from the spec: [tfutil.deconv2d(x, f, k, s, name=...)] is
    missing; the transposed counterpart of [conv2d], multiplying the spatial
    resolution by its stride. *)
Definition deconv2d (sc : var_scope) (inp : tensor) (f k s : Z) (name : string) : M tensor :=
  param_layer sc (Deconv2d f k s) name inp.

(** Modelled from the spec: [tfutil.batch_norm(x, reuse=..., name=...)] is
    missing; the "normalization step", shape preserving, with a learned scale
    and offset. *)
Definition batch_norm (sc : var_scope) (inp : tensor) (reuse : option bool)
    (name : string) : M tensor :=
  param_layer (with_reuse sc reuse) BatchNorm name inp.

(** Modelled from the spec: [tfutil.dense(x, units, name=...)] is missing; the
    "dense projection" and the "linear heads". *)
Definition dense (sc : var_scope) (inp : tensor) (units : Z) (name : string) : M tensor :=
  param_layer sc (Dense units) name inp.

(** Modelled from the spec: [tfutil.sce_loss(logits, labels)] is missing;
    "binary cross-entropy(logit, target)", a scalar. *)
Definition sce_loss (logits labels : tensor) : tensor := SceLoss logits labels.

(* ------------------------------------------------------------------------- *)
(** ** TensorFlow operations the model calls *)

(** A size of a shape: unknown, or an integer from 0 that fits the signed 64
    bits of a shape's sizes. *)
Definition dim_ok (d : dim) : bool :=
  match d with
  | None => true
  | Some n => (0 <=? n) && (n <? 2 ^ 63)
  end.

(** [tf.placeholder(tf.float32, shape=..., name=...)]: a size that is not one
    of a shape is a [ValueError]. *)
Definition placeholder (sh : shape) (name : string) : M tensor :=
  if forallb dim_ok sh then ret (Placeholder name sh) else raise ValueError.

Definition relu (inp : tensor) : tensor := Unary Relu inp.
Definition leaky_relu (inp : tensor) (alpha : Q) : tensor := Unary (LeakyRelu alpha) inp.
Definition dropout (inp : tensor) (rate : Q) (name : string) : tensor :=
  Unary (Dropout rate name) inp.
Definition flatten (inp : tensor) : tensor := Unary Flatten inp.
Definition tanh (inp : tensor) : tensor := Unary Tanh inp.
Definition ones_like (inp : tensor) : tensor := OnesLike inp.
Definition zeros_like (inp : tensor) : tensor := ZerosLike inp.

(** [tf.reshape]: a size mismatch known at construction is a [ValueError]. *)
Definition reshape (inp : tensor) (target : list Z) : M tensor :=
  match shape_of (Unary (Reshape target) inp) with
  | Some _ => ret (Unary (Reshape target) inp)
  | None => raise ValueError
  end.

(** [tf.summary.scalar(tag, value)]: one more entry of the summary collection. *)
Definition summary_scalar (tag : string) (value : lossval) : M unit :=
  fun gr => Ok (tt, {| g_vars := g_vars gr;
                       g_summaries := g_summaries gr ++ [(tag, value)];
                       fs_denied := fs_denied gr; fs_events := fs_events gr |}).

(** [tf.summary.merge_all()]: [None] when nothing was collected. *)
Definition merge_all : M (option (list (string * lossval))) :=
  fun gr => Ok (match g_summaries gr with
                | [] => None
                | l => Some l
                end, gr).

Record optimizer : Type := { learning_rate : Q; opt_beta1 : Q; opt_beta2 : Q }.

(** [tf.train.AdamOptimizer(lr, beta1=..., beta2=...)]. *)
Definition AdamOptimizer (rate b1 b2 : Q) : optimizer :=
  {| learning_rate := rate; opt_beta1 := b1; opt_beta2 := b2 |}.

Record train_op : Type := {
  op_optimizer : optimizer;
  op_loss : lossval;
  op_var_list : list variable
}.

Definition loss_params (l : lossval) : list variable :=
  match l with
  | LFloat _ => []
  | LTensor t => params_of t
  end.

Definition var_in (v : variable) (l : list variable) : bool :=
  existsb (fun u => String.eqb (v_name u) (v_name v)) l.

(** [opt.minimize(loss, var_list=...)]: [ValueError] when there is no variable
    to optimise or when the loss has a gradient for none of them. *)
Definition minimize (opt : optimizer) (loss : lossval) (var_list : list variable)
    : M train_op :=
  match var_list with
  | [] => raise ValueError
  | _ :: _ =>
      if existsb (fun v => var_in v (loss_params loss)) var_list
      then ret {| op_optimizer := opt; op_loss := loss; op_var_list := var_list |}
      else raise ValueError
  end.

(** The variables a training operation changes when it is run: those of its
    list that its loss has a gradient for. *)
Definition op_updates (op : train_op) : list variable :=
  filter (fun v => var_in v (loss_params (op_loss op))) (op_var_list op).

Record saver_t : Type := { max_to_keep : Z }.

(** [tf.train.Saver(max_to_keep=n)]: [ValueError] without any variable. *)
Definition Saver (n : Z) : M saver_t :=
  fun gr => match g_vars gr with
            | [] => Raise ValueError
            | _ :: _ => Ok ({| max_to_keep := n |}, gr)
            end.

Record file_writer : Type := { logdir : string }.

(** [tf.summary.FileWriter(logdir, graph)]: makes the directory [logdir] when
    it is not there and opens an event file in it, to which the graph is
    written; [OpError] when the directory cannot be made. *)
Definition FileWriter (dir : string) (g : graph_ref) : M file_writer :=
  fun gr =>
    if existsb (String.eqb dir) (fs_denied gr) then Raise OpError
    else Ok ({| logdir := dir |},
             {| g_vars := g_vars gr; g_summaries := g_summaries gr;
                fs_denied := fs_denied gr;
                fs_events := fs_events gr ++ [(dir, g)] |}).

(* ------------------------------------------------------------------------- *)
(** ** The class [SAGAN] *)

(** The attributes of a [SAGAN] object. *)
Record SAGAN : Type := {
  s : session;
  batch_size : Z;
  height : Z;
  width : Z;
  channel : Z;
  image_shape : list Z;
  n_classes : Z;
  n_layer : pyval;
  sample_num : Z;
  sample_size : Z;
  df_dim : Z;
  gf_dim : Z;
  fc_unit : Z;
  z_dim : Z;
  beta1 : Q;
  beta2 : Q;
  lr : Q;
  g_loss : lossval;
  d_loss : lossval;
  c_loss : lossval;
  g : option tensor;
  g_test : option tensor;
  d_op : option train_op;
  g_op : option train_op;
  merged : option (list (string * lossval));
  writer : option file_writer;
  saver : option saver_t;
  x : tensor;
  z : tensor
}.

(** Attribute assignments [self.a = v] of [build_sagan]. *)
Definition set_g (self : SAGAN) (v : option tensor) : SAGAN :=
  {| s := s self; batch_size := batch_size self; height := height self;
     width := width self; channel := channel self; image_shape := image_shape self;
     n_classes := n_classes self; n_layer := n_layer self;
     sample_num := sample_num self; sample_size := sample_size self;
     df_dim := df_dim self; gf_dim := gf_dim self; fc_unit := fc_unit self;
     z_dim := z_dim self; beta1 := beta1 self; beta2 := beta2 self; lr := lr self;
     g_loss := g_loss self; d_loss := d_loss self; c_loss := c_loss self; g := v;
     g_test := g_test self; d_op := d_op self; g_op := g_op self;
     merged := merged self; writer := writer self; saver := saver self; x := x self;
     z := z self |}.

Definition set_d_loss (self : SAGAN) (v : lossval) : SAGAN :=
  {| s := s self; batch_size := batch_size self; height := height self;
     width := width self; channel := channel self; image_shape := image_shape self;
     n_classes := n_classes self; n_layer := n_layer self;
     sample_num := sample_num self; sample_size := sample_size self;
     df_dim := df_dim self; gf_dim := gf_dim self; fc_unit := fc_unit self;
     z_dim := z_dim self; beta1 := beta1 self; beta2 := beta2 self; lr := lr self;
     g_loss := g_loss self; d_loss := v; c_loss := c_loss self; g := g self;
     g_test := g_test self; d_op := d_op self; g_op := g_op self;
     merged := merged self; writer := writer self; saver := saver self; x := x self;
     z := z self |}.

Definition set_g_loss (self : SAGAN) (v : lossval) : SAGAN :=
  {| s := s self; batch_size := batch_size self; height := height self;
     width := width self; channel := channel self; image_shape := image_shape self;
     n_classes := n_classes self; n_layer := n_layer self;
     sample_num := sample_num self; sample_size := sample_size self;
     df_dim := df_dim self; gf_dim := gf_dim self; fc_unit := fc_unit self;
     z_dim := z_dim self; beta1 := beta1 self; beta2 := beta2 self; lr := lr self;
     g_loss := v; d_loss := d_loss self; c_loss := c_loss self; g := g self;
     g_test := g_test self; d_op := d_op self; g_op := g_op self;
     merged := merged self; writer := writer self; saver := saver self; x := x self;
     z := z self |}.

Definition set_d_op (self : SAGAN) (v : option train_op) : SAGAN :=
  {| s := s self; batch_size := batch_size self; height := height self;
     width := width self; channel := channel self; image_shape := image_shape self;
     n_classes := n_classes self; n_layer := n_layer self;
     sample_num := sample_num self; sample_size := sample_size self;
     df_dim := df_dim self; gf_dim := gf_dim self; fc_unit := fc_unit self;
     z_dim := z_dim self; beta1 := beta1 self; beta2 := beta2 self; lr := lr self;
     g_loss := g_loss self; d_loss := d_loss self; c_loss := c_loss self; g := g self;
     g_test := g_test self; d_op := v; g_op := g_op self; merged := merged self;
     writer := writer self; saver := saver self; x := x self; z := z self |}.

Definition set_g_op (self : SAGAN) (v : option train_op) : SAGAN :=
  {| s := s self; batch_size := batch_size self; height := height self;
     width := width self; channel := channel self; image_shape := image_shape self;
     n_classes := n_classes self; n_layer := n_layer self;
     sample_num := sample_num self; sample_size := sample_size self;
     df_dim := df_dim self; gf_dim := gf_dim self; fc_unit := fc_unit self;
     z_dim := z_dim self; beta1 := beta1 self; beta2 := beta2 self; lr := lr self;
     g_loss := g_loss self; d_loss := d_loss self; c_loss := c_loss self; g := g self;
     g_test := g_test self; d_op := d_op self; g_op := v; merged := merged self;
     writer := writer self; saver := saver self; x := x self; z := z self |}.

Definition set_merged (self : SAGAN) (v : option (list (string * lossval))) : SAGAN :=
  {| s := s self; batch_size := batch_size self; height := height self;
     width := width self; channel := channel self; image_shape := image_shape self;
     n_classes := n_classes self; n_layer := n_layer self;
     sample_num := sample_num self; sample_size := sample_size self;
     df_dim := df_dim self; gf_dim := gf_dim self; fc_unit := fc_unit self;
     z_dim := z_dim self; beta1 := beta1 self; beta2 := beta2 self; lr := lr self;
     g_loss := g_loss self; d_loss := d_loss self; c_loss := c_loss self; g := g self;
     g_test := g_test self; d_op := d_op self; g_op := g_op self; merged := v;
     writer := writer self; saver := saver self; x := x self; z := z self |}.

Definition set_saver (self : SAGAN) (v : option saver_t) : SAGAN :=
  {| s := s self; batch_size := batch_size self; height := height self;
     width := width self; channel := channel self; image_shape := image_shape self;
     n_classes := n_classes self; n_layer := n_layer self;
     sample_num := sample_num self; sample_size := sample_size self;
     df_dim := df_dim self; gf_dim := gf_dim self; fc_unit := fc_unit self;
     z_dim := z_dim self; beta1 := beta1 self; beta2 := beta2 self; lr := lr self;
     g_loss := g_loss self; d_loss := d_loss self; c_loss := c_loss self; g := g self;
     g_test := g_test self; d_op := d_op self; g_op := g_op self;
     merged := merged self; writer := writer self; saver := v; x := x self;
     z := z self |}.

Definition set_writer (self : SAGAN) (v : option file_writer) : SAGAN :=
  {| s := s self; batch_size := batch_size self; height := height self;
     width := width self; channel := channel self; image_shape := image_shape self;
     n_classes := n_classes self; n_layer := n_layer self;
     sample_num := sample_num self; sample_size := sample_size self;
     df_dim := df_dim self; gf_dim := gf_dim self; fc_unit := fc_unit self;
     z_dim := z_dim self; beta1 := beta1 self; beta2 := beta2 self; lr := lr self;
     g_loss := g_loss self; d_loss := d_loss self; c_loss := c_loss self; g := g self;
     g_test := g_test self; d_op := d_op self; g_op := g_op self;
     merged := merged self; writer := v; saver := saver self; x := x self;
     z := z self |}.

(** Lines 131-139 and 145-153: the body of both generator loops. *)
Definition gen_stage (self : SAGAN) (sc : var_scope) (up_sampling : bool) (i : Z)
    (inp : tensor) : M tensor :=
  let f := gf_dim self * 8 / 2 ^ (i + 1) in
  t1 <- (if up_sampling
         then conv2d sc inp f 5 1 ("gen-conv2d-" ++ fmt_d (i + 1))%string
         else deconv2d sc inp f 4 2 ("gen-deconv2d-" ++ fmt_d (i + 1))%string) ;;
  t2 <- batch_norm sc t1 None ("gen-bn-" ++ fmt_d i)%string ;;
  ret (relu t2).

(** Line 142, the self-attention layer: [x = x]. *)
Definition self_attention (inp : tensor) : M tensor := ret inp.

Definition generator (self : SAGAN) (noise : tensor) (reuse : option bool)
    (is_train : bool) : M tensor :=
  let sc := variable_scope "generator" reuse in
  t1 <- dense sc noise (4 * 4 * gf_dim self * 8) "gen-fc-1" ;;
  let t2 := relu t1 in
  t3 <- reshape t2 [-1; 4; 4; gf_dim self * 8] ;;
  let up_sampling := true in
  r1 <- lift (py_range (PyInt 0) (py_floordiv (n_layer self) 2)) ;;
  t4 <- for_each r1 (gen_stage self sc up_sampling) t3 ;;
  t5 <- self_attention t4 ;;
  r2 <- lift (py_range (py_floordiv (n_layer self) 2) (n_layer self)) ;;
  t6 <- for_each r2 (gen_stage self sc up_sampling) t5 ;;
  t7 <- conv2d sc t6 (channel self) 5 1 "gen-conv2d-5" ;;
  ret (tanh t7).

(** Lines 103-106: the body of the discriminator loop. *)
Definition disc_stage (self : SAGAN) (sc : var_scope) (reuse : option bool) (i : Z)
    (inp : tensor) : M tensor :=
  t1 <- conv2d sc inp (df_dim self * 2 ^ (i + 1)) 3 (i mod 2 + 1)
          ("disc-conv2d-" ++ fmt_d (i + 2))%string ;;
  t2 <- batch_norm sc t1 reuse ("disc-bn-" ++ fmt_d (i + 1))%string ;;
  let t3 := leaky_relu t2 (2 # 10) in
  ret (dropout t3 (5 # 10) ("disc-dropout2d-" ++ fmt_d (i + 1))%string).

Definition discriminator (self : SAGAN) (img : tensor) (reuse : option bool)
    : M (tensor * tensor * tensor) :=
  let sc := variable_scope "discriminator" reuse in
  t1 <- conv2d sc img (df_dim self) 3 2 "disc-conv2d-1" ;;
  let t2 := leaky_relu t1 (2 # 10) in
  let t3 := dropout t2 (5 # 10) "disc-dropout2d-1" in
  r <- lift (py_range (PyInt 0) (PyInt 5)) ;;
  t4 <- for_each r (disc_stage self sc reuse) t3 ;;
  let net := flatten t4 in
  cat <- dense sc net (n_classes self) "disc-fc-cat" ;;
  disc <- dense sc net 1 "disc-fc-disc" ;;
  ret (cat, disc, net).

(** [self.g], read back on line 165 after the assignment of line 161. *)
Definition read_tensor (a : option tensor) : M tensor :=
  match a with
  | Some t => ret t
  | None => raise TypeError
  end.

Definition build_sagan (self : SAGAN) : M SAGAN :=
  (* Generator *)
  gen <- generator self (z self) None true ;;
  let self := set_g self (Some gen) in
  (* Discriminator *)
  '(c_real, d_real, _) <- discriminator self (x self) None ;;
  gen_img <- read_tensor (g self) ;;
  '(c_fake, d_fake, _) <- discriminator self gen_img (Some true) ;;
  (* sigmoid ce loss *)
  let d_real_loss := sce_loss d_real (ones_like d_real) in
  let d_fake_loss := sce_loss d_fake (zeros_like d_fake) in
  let self := set_d_loss self (LTensor (Add d_real_loss d_fake_loss)) in
  let self := set_g_loss self (LTensor (sce_loss d_fake (ones_like d_fake))) in
  (* Summary *)
  _ <- summary_scalar "loss/d_real_loss" (LTensor d_real_loss) ;;
  _ <- summary_scalar "loss/d_fake_loss" (LTensor d_fake_loss) ;;
  _ <- summary_scalar "loss/d_loss" (d_loss self) ;;
  _ <- summary_scalar "loss/g_loss" (g_loss self) ;;
  (* Optimizer *)
  t_vars <- trainable_variables ;;
  let d_params := filter (fun v => startswith "d" (v_name v)) t_vars in
  let g_params := filter (fun v => startswith "g" (v_name v)) t_vars in
  op1 <- minimize (AdamOptimizer (lr self * 4) (beta1 self) (beta2 self))
           (d_loss self) d_params ;;
  let self := set_d_op self (Some op1) in
  op2 <- minimize (AdamOptimizer (lr self * 1) (beta1 self) (beta2 self))
           (g_loss self) g_params ;;
  let self := set_g_op self (Some op2) in
  (* Merge summary *)
  m <- merge_all ;;
  let self := set_merged self m in
  (* Model saver *)
  sv <- Saver 1 ;;
  let self := set_saver self (Some sv) in
  w <- FileWriter "./model/" (session_graph (s self)) ;;
  ret (set_writer self (Some w)).

(** The parameter list of [__init__] as written on lines 16-18. *)
Definition init_params : list string :=
  ["self"; "s"; "batch_size"; "height"; "width"; "channel"; "n_classes";
   "sample_num"; "sample_size";
   "df_dim"; "gf_dim"; "gf_dim"; "fc_unit"; "z_dim"; "lr"].

(** The attributes [__init__] has assigned when it calls [build_sagan]
    (lines 43-86), given the layer count of line 52 and the placeholders of
    lines 83-86. *)
Definition init_attrs (s : session) (batch_size height width channel n_classes
    sample_num sample_size df_dim gf_dim fc_unit z_dim : Z) (lr : Q)
    (n_layer : pyval) (x z : tensor) : SAGAN :=
  {| s := s; batch_size := batch_size;
     height := height; width := width; channel := channel;
     image_shape := [batch_size; height; width; channel];
     n_classes := n_classes;
     n_layer := n_layer;
     sample_num := sample_num; sample_size := sample_size;
     df_dim := df_dim; gf_dim := gf_dim; fc_unit := fc_unit;
     z_dim := z_dim; beta1 := 0; beta2 := 9 # 10; lr := lr;
     g_loss := LFloat 0; d_loss := LFloat 0; c_loss := LFloat 0;
     g := None; g_test := None;
     d_op := None; g_op := None;
     merged := None; writer := None; saver := None;
     x := x;
     z := z |}.

(** Lines 43-86 of [__init__], for one binding of [gf_dim]: [np.log2] of the
    height (line 52), then the assertion (line 53), then the two placeholders
    (lines 83-86); the other lines assign arguments and constants. *)
Definition init_fields (s : session) (batch_size height width channel n_classes
    sample_num sample_size df_dim gf_dim fc_unit z_dim : Z) (lr : Q) : M SAGAN :=
  l <- lift (np_log2 height) ;;
  let n_layer := py_sub (PyFloat l) 2 in
  if negb (height =? width) then raise AssertionError else
  x <- placeholder [None; Some height; Some width; Some channel] "x-image" ;;
  z <- placeholder [None; Some z_dim] "z-noise" ;;
  ret (init_attrs s batch_size height width channel n_classes
         sample_num sample_size df_dim gf_dim fc_unit z_dim lr n_layer x z).

(** The body of [__init__]: the attributes, then [build_sagan] (line 88). *)
Definition __init__ (s : session) (batch_size height width channel n_classes
    sample_num sample_size df_dim gf_dim fc_unit z_dim : Z) (lr : Q) : M SAGAN :=
  self <- init_fields s batch_size height width channel n_classes
            sample_num sample_size df_dim gf_dim fc_unit z_dim lr ;;
  build_sagan self.

(** Evaluating the module: the class statement defines [__init__]. *)
Definition SAGAN_class :=
  def_function init_params __init__.

(** [SAGAN(s, batch_size=..., ...)]: evaluate the module, then call the
    constructor; [gf_dim] stands for whichever of the two defaults is meant. *)
Definition construct (s : session) (batch_size height width channel n_classes
    sample_num sample_size df_dim gf_dim fc_unit z_dim : Z) (lr : Q) : M SAGAN :=
  init <- lift SAGAN_class ;;
  init s batch_size height width channel n_classes
       sample_num sample_size df_dim gf_dim fc_unit z_dim lr.

(* ------------------------------------------------------------------------- *)
(** ** Vocabulary of the statements *)

Definition lookup (name : string) (l : list variable) : option variable :=
  find (fun v => String.eqb (v_name v) name) l.

(** What a construction did to the variable store: with reuse it only looked
    the variables [vs] up, without reuse it created them, all under new names. *)
Definition touched (reuse : bool) (gr gr' : graph) (vs : list variable) : Prop :=
  if reuse
  then gr' = gr /\ Forall (fun v => find_var (v_name v) gr = Some v) vs
  else g_summaries gr' = g_summaries gr /\
       g_vars gr' = g_vars gr ++ vs /\
       NoDup (map v_name vs) /\
       Forall (fun v => find_var (v_name v) gr = None) vs.

Definition var_name (scope lname suffix : string) : string :=
  (scope ++ "/" ++ (lname ++ suffix) ++ ":0")%string.

(** One operation applied on top of a tensor. *)
Inductive op : Type :=
| OLayer (k : layer_kind) (name : string) (w b : variable)
| OUnary (u : unop).

Definition apply_op (t : tensor) (o : op) : tensor :=
  match o with
  | OLayer k name w b => Layer k name w b t
  | OUnary u => Unary u t
  end.

Definition apply_ops (t : tensor) (ops : list op) : tensor := fold_left apply_op ops t.

Definition op_vars (o : op) : list variable :=
  match o with
  | OLayer _ _ w b => [w; b]
  | OUnary _ => []
  end.

Definition op_layer (o : op) : list string :=
  match o with
  | OLayer _ name _ _ => [name]
  | OUnary _ => []
  end.

Definition ops_vars (ops : list op) : list variable := flat_map op_vars ops.
Definition ops_layers (ops : list op) : list string := flat_map op_layer ops.

Definition layer_var_names (scope lname : string) : list string :=
  [var_name scope lname "/weight"; var_name scope lname "/bias"].

(** [out] is a chain of operations on top of [inp]: its layers have the names
    [lnames], and their variables are the ones touched in the store between
    [gr] and [gr'], named after scope and layer. *)
Definition chain (scope : string) (reuse : bool) (lnames : list string)
    (inp : tensor) (gr : graph) (out : tensor) (gr' : graph) : Prop :=
  exists ops,
    out = apply_ops inp ops /\
    ops_layers ops = lnames /\
    map v_name (ops_vars ops) = flat_map (layer_var_names scope) lnames /\
    touched reuse gr gr' (ops_vars ops).

(** A stage: every successful run yields a chain on top of its input. *)
Definition stage_ok (scope : string) (reuse : bool) (lnames : list string)
    (f : tensor -> M tensor) : Prop :=
  forall inp gr out gr',
    f inp gr = Ok (out, gr') -> chain scope reuse lnames inp gr out gr'.

Definition reuse_flag (reuse : option bool) : bool :=
  match reuse with Some r => r | None => false end.

Definition gen_stage_layers (i : Z) : list string :=
  [("gen-conv2d-" ++ fmt_d (i + 1))%string; ("gen-bn-" ++ fmt_d i)%string].

Definition disc_stage_layers (i : Z) : list string :=
  [("disc-conv2d-" ++ fmt_d (i + 2))%string; ("disc-bn-" ++ fmt_d (i + 1))%string].

Definition gen_layers (n : Z) : list string :=
  ["gen-fc-1"] ++ flat_map gen_stage_layers (zrange 0 (n / 2)) ++
  flat_map gen_stage_layers (zrange (n / 2) n) ++ ["gen-conv2d-5"].

Definition disc_trunk_layers : list string :=
  "disc-conv2d-1" :: flat_map disc_stage_layers (zrange 0 5).

(** The parameters applied on top of [inp] to obtain [out]. *)
Definition own_params (inp out : tensor) : list variable :=
  skipn (List.length (params_of inp)) (params_of out).

Definition is_d (v : variable) : bool := startswith "d" (v_name v).
Definition is_g (v : variable) : bool := startswith "g" (v_name v).

(** A small model on which [build_sagan] runs to its end.  [__init__] always
    leaves a float in [n_layer] (line 52), and then the generator cannot run;
    this object is what [__init__] would pass on for 4x4 one-channel images
    if the layer count [log2(4) - 2 = 0] were an integer. *)
Definition tiny_self : SAGAN :=
  {| s := Session; batch_size := 2;
     height := 4; width := 4; channel := 1;
     image_shape := [2; 4; 4; 1];
     n_classes := 2;
     n_layer := PyInt 0;
     sample_num := 4; sample_size := 2;
     df_dim := 1; gf_dim := 1; fc_unit := 8;
     z_dim := 2; beta1 := 0; beta2 := 9 # 10; lr := 1 # 10000;
     g_loss := LFloat 0; d_loss := LFloat 0; c_loss := LFloat 0;
     g := None; g_test := None;
     d_op := None; g_op := None;
     merged := None; writer := None; saver := None;
     x := Placeholder "x-image" [None; Some 4; Some 4; Some 1];
     z := Placeholder "z-noise" [None; Some 2] |}.

(** A new graph that already holds one trainable variable, of the given
    name. *)
Definition graph_with (name : string) : graph :=
  add_var {| v_name := name; v_shape := [1] |} fresh_graph.

(** The value of a run that is known to succeed. *)
Definition run_or {A : Type} (r : result A) (default : A) : A :=
  match r with
  | Ok a => a
  | Raise _ => default
  end.

(** What [build_sagan] returns on [tiny_self] in a fresh graph. *)
Definition tiny_built : SAGAN * graph := Eval vm_compute in
  run_or (build_sagan tiny_self fresh_graph) (tiny_self, fresh_graph).

(** The object [__init__] has made of the configuration of the spec's
    construction test when it calls [build_sagan]; [gf_dim] is whichever of
    the two defaults of line 18 is meant. *)
Definition default_attrs (gf_dim : Z) : SAGAN :=
  init_attrs Session 100 32 32 3 10 (10 * 10) 10 64 gf_dim 512 128 (1 # 10000)
    (PyFloat (FSub (FLog2 32) 2))
    (Placeholder "x-image" [None; Some 32; Some 32; Some 3])
    (Placeholder "z-noise" [None; Some 128]).

(** The same object with an integer layer count. *)
Definition with_n_layer (self : SAGAN) (n : Z) : SAGAN :=
  {| s := s self; batch_size := batch_size self; height := height self;
     width := width self; channel := channel self; image_shape := image_shape self;
     n_classes := n_classes self; n_layer := PyInt n;
     sample_num := sample_num self; sample_size := sample_size self;
     df_dim := df_dim self; gf_dim := gf_dim self; fc_unit := fc_unit self;
     z_dim := z_dim self; beta1 := beta1 self; beta2 := beta2 self; lr := lr self;
     g_loss := g_loss self; d_loss := d_loss self; c_loss := c_loss self; g := g self;
     g_test := g_test self; d_op := d_op self; g_op := g_op self;
     merged := merged self; writer := writer self; saver := saver self; x := x self;
     z := z self |}.

Definition loss_layers (l : lossval) : list string :=
  match l with
  | LFloat _ => []
  | LTensor t => layer_names t
  end.

(** The integers [np.log2] converts: those of the ranges of [int64] and of
    [uint64]. *)
Definition in_64_bits (n : Z) : Prop := - 2 ^ 63 <= n < 2 ^ 64.

(** A size from 1 to 4096: positive, as a layer needs the numbers of its
    filters, units and channels, and small enough that no tensor of the model
    comes near the 2^63 elements a shape can count. *)
Definition moderate (n : Z) : Prop := 0 < n <= 2 ^ 12.

(** A size of a shape that is unknown or moderate. *)
Definition moderate_dim (d : dim) : Prop :=
  match d with
  | None => True
  | Some n => moderate n
  end.

(** Two states with the same file system. *)
Definition same_files (gr gr' : graph) : Prop :=
  fs_denied gr' = fs_denied gr /\ fs_events gr' = fs_events gr.

(** A construction step that leaves the file system as it is. *)
Definition keeps_files {A : Type} (m : M A) : Prop :=
  forall gr a gr', m gr = Ok (a, gr') -> same_files gr gr'.

(** A feature map of 4x4 positions. *)
Definition is_4x4 (t : tensor) : Prop :=
  exists b c, shape_of t = Some [b; Some 4; Some 4; Some c].

(** The layers of the generator for an integer layer count [n], in the order
    of their application. *)
Definition generator_layers (n : Z) : list string :=
  ["gen-fc-1"] ++ flat_map gen_stage_layers (zrange 0 n) ++ ["gen-conv2d-5"].

(** Every variable of [gr] is still found, under its name, in [gr']. *)
Definition extends (gr gr' : graph) : Prop :=
  forall name v, find_var name gr = Some v -> find_var name gr' = Some v.

(** [fr] replays [fc]: after a successful run of [fc], [fr] succeeds on any
    input of the same static shape in any graph that still holds the
    variables of that run, leaves the graph as it is and returns a tensor of
    the shape [fc] returned. *)
Definition replays (fc fr : tensor -> M tensor) : Prop :=
  forall inp1 gr0 out1 gr1,
    fc inp1 gr0 = Ok (out1, gr1) ->
    extends gr0 gr1 /\
    forall inp2 g,
      shape_of inp2 = shape_of inp1 -> extends gr1 g ->
      exists out2, fr inp2 g = Ok (out2, g) /\ shape_of out2 = shape_of out1.

(** The size the three stride-2 convolutions of the discriminator leave of a
    side of [n] pixels. *)
Definition eighth (n : Z) : Z := ceil_div (ceil_div (ceil_div n 2) 2) 2.

(** The number of features per example the discriminator's heads read, for an
    image of [h] by [w] pixels. *)
Definition disc_features (self : SAGAN) (h w : Z) : Z :=
  eighth h * eighth w * (df_dim self * 32).

(** None of the names is the name of a variable of [gr]. *)
Definition fresh_names (names : list string) (gr : graph) : Prop :=
  forall nm, In nm names -> find_var nm gr = None.

(** The static shape after a layer. *)
Definition layer_out (k : layer_kind) (sh : shape) : option shape :=
  option_map snd (layer_shapes k sh).

(** The static shape after [f1], then [f2]. *)
Definition then_shape (f1 f2 : shape -> option shape) (sh : shape) : option shape :=
  match f1 sh with
  | Some s => f2 s
  | None => None
  end.

(** The static shape after the stages [fs i] for [i] in [l], in this order. *)
Fixpoint iter_shape (fs : Z -> shape -> option shape) (l : list Z) (sh : shape)
    : option shape :=
  match l with
  | [] => Some sh
  | i :: rest =>
      match fs i sh with
      | Some sh1 => iter_shape fs rest sh1
      | None => None
      end
  end.

(** [f] builds the layers [lnames] under [scope]: on an input whose shape
    [fsh] accepts, in a graph where the variables of these layers do not
    exist yet, it returns a tensor of the shape [fsh] gives and leaves every
    other name of the store as it was. *)
Definition builds (scope : string) (lnames : list string) (fsh : shape -> option shape)
    (f : tensor -> M tensor) : Prop :=
  forall inp gr sh sh',
    shape_of inp = Some sh -> fsh sh = Some sh' ->
    NoDup (flat_map (layer_var_names scope) lnames) ->
    fresh_names (flat_map (layer_var_names scope) lnames) gr ->
    exists out gr',
      f inp gr = Ok (out, gr') /\ shape_of out = Some sh' /\
      forall nm, ~ In nm (flat_map (layer_var_names scope) lnames) ->
                 find_var nm gr' = find_var nm gr.

(** The static shape after stage [i] of the generator. *)
Definition gen_stage_out (self : SAGAN) (i : Z) : shape -> option shape :=
  then_shape (layer_out (Conv2d (gf_dim self * 8 / 2 ^ (i + 1)) 5 1))
    (then_shape (layer_out BatchNorm) (then_shape (unary_shape Relu) Some)).

(** The static shape after stage [i] of the discriminator. *)
Definition disc_stage_out (self : SAGAN) (i : Z) : shape -> option shape :=
  then_shape (layer_out (Conv2d (df_dim self * 2 ^ (i + 1)) 3 (i mod 2 + 1)))
    (then_shape (layer_out BatchNorm)
       (then_shape (unary_shape (LeakyRelu (2 # 10)))
          (then_shape (unary_shape (Dropout (5 # 10) ("disc-dropout2d-" ++ fmt_d (i + 1))%string))
             Some))).

(* ------------------------------------------------------------------------- *)
(** ** Running a construction step by step *)

Lemma bind_ok {A B : Type} (m : M A) (k : A -> M B) gr b gr' :
  bind m k gr = Ok (b, gr') ->
  exists a gr1, m gr = Ok (a, gr1) /\ k a gr1 = Ok (b, gr').
Proof.
  unfold bind. destruct (m gr) as [[a gr1]|e]; [|discriminate].
  intros H. exists a, gr1. split; [reflexivity|exact H].
Qed.

Lemma bind_raise {A B : Type} (m : M A) (k : A -> M B) gr e :
  m gr = Raise e -> bind m k gr = Raise e.
Proof. unfold bind. intros ->. reflexivity. Qed.

Lemma bind_raise_inv {A B : Type} (m : M A) (k : A -> M B) gr e :
  bind m k gr = Raise e ->
  m gr = Raise e \/ exists a gr1, m gr = Ok (a, gr1) /\ k a gr1 = Raise e.
Proof.
  unfold bind. destruct (m gr) as [[a gr1]|e1].
  - intros H. right. exists a, gr1. split; [reflexivity|exact H].
  - intros H. left. inversion H. reflexivity.
Qed.

Lemma ret_ok {A : Type} (a b : A) gr gr' :
  ret a gr = Ok (b, gr') -> b = a /\ gr' = gr.
Proof. unfold ret. intros H. inversion H. split; reflexivity. Qed.

Lemma lift_ok {A : Type} (r : result A) a gr gr' :
  lift r gr = Ok (a, gr') -> r = Ok a /\ gr' = gr.
Proof.
  unfold lift. destruct r; [|discriminate].
  intros H. inversion H. split; reflexivity.
Qed.

(** [run_bind H as a gr Ha]: the first step of the run [H] returned [a] and
    left the graph [gr]. *)
Tactic Notation "run_bind" hyp(H) "as" ident(a) ident(gr) ident(Ha) :=
  apply bind_ok in H; destruct H as (a & gr & Ha & H).

(* ------------------------------------------------------------------------- *)
(** ** The variable store *)

Lemma lookup_app name l1 l2 :
  lookup name (l1 ++ l2) =
  match lookup name l1 with Some v => Some v | None => lookup name l2 end.
Proof.
  unfold lookup. induction l1 as [|v l1 IH]; simpl; [reflexivity|].
  destruct (String.eqb (v_name v) name); [reflexivity|exact IH].
Qed.

Lemma lookup_none name l :
  lookup name l = None <-> ~ In name (map v_name l).
Proof.
  unfold lookup. induction l as [|v l IH]; simpl.
  - split; [intros _ []|reflexivity].
  - destruct (String.eqb_spec (v_name v) name) as [E|E].
    + split; [discriminate|]. intros H. exfalso. apply H. left. exact E.
    + rewrite IH. split.
      * intros H [H1|H1]; [exact (E H1)|exact (H H1)].
      * intros H H1. apply H. right. exact H1.
Qed.

Lemma lookup_some name l v :
  lookup name l = Some v -> In v l /\ v_name v = name.
Proof.
  unfold lookup. intros H. apply find_some in H. destruct H as [H1 H2].
  split; [exact H1|]. apply String.eqb_eq. exact H2.
Qed.

Lemma lookup_nodup l v :
  NoDup (map v_name l) -> In v l -> lookup (v_name v) l = Some v.
Proof.
  unfold lookup. induction l as [|u l IH]; simpl; [intros _ []|].
  intros Hnd Hin. inversion Hnd as [|? ? Hnot Hnd']; subst.
  destruct Hin as [->|Hin].
  - rewrite String.eqb_refl. reflexivity.
  - destruct (String.eqb_spec (v_name u) (v_name v)) as [E|E].
    + exfalso. apply Hnot. rewrite E. apply in_map. exact Hin.
    + apply IH; assumption.
Qed.

Lemma touched_nil reuse gr : touched reuse gr gr [].
Proof.
  unfold touched. destruct reuse.
  - split; [reflexivity|constructor].
  - repeat split; [symmetry; apply app_nil_r|constructor|constructor].
Qed.

Lemma touched_app reuse gr gr1 gr2 vs1 vs2 :
  touched reuse gr gr1 vs1 -> touched reuse gr1 gr2 vs2 ->
  touched reuse gr gr2 (vs1 ++ vs2).
Proof.
  unfold touched. destruct reuse.
  - intros [-> H1] [-> H2]. split; [reflexivity|].
    apply Forall_app. split; assumption.
  - intros (S1 & V1 & N1 & F1) (S2 & V2 & N2 & F2).
    assert (F2' : Forall (fun v => lookup (v_name v) (g_vars gr) = None /\
                                   ~ In (v_name v) (map v_name vs1)) vs2).
    { revert F2. apply Forall_impl. intros v Hv. unfold find_var in Hv.
      fold (lookup (v_name v) (g_vars gr1)) in Hv. rewrite V1, lookup_app in Hv.
      destruct (lookup (v_name v) (g_vars gr)) eqn:E; [discriminate|].
      split; [reflexivity|]. apply lookup_none. exact Hv. }
    repeat split.
    + congruence.
    + rewrite V2, V1, app_assoc. reflexivity.
    + rewrite map_app. apply NoDup_app; [exact N1|exact N2|].
      intros n Hn1 Hn2. apply in_map_iff in Hn2. destruct Hn2 as (v & <- & Hv).
      rewrite Forall_forall in F2'. apply (proj2 (F2' v Hv)). exact Hn1.
    + apply Forall_app. split; [exact F1|].
      revert F2'. apply Forall_impl. intros v [Hv _]. exact Hv.
Qed.

Lemma get_variable_ok sc name sh gr v gr' :
  get_variable sc name sh gr = Ok (v, gr') ->
  v_name v = (sc_name sc ++ "/" ++ name ++ ":0")%string /\
  touched (sc_reuse sc) gr gr' [v].
Proof.
  unfold get_variable, touched.
  destruct (find_var _ gr) as [u|] eqn:E; destruct (sc_reuse sc); try discriminate.
  - destruct (shape_eqb (v_shape u) sh); [|discriminate].
    intros H. inversion H; subst. unfold find_var in E.
    destruct (lookup_some _ _ _ E) as [_ Hn]. split; [exact Hn|].
    split; [reflexivity|]. constructor; [|constructor].
    unfold find_var. rewrite Hn. exact E.
  - intros H. inversion H; subst. simpl. split; [reflexivity|].
    repeat split.
    + constructor; [intros []|constructor].
    + constructor; [exact E|constructor].
Qed.

(* ------------------------------------------------------------------------- *)
(** ** Chains of layers *)

Lemma apply_ops_app t ops1 ops2 :
  apply_ops t (ops1 ++ ops2) = apply_ops (apply_ops t ops1) ops2.
Proof. unfold apply_ops. apply fold_left_app. Qed.

Lemma params_of_apply_ops t ops :
  params_of (apply_ops t ops) = params_of t ++ ops_vars ops.
Proof.
  revert t. induction ops as [|o ops IH]; intros t; simpl.
  - symmetry. apply app_nil_r.
  - unfold apply_ops in *. simpl. rewrite IH.
    destruct o; simpl; [rewrite <- app_assoc|]; reflexivity.
Qed.

Lemma layer_names_apply_ops t ops :
  layer_names (apply_ops t ops) = layer_names t ++ ops_layers ops.
Proof.
  revert t. induction ops as [|o ops IH]; intros t; simpl.
  - symmetry. apply app_nil_r.
  - unfold apply_ops in *. simpl. rewrite IH.
    destruct o; simpl; [rewrite <- app_assoc|]; reflexivity.
Qed.

Lemma chain_unary scope reuse u inp gr :
  chain scope reuse [] inp gr (Unary u inp) gr.
Proof. exists [OUnary u]. repeat split. apply touched_nil. Qed.

Lemma chain_refl scope reuse inp gr : chain scope reuse [] inp gr inp gr.
Proof. exists []. repeat split. apply touched_nil. Qed.

Lemma chain_trans scope reuse n1 n2 inp gr mid gr1 out gr2 :
  chain scope reuse n1 inp gr mid gr1 ->
  chain scope reuse n2 mid gr1 out gr2 ->
  chain scope reuse (n1 ++ n2) inp gr out gr2.
Proof.
  intros (ops1 & -> & L1 & N1 & T1) (ops2 & -> & L2 & N2 & T2).
  exists (ops1 ++ ops2). unfold ops_layers, ops_vars in *.
  rewrite !flat_map_app, map_app, apply_ops_app, L1, L2, N1, N2.
  repeat split. eapply touched_app; eassumption.
Qed.

Lemma stage_ok_unary scope reuse u :
  stage_ok scope reuse [] (fun t => ret (Unary u t)).
Proof.
  intros inp gr out gr' H. apply ret_ok in H. destruct H as [-> ->].
  apply chain_unary.
Qed.

Lemma stage_ok_bind scope reuse n1 n2 f h :
  stage_ok scope reuse n1 f -> stage_ok scope reuse n2 h ->
  stage_ok scope reuse (n1 ++ n2) (fun t => bind (f t) h).
Proof.
  intros Hf Hh inp gr out gr' H. run_bind H as mid gr1 Hmid.
  eapply chain_trans; [apply Hf|apply Hh]; eassumption.
Qed.

Lemma stage_ok_for_each scope reuse (nm : Z -> list string) body l :
  (forall i, stage_ok scope reuse (nm i) (body i)) ->
  stage_ok scope reuse (flat_map nm l) (for_each l body).
Proof.
  intros Hb. induction l as [|i l IH]; simpl.
  - intros inp gr out gr' H. apply ret_ok in H. destruct H as [-> ->].
    apply chain_refl.
  - apply stage_ok_bind; [apply Hb|exact IH].
Qed.

Lemma param_layer_inv sc k name inp gr out gr' :
  param_layer sc k name inp gr = Ok (out, gr') ->
  exists w b,
    out = Layer k name w b inp /\
    map v_name [w; b] = layer_var_names (sc_name sc) name /\
    touched (sc_reuse sc) gr gr' [w; b].
Proof.
  intros H. unfold param_layer in H.
  destruct (shape_of inp) as [sh|]; [|discriminate].
  destruct (layer_shapes k sh) as [[[wsh bsh] osh]|]; [|discriminate].
  run_bind H as w gw Hw. run_bind H as b gb Hb.
  apply ret_ok in H. destruct H as [-> ->].
  apply get_variable_ok in Hw, Hb.
  destruct Hw as [Nw Tw], Hb as [Nb Tb].
  exists w, b. repeat split.
  - simpl. unfold layer_var_names, var_name. rewrite Nw, Nb. reflexivity.
  - apply (touched_app _ _ gw _ [w] [b]); assumption.
Qed.

Lemma param_layer_ok sc k name :
  stage_ok (sc_name sc) (sc_reuse sc) [name] (param_layer sc k name).
Proof.
  intros inp gr out gr' H. apply param_layer_inv in H.
  destruct H as (w & b & -> & N & T).
  exists [OLayer k name w b]. repeat split.
  - simpl. simpl in N. rewrite N. reflexivity.
  - exact T.
Qed.

Lemma with_reuse_scope name reuse :
  with_reuse (variable_scope name reuse) reuse = variable_scope name reuse.
Proof. destruct reuse; reflexivity. Qed.

Lemma gen_stage_ok self reuse i :
  stage_ok "generator" (reuse_flag reuse) (gen_stage_layers i)
    (gen_stage self (variable_scope "generator" reuse) true i).
Proof.
  unfold gen_stage, conv2d, batch_norm, with_reuse.
  apply (stage_ok_bind _ _ [_] [_]).
  - apply (param_layer_ok (variable_scope "generator" reuse)).
  - apply (stage_ok_bind _ _ [_] []).
    + apply (param_layer_ok (variable_scope "generator" reuse)).
    + apply stage_ok_unary.
Qed.

Lemma disc_stage_ok self reuse i :
  stage_ok "discriminator" (reuse_flag reuse) (disc_stage_layers i)
    (disc_stage self (variable_scope "discriminator" reuse) reuse i).
Proof.
  unfold disc_stage, conv2d, batch_norm. rewrite with_reuse_scope.
  apply (stage_ok_bind _ _ [_] [_]).
  - apply (param_layer_ok (variable_scope "discriminator" reuse)).
  - apply (stage_ok_bind _ _ [_] []).
    + apply (param_layer_ok (variable_scope "discriminator" reuse)).
    + intros inp gr out gr' H. apply ret_ok in H. destruct H as [-> ->].
      apply (chain_trans _ _ [] [] _ _ (Unary (LeakyRelu (2 # 10)) inp) gr);
        apply chain_unary.
Qed.

Lemma generator_ok self reuse is_train n :
  n_layer self = PyInt n ->
  stage_ok "generator" (reuse_flag reuse) (gen_layers n)
    (fun noise => generator self noise reuse is_train).
Proof.
  intros Hn noise gr out gr' H. unfold generator in H. rewrite Hn in H.
  simpl py_floordiv in H. simpl py_range in H.
  run_bind H as t1 g1 H1.
  apply (param_layer_ok (variable_scope "generator" reuse)) in H1.
  run_bind H as t3 g3 H3. unfold reshape in H3.
  destruct (shape_of _); [|discriminate]. apply ret_ok in H3. destruct H3 as [-> ->].
  run_bind H as r1 gr1 Hr1. apply ret_ok in Hr1. destruct Hr1 as [-> ->].
  run_bind H as t4 g4 H4.
  apply (stage_ok_for_each "generator" (reuse_flag reuse) gen_stage_layers) in H4; [|intros i; apply gen_stage_ok].
  run_bind H as t5 g5 H5. apply ret_ok in H5. destruct H5 as [-> ->].
  run_bind H as r2 gr2 Hr2. apply ret_ok in Hr2. destruct Hr2 as [-> ->].
  run_bind H as t6 g6 H6.
  apply (stage_ok_for_each "generator" (reuse_flag reuse) gen_stage_layers) in H6; [|intros i; apply gen_stage_ok].
  run_bind H as t7 g7 H7.
  apply (param_layer_ok (variable_scope "generator" reuse)) in H7.
  apply ret_ok in H. destruct H as [-> ->].
  unfold gen_layers.
  eapply chain_trans; [exact H1|].
  apply (chain_trans _ _ [] _ _ _ (Unary Relu t1) g1); [apply chain_unary|].
  apply (chain_trans _ _ [] _ _ _ (Unary (Reshape [-1; 4; 4; gf_dim self * 8]) (relu t1)) g1);
    [apply chain_unary|].
  eapply chain_trans; [exact H4|].
  eapply chain_trans; [exact H6|].
  rewrite <- (app_nil_r ["gen-conv2d-5"]).
  eapply chain_trans; [exact H7|]. apply chain_unary.
Qed.

Lemma generator_int self noise reuse is_train gr out gr' :
  generator self noise reuse is_train gr = Ok (out, gr') ->
  exists n, n_layer self = PyInt n.
Proof.
  intros H. destruct (n_layer self) as [n|r] eqn:E; [exists n; reflexivity|].
  exfalso. unfold generator in H. rewrite E in H.
  run_bind H as t1 g1 H1. run_bind H as t3 g3 H3. run_bind H as r1 gr1 Hr1.
  discriminate Hr1.
Qed.

Lemma get_variable_raises sc name sh gr e :
  get_variable sc name sh gr = Raise e -> e = ValueError.
Proof.
  unfold get_variable.
  destruct (find_var _ gr); destruct (sc_reuse sc); try destruct (shape_eqb _ _);
    intros H; inversion H; reflexivity.
Qed.

Lemma param_layer_raises sc k name inp gr e :
  param_layer sc k name inp gr = Raise e -> e = ValueError.
Proof.
  unfold param_layer.
  destruct (shape_of inp) as [sh|]; [|intros H; inversion H; reflexivity].
  destruct (layer_shapes k sh) as [[[wsh bsh] osh]|]; [|intros H; inversion H; reflexivity].
  unfold bind.
  destruct (get_variable sc _ wsh gr) as [[w gw]|e1] eqn:Hw.
  - destruct (get_variable sc _ bsh gw) as [[b gb]|e2] eqn:Hb.
    + discriminate.
    + intros H. inversion H; subst. eapply get_variable_raises. exact Hb.
  - intros H. inversion H; subst. eapply get_variable_raises. exact Hw.
Qed.

Lemma reshape_raises inp target gr e :
  reshape inp target gr = Raise e -> e = ValueError.
Proof.
  unfold reshape. destruct (shape_of _); [discriminate|].
  intros H. inversion H. reflexivity.
Qed.

(** With a float layer count the generator stops, at the latest, at the
    [range] of its first loop. *)
Lemma generator_float self noise reuse is_train gr r :
  n_layer self = PyFloat r ->
  generator self noise reuse is_train gr = Raise TypeError \/
  generator self noise reuse is_train gr = Raise ValueError.
Proof.
  intros E. unfold generator. rewrite E. unfold bind.
  destruct (dense _ noise _ _ gr) as [[t1 g1]|e] eqn:Hd.
  - destruct (reshape (relu t1) _ g1) as [[t3 g3]|e] eqn:Hr.
    + left. reflexivity.
    + right. apply reshape_raises in Hr. rewrite Hr. reflexivity.
  - right. apply param_layer_raises in Hd. rewrite Hd. reflexivity.
Qed.

(** The discriminator: a trunk on top of the image, then two dense heads on
    the flattened trunk. *)
Lemma discriminator_ok self img reuse gr cat disc net gr' :
  discriminator self img reuse gr = Ok (cat, disc, net, gr') ->
  exists wc bc wd bd gr1,
    chain "discriminator" (reuse_flag reuse) disc_trunk_layers img gr net gr1 /\
    cat = Layer (Dense (n_classes self)) "disc-fc-cat" wc bc net /\
    disc = Layer (Dense 1) "disc-fc-disc" wd bd net /\
    map v_name [wc; bc; wd; bd] =
      flat_map (layer_var_names "discriminator") ["disc-fc-cat"; "disc-fc-disc"] /\
    touched (reuse_flag reuse) gr1 gr' [wc; bc; wd; bd].
Proof.
  intros H. unfold discriminator in H.
  run_bind H as t1 g1 H1.
  apply (param_layer_ok (variable_scope "discriminator" reuse)) in H1.
  run_bind H as r gr1 Hr. apply ret_ok in Hr. destruct Hr as [-> ->].
  run_bind H as t4 g4 H4.
  apply (stage_ok_for_each "discriminator" (reuse_flag reuse) disc_stage_layers) in H4; [|intros i; apply disc_stage_ok].
  run_bind H as tc gc Hc.
  apply (param_layer_inv (variable_scope "discriminator" reuse)) in Hc.
  run_bind H as td gd Hd.
  apply (param_layer_inv (variable_scope "discriminator" reuse)) in Hd.
  apply ret_ok in H. destruct H as [H ->]. inversion H; subst cat disc net; clear H.
  destruct Hc as (wc & bc & E1 & N1 & T1).
  destruct Hd as (wd & bd & E2 & N2 & T2).
  exists wc, bc, wd, bd, g4. split; [|split; [|split; [|split]]].
  - unfold disc_trunk_layers.
    change ("disc-conv2d-1" :: flat_map disc_stage_layers (zrange 0 5))
      with (["disc-conv2d-1"] ++ flat_map disc_stage_layers (zrange 0 5)).
    eapply chain_trans; [exact H1|].
    rewrite <- (app_nil_r (flat_map _ _)).
    eapply chain_trans; [|apply chain_unary].
    apply (chain_trans _ _ [] _ _ _ (Unary (LeakyRelu (2 # 10)) t1) g1); [apply chain_unary|].
    apply (chain_trans _ _ [] _ _ _
             (dropout (leaky_relu t1 (2 # 10)) (5 # 10) "disc-dropout2d-1") g1);
      [apply chain_unary|].
    exact H4.
  - exact E1.
  - exact E2.
  - simpl in N1, N2. simpl. inversion N1. inversion N2. reflexivity.
  - apply (touched_app _ _ gc _ [wc; bc] [wd; bd]); assumption.
Qed.

(* ------------------------------------------------------------------------- *)
(** ** Sharing: variables created once are the ones found later *)

Lemma created_found gr gr' vs :
  touched false gr gr' vs ->
  Forall (fun v => find_var (v_name v) gr' = Some v) vs.
Proof.
  intros (_ & V & N & F). apply Forall_forall. intros v Hv.
  unfold find_var. rewrite V. fold (lookup (v_name v) (g_vars gr ++ vs)).
  rewrite lookup_app. rewrite Forall_forall in F. specialize (F v Hv).
  unfold find_var in F. fold (lookup (v_name v) (g_vars gr)) in F. rewrite F.
  apply lookup_nodup; assumption.
Qed.

Lemma same_names_same_vars (F : string -> option variable) vs1 vs2 :
  Forall (fun v => F (v_name v) = Some v) vs1 ->
  Forall (fun v => F (v_name v) = Some v) vs2 ->
  map v_name vs1 = map v_name vs2 ->
  vs1 = vs2.
Proof.
  revert vs2. induction vs1 as [|v1 vs1 IH]; intros [|v2 vs2] H1 H2 E;
    try discriminate E; [reflexivity|].
  inversion H1 as [|? ? Hv1 H1']; subst. inversion H2 as [|? ? Hv2 H2']; subst.
  simpl in E. inversion E as [[En Em]].
  rewrite En in Hv1. rewrite Hv1 in Hv2. inversion Hv2; subst v2.
  f_equal. apply IH; assumption.
Qed.

Lemma touched_shares gr0 gr1 gr2 vs1 vs2 :
  touched false gr0 gr1 vs1 ->
  touched true gr1 gr2 vs2 ->
  map v_name vs1 = map v_name vs2 ->
  gr2 = gr1 /\ vs2 = vs1.
Proof.
  intros T1 [-> F2] E. split; [reflexivity|]. symmetry.
  apply (same_names_same_vars (fun n => find_var n gr1)); [|exact F2|exact E].
  eapply created_found. exact T1.
Qed.

Lemma app_inv_same_length {A : Type} (l1 l2 t1 t2 : list A) :
  l1 ++ t1 = l2 ++ t2 -> List.length t1 = List.length t2 -> l1 = l2 /\ t1 = t2.
Proof.
  revert l2. induction l1 as [|a l1 IH]; intros [|b l2] E L; simpl in E.
  - split; [reflexivity|exact E].
  - exfalso. apply (f_equal (@List.length A)) in E. simpl in E.
    rewrite length_app in E. lia.
  - exfalso. apply (f_equal (@List.length A)) in E. simpl in E.
    rewrite length_app in E. lia.
  - inversion E as [[Ea Et]]. destruct (IH _ Et L) as [-> ->].
    split; reflexivity.
Qed.

Lemma own_params_apply_ops inp ops :
  own_params inp (apply_ops inp ops) = ops_vars ops.
Proof.
  unfold own_params. rewrite params_of_apply_ops, skipn_app, skipn_all, Nat.sub_diag.
  reflexivity.
Qed.

Lemma own_params_layer inp ops k name w b :
  own_params inp (Layer k name w b (apply_ops inp ops)) = ops_vars ops ++ [w; b].
Proof.
  change (Layer k name w b (apply_ops inp ops))
    with (apply_ops (apply_ops inp ops) [OLayer k name w b]).
  rewrite <- apply_ops_app, own_params_apply_ops.
  unfold ops_vars. rewrite flat_map_app. reflexivity.
Qed.

(** Two invocations of the discriminator, the first creating its variables,
    the second reusing them on the graph the first one left: the second
    leaves the graph as it is and applies the very same variables. *)
Lemma discriminator_shares self1 self2 img1 img2 gr0 gr1 gr2
    c1 d1 n1 c2 d2 n2 :
  discriminator self1 img1 None gr0 = Ok (c1, d1, n1, gr1) ->
  discriminator self2 img2 (Some true) gr1 = Ok (c2, d2, n2, gr2) ->
  gr2 = gr1 /\
  own_params img2 c2 = own_params img1 c1 /\
  own_params img2 d2 = own_params img1 d1 /\
  own_params img2 n2 = own_params img1 n1.
Proof.
  intros H1 H2.
  apply discriminator_ok in H1. destruct H1 as (wc1 & bc1 & wd1 & bd1 & ga & C1 & -> & -> & N1 & T1).
  apply discriminator_ok in H2. destruct H2 as (wc2 & bc2 & wd2 & bd2 & gb & C2 & -> & -> & N2 & T2).
  destruct C1 as (ops1 & -> & L1 & V1 & TT1).
  destruct C2 as (ops2 & -> & L2 & V2 & TT2).
  simpl reuse_flag in *.
  pose proof (touched_app _ _ _ _ _ _ TT1 T1) as A1.
  pose proof (touched_app _ _ _ _ _ _ TT2 T2) as A2.
  destruct (touched_shares _ _ _ _ _ A1 A2) as [Eg Ev].
  { rewrite !map_app, V1, V2, N1, N2. reflexivity. }
  apply app_inv_same_length in Ev; [|reflexivity].
  destruct Ev as [Eo Eh]. inversion Eh; subst.
  split; [reflexivity|].
  rewrite !own_params_layer, !own_params_apply_ops, Eo.
  repeat split.
Qed.

(* ------------------------------------------------------------------------- *)
(** ** Names *)

Lemma prefix_cons a s1 b s2 :
  String.prefix (String a s1) (String b s2) =
  if ascii_dec a b then String.prefix s1 s2 else false.
Proof. reflexivity. Qed.

Lemma startswith_d_not_g name :
  startswith "d" name = true -> startswith "g" name = false.
Proof.
  unfold startswith. destruct name as [|c name]; [discriminate|].
  rewrite !prefix_cons.
  destruct (ascii_dec "d" c) as [<-|]; [|discriminate].
  intros _. reflexivity.
Qed.

Lemma generator_names_g lnames name :
  In name (flat_map (layer_var_names "generator") lnames) ->
  startswith "g" name = true.
Proof.
  intros H. apply in_flat_map in H. destruct H as (l & _ & [<-|[<-|[]]]); reflexivity.
Qed.

Lemma discriminator_names_d lnames name :
  In name (flat_map (layer_var_names "discriminator") lnames) ->
  startswith "d" name = true.
Proof.
  intros H. apply in_flat_map in H. destruct H as (l & _ & [<-|[<-|[]]]); reflexivity.
Qed.

Lemma gen_layers_not_cat n : ~ In "disc-fc-cat" (gen_layers n).
Proof.
  unfold gen_layers. intros H.
  repeat (apply in_app_or in H; destruct H as [H|H]).
  - destruct H as [H|[]]. discriminate H.
  - apply in_flat_map in H. destruct H as (i & _ & [H|[H|[]]]); discriminate H.
  - apply in_flat_map in H. destruct H as (i & _ & [H|[H|[]]]); discriminate H.
  - destruct H as [H|[]]. discriminate H.
Qed.

Lemma gen_layers_not_attention n name :
  In name (gen_layers n) -> String.prefix "gen-attention" name = false.
Proof.
  unfold gen_layers. intros H.
  repeat (apply in_app_or in H; destruct H as [H|H]).
  - destruct H as [<-|[]]. reflexivity.
  - apply in_flat_map in H. destruct H as (i & _ & [<-|[<-|[]]]); reflexivity.
  - apply in_flat_map in H. destruct H as (i & _ & [<-|[<-|[]]]); reflexivity.
  - destruct H as [<-|[]]. reflexivity.
Qed.

Lemma disc_trunk_not_cat : ~ In "disc-fc-cat" disc_trunk_layers.
Proof.
  unfold disc_trunk_layers. intros [H|H]; [discriminate H|].
  apply in_flat_map in H. destruct H as (i & _ & [H|[H|[]]]); discriminate H.
Qed.

(* ------------------------------------------------------------------------- *)
(** ** What a successful [build_sagan] did *)

Lemma minimize_inv opt loss vl gr op gr' :
  minimize opt loss vl gr = Ok (op, gr') ->
  gr' = gr /\
  op = {| op_optimizer := opt; op_loss := loss; op_var_list := vl |}.
Proof.
  unfold minimize. destruct vl as [|v vl]; [discriminate|].
  destruct (existsb _ _); [|discriminate].
  intros H. apply ret_ok in H. destruct H as [-> ->]. split; reflexivity.
Qed.

Lemma Saver_inv n gr sv gr' :
  Saver n gr = Ok (sv, gr') -> gr' = gr /\ sv = {| max_to_keep := n |}.
Proof.
  unfold Saver. destruct (g_vars gr); [discriminate|].
  intros H. inversion H. split; reflexivity.
Qed.

Lemma FileWriter_inv dir g gr w gr' :
  FileWriter dir g gr = Ok (w, gr') ->
  w = {| logdir := dir |} /\
  gr' = {| g_vars := g_vars gr; g_summaries := g_summaries gr;
           fs_denied := fs_denied gr; fs_events := fs_events gr ++ [(dir, g)] |} /\
  existsb (String.eqb dir) (fs_denied gr) = false.
Proof.
  unfold FileWriter. destruct (existsb _ _); [discriminate|].
  intros H. inversion H. repeat split.
Qed.

Lemma build_sagan_inv self gr0 self' gr' :
  build_sagan self gr0 = Ok (self', gr') ->
  exists gen gr1 c_real d_real n_real gr2 c_fake d_fake n_fake gr3,
    generator self (z self) None true gr0 = Ok (gen, gr1) /\
    discriminator (set_g self (Some gen)) (x self) None gr1
      = Ok (c_real, d_real, n_real, gr2) /\
    discriminator (set_g self (Some gen)) gen (Some true) gr2
      = Ok (c_fake, d_fake, n_fake, gr3) /\
    g_vars gr' = g_vars gr3 /\
    g self' = Some gen /\
    d_loss self' = LTensor (Add (sce_loss d_real (ones_like d_real))
                                (sce_loss d_fake (zeros_like d_fake))) /\
    g_loss self' = LTensor (sce_loss d_fake (ones_like d_fake)) /\
    c_loss self' = c_loss self /\
    d_op self' = Some {| op_optimizer := AdamOptimizer (lr self * 4) (beta1 self) (beta2 self);
                         op_loss := d_loss self';
                         op_var_list := filter is_d (g_vars gr') |} /\
    g_op self' = Some {| op_optimizer := AdamOptimizer (lr self * 1) (beta1 self) (beta2 self);
                         op_loss := g_loss self';
                         op_var_list := filter is_g (g_vars gr') |} /\
    lr self' = lr self.
Proof.
  intros H. unfold build_sagan in H.
  run_bind H as gen gr1 Hgen.
  run_bind H as real gr2 Hreal. destruct real as [[c_real d_real] n_real].
  run_bind H as img gi Himg. apply ret_ok in Himg. destruct Himg as [-> ->].
  run_bind H as fake gr3 Hfake. destruct fake as [[c_fake d_fake] n_fake].
  run_bind H as u1 gs1 Hs1. inversion Hs1; subst u1 gs1; clear Hs1.
  run_bind H as u2 gs2 Hs2. inversion Hs2; subst u2 gs2; clear Hs2.
  run_bind H as u3 gs3 Hs3. inversion Hs3; subst u3 gs3; clear Hs3.
  run_bind H as u4 gs4 Hs4. inversion Hs4; subst u4 gs4; clear Hs4.
  run_bind H as t_vars gt Ht. inversion Ht; subst t_vars gt; clear Ht.
  run_bind H as op1 go1 Ho1. apply minimize_inv in Ho1. destruct Ho1 as [-> ->].
  run_bind H as op2 go2 Ho2. apply minimize_inv in Ho2. destruct Ho2 as [-> ->].
  run_bind H as m gm Hm. inversion Hm; subst m gm; clear Hm.
  run_bind H as sv gv Hsv. apply Saver_inv in Hsv. destruct Hsv as [-> ->].
  run_bind H as w gw Hw. apply FileWriter_inv in Hw. destruct Hw as (-> & -> & _).
  apply ret_ok in H. destruct H as [-> ->].
  exists gen, gr1, c_real, d_real, n_real, gr2, c_fake, d_fake, n_fake, gr3.
  repeat split; try assumption; reflexivity.
Qed.

Lemma tiny_build : build_sagan tiny_self fresh_graph = Ok tiny_built.
Proof. vm_compute. reflexivity. Qed.

(* ------------------------------------------------------------------------- *)
(** ** Construction *)

Lemma init_params_duplicate : has_duplicate init_params = true.
Proof. reflexivity. Qed.

Lemma construct_raises s batch_size height width channel n_classes
    sample_num sample_size df_dim gf_dim fc_unit z_dim lr gr :
  construct s batch_size height width channel n_classes
    sample_num sample_size df_dim gf_dim fc_unit z_dim lr gr = Raise SyntaxError.
Proof. reflexivity. Qed.

Lemma build_sagan_float self gr r :
  n_layer self = PyFloat r ->
  build_sagan self gr = Raise TypeError \/ build_sagan self gr = Raise ValueError.
Proof.
  intros E. unfold build_sagan.
  destruct (generator_float self (z self) None true gr r E) as [H|H];
    [left|right]; apply bind_raise; exact H.
Qed.

Lemma np_log2_inv n l : np_log2 n = Ok l -> l = FLog2 n /\ in_64_bits n.
Proof.
  unfold np_log2, in_64_bits.
  destruct (- 2 ^ 63 <=? n) eqn:A; destruct (n <? 2 ^ 64) eqn:B; simpl;
    intros H; inversion H. split; [reflexivity|]. lia.
Qed.

Lemma np_log2_raises n e : np_log2 n = Raise e -> e = TypeError /\ ~ in_64_bits n.
Proof.
  unfold np_log2, in_64_bits.
  destruct (- 2 ^ 63 <=? n) eqn:A; destruct (n <? 2 ^ 64) eqn:B; simpl;
    intros H; inversion H; split; try reflexivity; lia.
Qed.

Lemma np_log2_ok n : in_64_bits n -> np_log2 n = Ok (FLog2 n).
Proof.
  unfold np_log2, in_64_bits. intros H.
  destruct (- 2 ^ 63 <=? n) eqn:A; destruct (n <? 2 ^ 64) eqn:B; simpl;
    try reflexivity; lia.
Qed.

Lemma np_log2_refuses n : ~ in_64_bits n -> np_log2 n = Raise TypeError.
Proof.
  intros H. destruct (np_log2 n) as [l|e] eqn:E.
  - apply np_log2_inv in E. tauto.
  - apply np_log2_raises in E. destruct E as [-> _]. reflexivity.
Qed.

Lemma dim_ok_size n : dim_ok (Some n) = true -> 0 <= n < 2 ^ 63.
Proof.
  unfold dim_ok. intros H. apply andb_true_iff in H. destruct H as [A B].
  apply Z.leb_le in A. apply Z.ltb_lt in B. split; assumption.
Qed.

Lemma placeholder_inv sh name gr t gr' :
  placeholder sh name gr = Ok (t, gr') ->
  t = Placeholder name sh /\ gr' = gr /\ forallb dim_ok sh = true.
Proof.
  unfold placeholder. destruct (forallb dim_ok sh); [|discriminate].
  intros H. apply ret_ok in H. destruct H as [-> ->]. repeat split.
Qed.

Lemma placeholder_raises sh name gr e :
  placeholder sh name gr = Raise e -> e = ValueError /\ forallb dim_ok sh = false.
Proof.
  unfold placeholder. destruct (forallb dim_ok sh); intros H; inversion H.
  split; reflexivity.
Qed.

(** What lines 43-86 have done when they are through: nothing to the graph,
    and the object holds a float layer count and the two placeholders. *)
Lemma init_fields_inv s batch_size height width channel n_classes
    sample_num sample_size df_dim gf_dim fc_unit z_dim lr gr self gr' :
  init_fields s batch_size height width channel n_classes
    sample_num sample_size df_dim gf_dim fc_unit z_dim lr gr = Ok (self, gr') ->
  gr' = gr /\ height = width /\ in_64_bits height /\
  forallb dim_ok [None; Some height; Some width; Some channel] = true /\
  forallb dim_ok [None; Some z_dim] = true /\
  self = init_attrs s batch_size height width channel n_classes
           sample_num sample_size df_dim gf_dim fc_unit z_dim lr
           (PyFloat (FSub (FLog2 height) 2))
           (Placeholder "x-image" [None; Some height; Some width; Some channel])
           (Placeholder "z-noise" [None; Some z_dim]).
Proof.
  intros H. unfold init_fields in H.
  run_bind H as l g0 Hl. apply lift_ok in Hl. destruct Hl as [Hl ->].
  apply np_log2_inv in Hl. destruct Hl as [-> Hr].
  destruct (Z.eqb_spec height width) as [E|E]; simpl negb in H; cbv iota in H;
    [|discriminate H].
  run_bind H as x0 g1 Hx. apply placeholder_inv in Hx. destruct Hx as (-> & -> & Dx).
  run_bind H as z0 g2 Hz. apply placeholder_inv in Hz. destruct Hz as (-> & -> & Dz).
  apply ret_ok in H. destruct H as [-> ->].
  split; [reflexivity|]. split; [exact E|]. split; [exact Hr|].
  split; [exact Dx|]. split; [exact Dz|reflexivity].
Qed.

(** Which line of 43-86 stops the constructor, and with what. *)
Lemma init_fields_raises s batch_size height width channel n_classes
    sample_num sample_size df_dim gf_dim fc_unit z_dim lr gr e :
  init_fields s batch_size height width channel n_classes
    sample_num sample_size df_dim gf_dim fc_unit z_dim lr gr = Raise e ->
  (e = TypeError /\ ~ in_64_bits height) \/
  (e = AssertionError /\ in_64_bits height /\ height <> width) \/
  (e = ValueError /\ in_64_bits height /\ height = width /\
   (forallb dim_ok [None; Some height; Some width; Some channel] = false \/
    forallb dim_ok [None; Some z_dim] = false)).
Proof.
  intros H. unfold init_fields in H.
  apply bind_raise_inv in H. destruct H as [H|(l & g0 & Hl & H)].
  { left. unfold lift in H. destruct (np_log2 height) as [l|e0] eqn:E; [discriminate H|].
    inversion H; subst e0. apply np_log2_raises in E. exact E. }
  apply lift_ok in Hl. destruct Hl as [Hl ->]. apply np_log2_inv in Hl.
  destruct Hl as [-> Hr]. right.
  destruct (Z.eqb_spec height width) as [E|E]; simpl negb in H; cbv iota in H.
  - right.
    apply bind_raise_inv in H. destruct H as [H|(x0 & g1 & Hx & H)].
    { apply placeholder_raises in H. destruct H as [-> D]. tauto. }
    apply bind_raise_inv in H. destruct H as [H|(z0 & g2 & Hz & H)].
    { apply placeholder_raises in H. destruct H as [-> D]. tauto. }
    discriminate H.
  - left. inversion H. tauto.
Qed.

Lemma init_fields_default gf_dim gr :
  init_fields Session 100 32 32 3 10 (10 * 10) 10 64 gf_dim 512 128 (1 # 10000) gr
  = Ok (default_attrs gf_dim, gr).
Proof. reflexivity. Qed.

(** The body of [__init__] never returns an object: it stops on lines 43-86
    or, with the float layer count, in the generator. *)
Lemma init_raises s batch_size height width channel n_classes
    sample_num sample_size df_dim gf_dim fc_unit z_dim lr gr :
  exists e,
    __init__ s batch_size height width channel n_classes
      sample_num sample_size df_dim gf_dim fc_unit z_dim lr gr = Raise e /\
    (e = TypeError \/ e = AssertionError \/ e = ValueError).
Proof.
  unfold __init__, bind.
  destruct (init_fields s batch_size height width channel n_classes
              sample_num sample_size df_dim gf_dim fc_unit z_dim lr gr)
    as [[self g1]|e] eqn:E.
  - apply init_fields_inv in E. destruct E as (-> & _ & _ & _ & _ & ->).
    destruct (build_sagan_float
                (init_attrs s batch_size height width channel n_classes
                   sample_num sample_size df_dim gf_dim fc_unit z_dim lr
                   (PyFloat (FSub (FLog2 height) 2))
                   (Placeholder "x-image" [None; Some height; Some width; Some channel])
                   (Placeholder "z-noise" [None; Some z_dim])) gr
                (FSub (FLog2 height) 2) eq_refl) as [H|H]; rewrite H.
    + exists TypeError. tauto.
    + exists ValueError. tauto.
  - exists e. split; [reflexivity|].
    apply init_fields_raises in E. destruct E as [[-> _]|[[-> _]|[-> _]]]; tauto.
Qed.

(** C1 (the code raises): evaluating the module stops with a [SyntaxError] at
    the parameter list of [__init__], which names [gf_dim] twice, whatever the
    arguments; and the body of [__init__], run on the spec's configuration in
    a fresh graph with either default of [gf_dim], stops with a [TypeError]
    at [range(self.n_layer // 2)], [n_layer] being a float. *)
Theorem C1_construction_raises :
  (forall s batch_size height width channel n_classes
          sample_num sample_size df_dim gf_dim fc_unit z_dim lr gr,
      construct s batch_size height width channel n_classes
        sample_num sample_size df_dim gf_dim fc_unit z_dim lr gr = Raise SyntaxError) /\
  (forall gf_dim,
      __init__ Session 100 32 32 3 10 (10 * 10) 10 64 gf_dim 512 128 (1 # 10000) fresh_graph
      = Raise TypeError).
Proof.
  split.
  - intros. apply construct_raises.
  - intros gf_dim. reflexivity.
Qed.

(* ------------------------------------------------------------------------- *)
(** ** The layer count *)

Lemma log2_pow2 k : 0 <= k -> Z.log2 (2 ^ k) = k.
Proof. intros H. apply Z.log2_pow2. exact H. Qed.

Lemma float_value_log2_pow2 k : 0 <= k < 64 -> float_value (FLog2 (2 ^ k)) = Some k.
Proof.
  intros H. cbn [float_value]. rewrite log2_pow2 by lia.
  assert (P : 0 < 2 ^ k) by (apply Z.pow_pos_nonneg; lia).
  assert (Q : 2 ^ k < 2 ^ 64) by (apply Z.pow_lt_mono_r; lia).
  destruct (Z.ltb_spec 0 (2 ^ k)); [|lia].
  destruct (Z.ltb_spec (2 ^ k) (2 ^ 64)); [|lia].
  rewrite Z.eqb_refl. reflexivity.
Qed.

(** The layer count line 52 derives from a height that is a power of two. *)
Lemma n_layer_pow2 s batch_size height width channel n_classes
    sample_num sample_size df_dim gf_dim fc_unit z_dim lr gr self gr' k :
  init_fields s batch_size height width channel n_classes
    sample_num sample_size df_dim gf_dim fc_unit z_dim lr gr = Ok (self, gr') ->
  0 <= k -> height = 2 ^ k ->
  exists f, n_layer self = PyFloat f /\ float_value f = Some (k - 2).
Proof.
  intros H K E. apply init_fields_inv in H.
  destruct H as (_ & _ & R & _ & _ & ->). subst height.
  exists (FSub (FLog2 (2 ^ k)) 2). split; [reflexivity|].
  assert (B : k < 64).
  { destruct R as [_ R]. apply Z.pow_lt_mono_r_iff in R; lia. }
  change (float_value (FSub (FLog2 (2 ^ k)) 2))
    with (match float_value (FLog2 (2 ^ k)) with
          | Some v => if exact_int v && exact_int 2 then Some (v - 2) else None
          | None => None
          end).
  rewrite float_value_log2_pow2 by (split; assumption).
  replace (exact_int k) with true; [reflexivity|].
  symmetry. unfold exact_int. apply Z.leb_le.
  rewrite Z.abs_eq by exact K. change (2 ^ 53) with 9007199254740992. lia.
Qed.

(** C3 (the code fails the claim): line 52 follows the formula: for a height
    2^k the layer count it leaves in the object is the float k - 2; so that
    for the spec's configuration, height = width = 32, the layer count that
    [__init__] hands to [build_sagan] is 3.0 and not the 5 that the claim,
    and the comment on line 52 itself, give. *)
Theorem C3_n_layer_32 :
  (forall s batch_size height width channel n_classes
          sample_num sample_size df_dim gf_dim fc_unit z_dim lr gr self gr' k,
      init_fields s batch_size height width channel n_classes
        sample_num sample_size df_dim gf_dim fc_unit z_dim lr gr = Ok (self, gr') ->
      0 <= k -> height = 2 ^ k ->
      exists f, n_layer self = PyFloat f /\ float_value f = Some (k - 2)) /\
  (exists self f,
      init_fields Session 100 32 32 3 10 (10 * 10) 10 64 64 512 128 (1 # 10000)
        fresh_graph = Ok (self, fresh_graph) /\
      n_layer self = PyFloat f /\
      float_value f = Some 3 /\ float_value f <> Some 5).
Proof.
  split.
  - intros. eapply n_layer_pow2; eassumption.
  - exists (default_attrs 64), (FSub (FLog2 32) 2).
    split; [reflexivity|]. split; [reflexivity|].
    split; [reflexivity|discriminate].
Qed.

(* ------------------------------------------------------------------------- *)
(** ** The generator *)

(** C9: the self-attention stage returns its input and leaves the graph as it
    is; and no layer that a run of the generator puts on top of the noise is
    an attention layer. *)
Theorem C9_self_attention_identity :
  (forall inp gr, self_attention inp gr = Ok (inp, gr)) /\
  (forall self noise reuse is_train gr out gr',
      generator self noise reuse is_train gr = Ok (out, gr') ->
      exists ops,
        out = apply_ops noise ops /\
        Forall (fun name => String.prefix "gen-attention" name = false) (ops_layers ops)).
Proof.
  split; [reflexivity|].
  intros self noise reuse is_train gr out gr' H.
  destruct (generator_int _ _ _ _ _ _ _ H) as [n Hn].
  apply (generator_ok self reuse is_train n Hn) in H.
  destruct H as (ops & -> & L & _ & _).
  exists ops. split; [reflexivity|]. rewrite L. apply Forall_forall.
  intros name Hin. eapply gen_layers_not_attention. exact Hin.
Qed.

Lemma C9_witness :
  exists out gr' ops,
    generator tiny_self (z tiny_self) None true fresh_graph = Ok (out, gr') /\
    out = apply_ops (z tiny_self) ops /\
    Forall (fun name => String.prefix "gen-attention" name = false) (ops_layers ops).
Proof.
  destruct (generator tiny_self (z tiny_self) None true fresh_graph)
    as [[out gr']|e] eqn:E; [|vm_compute in E; discriminate E].
  destruct (proj2 C9_self_attention_identity _ _ _ _ _ _ _ E) as (ops & H1 & H2).
  exists out, gr', ops. split; [reflexivity|]. split; assumption.
Defined.

(* ------------------------------------------------------------------------- *)
(** ** Losses and optimizers *)

(** C4: after [build_sagan] the discriminator loss is the plain sum of two
    cross-entropy terms, that of the real logit against a tensor of ones and
    that of the fake logit against a tensor of zeros, and the generator loss
    is the cross-entropy of the fake logit against a tensor of ones.  The
    real logit is the output of the one-unit head "disc-fc-disc" in the
    discriminator call on the image placeholder; the fake logit, the same in
    both losses, is the output of that head in the one discriminator call on
    the generator's image [self.g]. *)
Theorem C4_loss_assembly self gr0 self' gr' :
  build_sagan self gr0 = Ok (self', gr') ->
  exists gen gr1 c_real d_real n_real gr2 c_fake d_fake n_fake gr3 wr br wf bf,
    generator self (z self) None true gr0 = Ok (gen, gr1) /\
    g self' = Some gen /\
    discriminator (set_g self (Some gen)) (x self) None gr1
      = Ok (c_real, d_real, n_real, gr2) /\
    discriminator (set_g self (Some gen)) gen (Some true) gr2
      = Ok (c_fake, d_fake, n_fake, gr3) /\
    d_real = Layer (Dense 1) "disc-fc-disc" wr br n_real /\
    d_fake = Layer (Dense 1) "disc-fc-disc" wf bf n_fake /\
    d_loss self' = LTensor (Add (SceLoss d_real (OnesLike d_real))
                                (SceLoss d_fake (ZerosLike d_fake))) /\
    g_loss self' = LTensor (SceLoss d_fake (OnesLike d_fake)).
Proof.
  intros H. apply build_sagan_inv in H.
  destruct H as (gen & gr1 & c_real & d_real & n_real & gr2 & c_fake & d_fake & n_fake
                 & gr3 & Hg & Hr & Hf & _ & Hgen & Hd & Hgl & _).
  pose proof (discriminator_ok _ _ _ _ _ _ _ _ Hr) as (wc1 & bc1 & wr & br & ga & _ & _ & Er & _).
  pose proof (discriminator_ok _ _ _ _ _ _ _ _ Hf) as (wc2 & bc2 & wf & bf & gb & _ & _ & Ef & _).
  exists gen, gr1, c_real, d_real, n_real, gr2, c_fake, d_fake, n_fake, gr3, wr, br, wf, bf.
  split; [exact Hg|]. split; [exact Hgen|]. split; [exact Hr|]. split; [exact Hf|].
  split; [exact Er|]. split; [exact Ef|]. split; [exact Hd|exact Hgl].
Qed.

Lemma C4_witness :
  build_sagan tiny_self fresh_graph = Ok tiny_built /\
  exists d_real d_fake wr br wf bf n_real n_fake,
    d_real = Layer (Dense 1) "disc-fc-disc" wr br n_real /\
    d_fake = Layer (Dense 1) "disc-fc-disc" wf bf n_fake /\
    d_loss (fst tiny_built) = LTensor (Add (SceLoss d_real (OnesLike d_real))
                                           (SceLoss d_fake (ZerosLike d_fake))) /\
    g_loss (fst tiny_built) = LTensor (SceLoss d_fake (OnesLike d_fake)).
Proof.
  split; [vm_compute; reflexivity|].
  destruct (C4_loss_assembly tiny_self fresh_graph (fst tiny_built) (snd tiny_built))
    as (gen & gr1 & c_real & d_real & n_real & gr2 & c_fake & d_fake & n_fake & gr3
        & wr & br & wf & bf & _ & _ & _ & _ & Er & Ef & Hd & Hg).
  - vm_compute. reflexivity.
  - exists d_real, d_fake, wr, br, wf, bf, n_real, n_fake.
    split; [exact Er|]. split; [exact Ef|]. split; [exact Hd|exact Hg].
Defined.

(** C5: [build_sagan] leaves two training operations, [d_op] and [g_op], each
    with an optimizer of its own: the discriminator's has learning rate
    [lr * 4] and minimises the discriminator loss over the variables whose
    name starts with "d", the generator's has learning rate [lr * 1], which is
    [lr], and minimises the generator loss over those whose name starts with
    "g"; no variable is in both lists. *)
Theorem C5_two_optimizers self gr0 self' gr' :
  build_sagan self gr0 = Ok (self', gr') ->
  exists op1 op2,
    d_op self' = Some op1 /\ g_op self' = Some op2 /\
    lr self' = lr self /\
    learning_rate (op_optimizer op1) = (lr self * 4)%Q /\
    learning_rate (op_optimizer op2) = (lr self * 1)%Q /\
    (learning_rate (op_optimizer op2) == lr self)%Q /\
    op_loss op1 = d_loss self' /\ op_loss op2 = g_loss self' /\
    op_var_list op1 = filter is_d (g_vars gr') /\
    op_var_list op2 = filter is_g (g_vars gr') /\
    (forall v, In v (op_var_list op1) -> ~ In v (op_var_list op2)).
Proof.
  intros H. apply build_sagan_inv in H.
  destruct H as (gen & gr1 & c_real & d_real & n_real & gr2 & c_fake & d_fake & n_fake
                 & gr3 & _ & _ & _ & _ & _ & _ & _ & _ & Hd & Hg & Hlr).
  eexists. eexists. split; [exact Hd|]. split; [exact Hg|]. simpl.
  repeat split; try reflexivity; try assumption.
  - apply Qmult_1_r.
  - intros v H1 H2. apply filter_In in H1, H2.
    destruct H1 as [_ H1], H2 as [_ H2]. unfold is_d, is_g in *.
    apply startswith_d_not_g in H1. congruence.
Qed.

Lemma C5_witness :
  build_sagan tiny_self fresh_graph = Ok tiny_built /\
  exists op1 op2,
    d_op (fst tiny_built) = Some op1 /\ g_op (fst tiny_built) = Some op2 /\
    lr (fst tiny_built) = lr tiny_self /\
    learning_rate (op_optimizer op1) = (lr tiny_self * 4)%Q /\
    learning_rate (op_optimizer op2) = (lr tiny_self * 1)%Q /\
    (learning_rate (op_optimizer op2) == lr tiny_self)%Q /\
    op_loss op1 = d_loss (fst tiny_built) /\ op_loss op2 = g_loss (fst tiny_built) /\
    op_var_list op1 = filter is_d (g_vars (snd tiny_built)) /\
    op_var_list op2 = filter is_g (g_vars (snd tiny_built)) /\
    (forall v, In v (op_var_list op1) -> ~ In v (op_var_list op2)).
Proof.
  split; [vm_compute; reflexivity|].
  apply (C5_two_optimizers tiny_self fresh_graph (fst tiny_built) (snd tiny_built)).
  vm_compute. reflexivity.
Defined.

(* ------------------------------------------------------------------------- *)
(** ** The two parameter sets *)

(** The variables a successful [build_sagan] leaves in the graph: those that
    were there, then the generator's, then the discriminator's. *)
Lemma build_sagan_vars self gr0 self' gr' :
  build_sagan self gr0 = Ok (self', gr') ->
  exists gvars dvars,
    g_vars gr' = g_vars gr0 ++ gvars ++ dvars /\
    Forall (fun v => is_g v = true) gvars /\
    Forall (fun v => is_d v = true) dvars.
Proof.
  intros H. apply build_sagan_inv in H.
  destruct H as (gen & gr1 & c_real & d_real & n_real & gr2 & c_fake & d_fake & n_fake
                 & gr3 & Hg & Hr & Hf & Hv & _).
  destruct (generator_int _ _ _ _ _ _ _ Hg) as [n Hn].
  apply (generator_ok self None true n Hn) in Hg.
  destruct Hg as (gops & _ & _ & GN & (_ & GV & _)).
  destruct (discriminator_shares _ _ _ _ _ _ _ _ _ _ _ _ _ Hr Hf) as [-> _].
  apply discriminator_ok in Hr.
  destruct Hr as (wc & bc & wd & bd & ga & (dops & _ & _ & DN & (_ & DV & _)) & _ & _
                  & HN & (_ & HV & _)).
  exists (ops_vars gops), (ops_vars dops ++ [wc; bc; wd; bd]).
  split; [|split].
  - rewrite Hv, HV, DV, GV, <- !app_assoc. reflexivity.
  - apply Forall_forall. intros v Hin. unfold is_g.
    apply (generator_names_g (gen_layers n)). rewrite <- GN. apply in_map. exact Hin.
  - apply Forall_forall. intros v Hin. unfold is_d.
    apply (discriminator_names_d (disc_trunk_layers ++ ["disc-fc-cat"; "disc-fc-disc"])).
    rewrite flat_map_app, <- DN, <- HN, <- map_app. apply in_map. exact Hin.
Qed.

Lemma op_updates_incl op v : In v (op_updates op) -> In v (op_var_list op).
Proof. unfold op_updates. intros H. apply filter_In in H. exact (proj1 H). Qed.

(** C6 (as amended): the two variable lists that [build_sagan] selects by
    name prefix are disjoint; the variables the generator created are in the
    "g" list and those the discriminator created in the "d" list; each
    training operation updates variables of its own list only; and the two
    lists together are all the trainable variables of the graph provided
    every trainable variable the graph held before construction starts with
    "d" or with "g" (in a fresh graph there is none). *)
Theorem C6_parameter_partition self gr0 self' gr' :
  build_sagan self gr0 = Ok (self', gr') ->
  exists op1 op2 gvars dvars,
    d_op self' = Some op1 /\ g_op self' = Some op2 /\
    op_var_list op1 = filter is_d (g_vars gr') /\
    op_var_list op2 = filter is_g (g_vars gr') /\
    (forall v, In v (op_var_list op1) -> In v (op_var_list op2) -> False) /\
    g_vars gr' = g_vars gr0 ++ gvars ++ dvars /\
    incl gvars (op_var_list op2) /\ incl dvars (op_var_list op1) /\
    (forall v, In v (op_updates op1) -> In v (op_var_list op1) /\ ~ In v (op_var_list op2)) /\
    (forall v, In v (op_updates op2) -> In v (op_var_list op2) /\ ~ In v (op_var_list op1)) /\
    (Forall (fun v => is_d v = true \/ is_g v = true) (g_vars gr0) ->
     forall v, In v (g_vars gr') <-> In v (op_var_list op1) \/ In v (op_var_list op2)).
Proof.
  intros H. destruct (build_sagan_vars _ _ _ _ H) as (gvars & dvars & EV & FG & FD).
  apply build_sagan_inv in H.
  destruct H as (gen & gr1 & c_real & d_real & n_real & gr2 & c_fake & d_fake & n_fake
                 & gr3 & _ & _ & _ & _ & _ & _ & _ & _ & Hd & Hg & _).
  assert (Hdisj : forall v, In v (filter is_d (g_vars gr')) ->
                            In v (filter is_g (g_vars gr')) -> False).
  { intros v H1 H2. apply filter_In in H1, H2.
    destruct H1 as [_ H1], H2 as [_ H2]. unfold is_d, is_g in *.
    apply startswith_d_not_g in H1. congruence. }
  rewrite Forall_forall in FG, FD.
  eexists. eexists. exists gvars, dvars.
  split; [exact Hd|]. split; [exact Hg|]. simpl.
  split; [reflexivity|]. split; [reflexivity|]. split; [exact Hdisj|].
  split; [exact EV|]. split; [|split; [|split; [|split]]].
  - intros v Hin. apply filter_In. split; [|apply FG; exact Hin].
    rewrite EV. apply in_or_app. right. apply in_or_app. left. exact Hin.
  - intros v Hin. apply filter_In. split; [|apply FD; exact Hin].
    rewrite EV. apply in_or_app. right. apply in_or_app. right. exact Hin.
  - intros v Hin. apply op_updates_incl in Hin. simpl in Hin.
    split; [exact Hin|]. intros Hin2. exact (Hdisj v Hin Hin2).
  - intros v Hin. apply op_updates_incl in Hin. simpl in Hin.
    split; [exact Hin|]. intros Hin2. exact (Hdisj v Hin2 Hin).
  - intros H0 v. rewrite Forall_forall in H0. split.
    + intros Hin. rewrite !filter_In.
      assert (Hin' := Hin). rewrite EV in Hin'.
      apply in_app_or in Hin'. destruct Hin' as [Hin'|Hin'].
      * destruct (H0 v Hin') as [Hp|Hp]; [left|right]; (split; [exact Hin|exact Hp]).
      * apply in_app_or in Hin'. destruct Hin' as [Hin'|Hin'].
        -- right. split; [exact Hin|apply FG; exact Hin'].
        -- left. split; [exact Hin|apply FD; exact Hin'].
    + intros [Hin|Hin]; apply filter_In in Hin; exact (proj1 Hin).
Qed.

Lemma C6_witness :
  exists self' gr' op1 op2,
    build_sagan tiny_self (graph_with "dataset/mean:0") = Ok (self', gr') /\
    Forall (fun v => is_d v = true \/ is_g v = true)
           (g_vars (graph_with "dataset/mean:0")) /\
    d_op self' = Some op1 /\ g_op self' = Some op2 /\
    (forall v, In v (op_var_list op1) -> In v (op_var_list op2) -> False) /\
    (forall v, In v (g_vars gr')
               <-> In v (op_var_list op1) \/ In v (op_var_list op2)).
Proof.
  destruct (build_sagan tiny_self (graph_with "dataset/mean:0"))
    as [[self' gr']|e] eqn:E; [|vm_compute in E; discriminate E].
  assert (F : Forall (fun v => is_d v = true \/ is_g v = true)
                     (g_vars (graph_with "dataset/mean:0"))).
  { constructor; [left; reflexivity|constructor]. }
  destruct (C6_parameter_partition tiny_self (graph_with "dataset/mean:0") self' gr' E)
    as (op1 & op2 & gvars & dvars & H1 & H2 & _ & _ & Hd & _ & _ & _ & _ & _ & Hu).
  exists self', gr', op1, op2. split; [reflexivity|]. split; [exact F|].
  split; [exact H1|]. split; [exact H2|]. split; [exact Hd|]. apply Hu. exact F.
Defined.

(** C6 (the claim as stated fails): in a graph that already holds a trainable
    variable named other/w:0, [build_sagan] returns and that variable is
    trainable but in neither of the two lists: their union is not the full
    trainable set. *)
Lemma C6_union_fails :
  exists self' gr' op1 op2 v,
    build_sagan tiny_self (graph_with "other/w:0") = Ok (self', gr') /\
    d_op self' = Some op1 /\ g_op self' = Some op2 /\
    op_var_list op1 = filter is_d (g_vars gr') /\
    op_var_list op2 = filter is_g (g_vars gr') /\
    In v (g_vars gr') /\ ~ In v (op_var_list op1) /\ ~ In v (op_var_list op2).
Proof.
  destruct (build_sagan tiny_self (graph_with "other/w:0"))
    as [[self' gr']|e] eqn:E; [|vm_compute in E; discriminate E].
  destruct (build_sagan_vars _ _ _ _ E) as (gvars & dvars & EV & _ & _).
  apply build_sagan_inv in E.
  destruct E as (gen & gr1 & c_real & d_real & n_real & gr2 & c_fake & d_fake & n_fake
                 & gr3 & _ & _ & _ & _ & _ & _ & _ & _ & Hd & Hg & _).
  eexists self', gr', _, _, {| v_name := "other/w:0"; v_shape := [1] |}.
  split; [reflexivity|]. split; [exact Hd|]. split; [exact Hg|]. simpl.
  split; [reflexivity|]. split; [reflexivity|].
  split; [rewrite EV; left; reflexivity|].
  split; intros H; apply filter_In in H; destruct H as [_ H]; discriminate H.
Qed.

(* ------------------------------------------------------------------------- *)
(** ** Weight sharing *)

(** C7: in a successful [build_sagan] the discriminator call on the
    generator's image leaves the graph exactly as the call on the real image
    left it, so it creates no variable, and the parameters it applies on top
    of its input, for the class logits, for the real/fake logit and for the
    features, are the very variables the first call applied. *)
Theorem C7_discriminator_weight_sharing self gr0 self' gr' :
  build_sagan self gr0 = Ok (self', gr') ->
  exists gen gr1 c_real d_real n_real gr2 c_fake d_fake n_fake,
    generator self (z self) None true gr0 = Ok (gen, gr1) /\
    discriminator (set_g self (Some gen)) (x self) None gr1
      = Ok (c_real, d_real, n_real, gr2) /\
    discriminator (set_g self (Some gen)) gen (Some true) gr2
      = Ok (c_fake, d_fake, n_fake, gr2) /\
    g_vars gr' = g_vars gr2 /\
    own_params gen c_fake = own_params (x self) c_real /\
    own_params gen d_fake = own_params (x self) d_real /\
    own_params gen n_fake = own_params (x self) n_real.
Proof.
  intros H. apply build_sagan_inv in H.
  destruct H as (gen & gr1 & c_real & d_real & n_real & gr2 & c_fake & d_fake & n_fake
                 & gr3 & Hg & Hr & Hf & Hv & _).
  destruct (discriminator_shares _ _ _ _ _ _ _ _ _ _ _ _ _ Hr Hf) as (-> & Ec & Ed & En).
  exists gen, gr1, c_real, d_real, n_real, gr2, c_fake, d_fake, n_fake.
  repeat split; assumption.
Qed.

Lemma C7_witness :
  build_sagan tiny_self fresh_graph = Ok tiny_built /\
  exists gen gr1 c_real d_real n_real gr2 c_fake d_fake n_fake,
    generator tiny_self (z tiny_self) None true fresh_graph = Ok (gen, gr1) /\
    discriminator (set_g tiny_self (Some gen)) (x tiny_self) None gr1
      = Ok (c_real, d_real, n_real, gr2) /\
    discriminator (set_g tiny_self (Some gen)) gen (Some true) gr2
      = Ok (c_fake, d_fake, n_fake, gr2) /\
    g_vars (snd tiny_built) = g_vars gr2 /\
    own_params gen c_fake = own_params (x tiny_self) c_real /\
    own_params gen d_fake = own_params (x tiny_self) d_real /\
    own_params gen n_fake = own_params (x tiny_self) n_real.
Proof.
  split; [vm_compute; reflexivity|].
  apply (C7_discriminator_weight_sharing tiny_self fresh_graph
           (fst tiny_built) (snd tiny_built)).
  vm_compute. reflexivity.
Defined.

(* ------------------------------------------------------------------------- *)
(** ** The class logits *)

Lemma chain_layer_names scope reuse lnames inp gr out gr' :
  chain scope reuse lnames inp gr out gr' ->
  layer_names out = layer_names inp ++ lnames.
Proof. intros (ops & -> & L & _). rewrite layer_names_apply_ops, L. reflexivity. Qed.

(** C10: [__init__] sets [c_loss] to 0.0 and [build_sagan] leaves it as it
    is; both discriminator calls compute class logits, the output of the
    dense layer "disc-fc-cat", but when the image and noise inputs do not
    themselves come out of such a layer (they are placeholders), no layer
    "disc-fc-cat" occurs below the discriminator loss or below the generator
    loss, which are the losses the two training operations minimise. *)
Theorem C10_no_classification_loss :
  (forall s batch_size height width channel n_classes
          sample_num sample_size df_dim gf_dim fc_unit z_dim lr n_layer x z,
      c_loss (init_attrs s batch_size height width channel n_classes
                sample_num sample_size df_dim gf_dim fc_unit z_dim lr n_layer x z)
      = LFloat 0) /\
  (forall self gr0 self' gr',
      build_sagan self gr0 = Ok (self', gr') ->
      ~ In "disc-fc-cat" (layer_names (x self)) ->
      ~ In "disc-fc-cat" (layer_names (z self)) ->
      exists gen gr1 c_real d_real n_real gr2 c_fake d_fake n_fake gr3 op1 op2,
        discriminator (set_g self (Some gen)) (x self) None gr1
          = Ok (c_real, d_real, n_real, gr2) /\
        discriminator (set_g self (Some gen)) gen (Some true) gr2
          = Ok (c_fake, d_fake, n_fake, gr3) /\
        (exists wc bc, c_real = Layer (Dense (n_classes self)) "disc-fc-cat" wc bc n_real) /\
        (exists wc bc, c_fake = Layer (Dense (n_classes self)) "disc-fc-cat" wc bc n_fake) /\
        c_loss self' = c_loss self /\
        ~ In "disc-fc-cat" (loss_layers (d_loss self')) /\
        ~ In "disc-fc-cat" (loss_layers (g_loss self')) /\
        d_op self' = Some op1 /\ op_loss op1 = d_loss self' /\
        g_op self' = Some op2 /\ op_loss op2 = g_loss self').
Proof.
  split; [reflexivity|].
  intros self gr0 self' gr' H Hx Hz. apply build_sagan_inv in H.
  destruct H as (gen & gr1 & c_real & d_real & n_real & gr2 & c_fake & d_fake & n_fake
                 & gr3 & Hg & Hr & Hf & _ & _ & Hd & Hgl & Hc & Ho1 & Ho2 & _).
  destruct (generator_int _ _ _ _ _ _ _ Hg) as [n Hn].
  apply (generator_ok self None true n Hn) in Hg. apply chain_layer_names in Hg.
  pose proof (discriminator_ok _ _ _ _ _ _ _ _ Hr)
    as (wc1 & bc1 & wd1 & bd1 & ga & C1 & Ec1 & Ed1 & _).
  pose proof (discriminator_ok _ _ _ _ _ _ _ _ Hf)
    as (wc2 & bc2 & wd2 & bd2 & gb & C2 & Ec2 & Ed2 & _).
  apply chain_layer_names in C1, C2.
  assert (Hreal : ~ In "disc-fc-cat" (layer_names d_real)).
  { rewrite Ed1. simpl. rewrite C1, !in_app_iff. intros [[Hi|Hi]|[Hi|[]]].
    - exact (Hx Hi).
    - exact (disc_trunk_not_cat Hi).
    - discriminate Hi. }
  assert (Hfake : ~ In "disc-fc-cat" (layer_names d_fake)).
  { rewrite Ed2. simpl. rewrite C2, Hg, !in_app_iff. intros [[[Hi|Hi]|Hi]|[Hi|[]]].
    - exact (Hz Hi).
    - exact (gen_layers_not_cat n Hi).
    - exact (disc_trunk_not_cat Hi).
    - discriminate Hi. }
  exists gen, gr1, c_real, d_real, n_real, gr2, c_fake, d_fake, n_fake, gr3.
  eexists. eexists.
  split; [exact Hr|]. split; [exact Hf|].
  split; [exists wc1, bc1; exact Ec1|]. split; [exists wc2, bc2; exact Ec2|].
  split; [exact Hc|]. split; [|split; [|split; [exact Ho1|split; [reflexivity|
    split; [exact Ho2|reflexivity]]]]].
  - rewrite Hd. simpl. rewrite !in_app_iff. tauto.
  - rewrite Hgl. simpl. rewrite !in_app_iff. tauto.
Qed.

Lemma C10_witness :
  build_sagan tiny_self fresh_graph = Ok tiny_built /\
  ~ In "disc-fc-cat" (layer_names (x tiny_self)) /\
  ~ In "disc-fc-cat" (layer_names (z tiny_self)) /\
  c_loss (fst tiny_built) = LFloat 0 /\
  ~ In "disc-fc-cat" (loss_layers (d_loss (fst tiny_built))) /\
  ~ In "disc-fc-cat" (loss_layers (g_loss (fst tiny_built))).
Proof.
  split; [vm_compute; reflexivity|].
  split; [simpl; tauto|]. split; [simpl; tauto|].
  destruct (proj2 C10_no_classification_loss tiny_self fresh_graph
              (fst tiny_built) (snd tiny_built))
    as (gen & gr1 & c_real & d_real & n_real & gr2 & c_fake & d_fake & n_fake & gr3
        & op1 & op2 & _ & _ & _ & _ & Hc & Hd & Hg & _).
  - vm_compute. reflexivity.
  - simpl. tauto.
  - simpl. tauto.
  - split; [rewrite Hc; reflexivity|]. split; assumption.
Defined.

(* ------------------------------------------------------------------------- *)
(** ** The shape of the generator's output *)

Lemma for_each_invariant (P : tensor -> Prop) body l :
  (forall i inp gr out gr', body i inp gr = Ok (out, gr') -> P inp -> P out) ->
  forall inp gr out gr', for_each l body inp gr = Ok (out, gr') -> P inp -> P out.
Proof.
  intros Hb. induction l as [|i l IH]; intros inp gr out gr' H HP; simpl in H.
  - apply ret_ok in H. destruct H as [-> _]. exact HP.
  - run_bind H as mid g1 Hmid. eapply IH; [exact H|].
    eapply Hb; [exact Hmid|exact HP].
Qed.

Lemma gen_stage_4x4 self sc i inp gr out gr' :
  gen_stage self sc true i inp gr = Ok (out, gr') -> is_4x4 inp -> is_4x4 out.
Proof.
  intros H (b & c & Hs). unfold gen_stage in H.
  run_bind H as t1 g1 H1. apply param_layer_inv in H1. destruct H1 as (w1 & b1 & -> & _).
  run_bind H as t2 g2 H2. apply param_layer_inv in H2. destruct H2 as (w2 & b2 & -> & _).
  apply ret_ok in H. destruct H as [-> _].
  exists b, (gf_dim self * 8 / 2 ^ (i + 1)). simpl. rewrite Hs. reflexivity.
Qed.

Lemma reshape_4x4 inp c gr out gr' :
  reshape inp [-1; 4; 4; c] gr = Ok (out, gr') -> c <> -1 -> is_4x4 out.
Proof.
  intros H Hc. unfold reshape in H.
  destruct (shape_of (Unary (Reshape [-1; 4; 4; c]) inp)) as [sh|] eqn:E; [|discriminate].
  apply ret_ok in H. destruct H as [-> _]. unfold is_4x4. rewrite E.
  simpl in E. destruct (shape_of inp) as [si|]; [|discriminate].
  unfold reshape_shape in E. apply Z.eqb_neq in Hc.
  destruct (known_size si) as [total|].
  - simpl existsb in E.
    destruct (_ || _); [discriminate|]. simpl map in E. rewrite Hc in E.
    inversion E. eexists. eexists. reflexivity.
  - simpl map in E. rewrite Hc in E. inversion E. eexists. eexists. reflexivity.
Qed.

(** Whenever the generator returns, its output has 4x4 positions and
    [channel] channels: the dense projection is reshaped to 4x4, and no stage
    changes the resolution, the convolutions having stride 1. *)
Lemma generator_shape self noise reuse is_train gr out gr' :
  generator self noise reuse is_train gr = Ok (out, gr') ->
  exists b, shape_of out = Some [b; Some 4; Some 4; Some (channel self)].
Proof.
  intros H. unfold generator in H.
  run_bind H as t1 g1 H1. run_bind H as t3 g3 H3.
  apply reshape_4x4 in H3; [|lia].
  run_bind H as r1 gr1 Hr1.
  run_bind H as t4 g4 H4.
  apply (for_each_invariant is_4x4) in H4;
    [|intros i inp ga o gb; apply gen_stage_4x4|exact H3].
  run_bind H as t5 g5 H5. apply ret_ok in H5. destruct H5 as [-> _].
  run_bind H as r2 gr2 Hr2.
  run_bind H as t6 g6 H6.
  apply (for_each_invariant is_4x4) in H6;
    [|intros i inp ga o gb; apply gen_stage_4x4|exact H4].
  run_bind H as t7 g7 H7. apply param_layer_inv in H7. destruct H7 as (w & b7 & -> & _).
  apply ret_ok in H. destruct H as [-> _].
  destruct H6 as (b & c & Hs). exists b. simpl. rewrite Hs. reflexivity.
Qed.

(** C2 (the code fails the claim): on the object [__init__] builds for the
    spec's configuration the generator raises a [TypeError]; and whenever the
    generator does return, on any object, its output is 4x4 in space, so that
    for the 32x32 configuration with an integer layer count of 3 the output
    shape is (None, 4, 4, 3) and not (batch, 32, 32, 3), and [build_sagan]
    then stops with a [ValueError] when the discriminator is to reuse, on
    that output, the dense weights it created for 32x32 images. *)
Theorem C2_generator_output_shape :
  (forall gf_dim,
      generator (default_attrs gf_dim) (z (default_attrs gf_dim)) None true fresh_graph
      = Raise TypeError) /\
  (forall self noise reuse is_train gr out gr',
      generator self noise reuse is_train gr = Ok (out, gr') ->
      exists b, shape_of out = Some [b; Some 4; Some 4; Some (channel self)]) /\
  (exists out gr',
      generator (with_n_layer (default_attrs 64) 3) (z (default_attrs 64)) None true
        fresh_graph = Ok (out, gr') /\
      shape_of out = Some [None; Some 4; Some 4; Some 3] /\
      shape_of out <> Some [None; Some 32; Some 32; Some 3] /\
      shape_of out <> Some [Some 100; Some 32; Some 32; Some 3]) /\
  build_sagan (with_n_layer (default_attrs 64) 3) fresh_graph = Raise ValueError.
Proof.
  split; [intros gf_dim; reflexivity|]. split; [exact generator_shape|].
  split; [|lazy; reflexivity].
  destruct (generator (with_n_layer (default_attrs 64) 3) (z (default_attrs 64)) None true
              fresh_graph) as [[out gr']|e] eqn:E.
  - exists out, gr'. split; [reflexivity|].
    assert (Hs : shape_of out = Some [None; Some 4; Some 4; Some 3]).
    { lazy in E. inversion E. reflexivity. }
    rewrite Hs. repeat split; discriminate.
  - exfalso. lazy in E. discriminate E.
Qed.

Lemma C2_witness :
  exists out gr' b,
    generator (with_n_layer (default_attrs 64) 3) (z (default_attrs 64)) None true
      fresh_graph = Ok (out, gr') /\
    shape_of out = Some [b; Some 4; Some 4; Some (channel (with_n_layer (default_attrs 64) 3))].
Proof.
  destruct (proj1 (proj2 (proj2 C2_generator_output_shape))) as (out & gr' & E & _).
  destruct (proj1 (proj2 C2_generator_output_shape) _ _ _ _ _ _ _ E) as (b & Hb).
  exists out, gr', b. split; assumption.
Defined.

(* ------------------------------------------------------------------------- *)
(** ** Which exceptions a construction can raise *)

Lemma for_each_raises (P : exn -> Prop) body l :
  (forall i inp gr e, body i inp gr = Raise e -> P e) ->
  forall (inp : tensor) gr e, for_each l body inp gr = Raise e -> P e.
Proof.
  intros Hb. induction l as [|i l IH]; intros inp gr e H; simpl in H.
  - discriminate H.
  - apply bind_raise_inv in H. destruct H as [H|(a & g1 & _ & H)].
    + eapply Hb. exact H.
    + eapply IH. exact H.
Qed.

Lemma gen_stage_raises self sc up i inp gr e :
  gen_stage self sc up i inp gr = Raise e -> e = ValueError.
Proof.
  unfold gen_stage. intros H.
  apply bind_raise_inv in H. destruct H as [H|(t1 & g1 & _ & H)].
  - destruct up; eapply param_layer_raises; exact H.
  - apply bind_raise_inv in H. destruct H as [H|(t2 & g2 & _ & H)].
    + eapply param_layer_raises. exact H.
    + discriminate H.
Qed.

Lemma disc_stage_raises self sc reuse i inp gr e :
  disc_stage self sc reuse i inp gr = Raise e -> e = ValueError.
Proof.
  unfold disc_stage. intros H.
  apply bind_raise_inv in H. destruct H as [H|(t1 & g1 & _ & H)].
  - eapply param_layer_raises. exact H.
  - apply bind_raise_inv in H. destruct H as [H|(t2 & g2 & _ & H)].
    + eapply param_layer_raises. exact H.
    + discriminate H.
Qed.

(** With an integer layer count the generator raises nothing but the
    [ValueError] of a layer. *)
Lemma generator_int_raises self noise reuse is_train gr n e :
  n_layer self = PyInt n ->
  generator self noise reuse is_train gr = Raise e -> e = ValueError.
Proof.
  intros Hn H. unfold generator in H. rewrite Hn in H.
  simpl py_floordiv in H. simpl py_range in H.
  apply bind_raise_inv in H. destruct H as [H|(t1 & g1 & _ & H)];
    [eapply param_layer_raises; exact H|].
  apply bind_raise_inv in H. destruct H as [H|(t3 & g3 & _ & H)];
    [eapply reshape_raises; exact H|].
  apply bind_raise_inv in H. destruct H as [H|(r1 & g4 & _ & H)]; [discriminate H|].
  apply bind_raise_inv in H. destruct H as [H|(t4 & g5 & _ & H)].
  { revert H. apply (for_each_raises (fun e => e = ValueError)).
    intros i inp g e0. apply gen_stage_raises. }
  apply bind_raise_inv in H. destruct H as [H|(t5 & g6 & _ & H)]; [discriminate H|].
  apply bind_raise_inv in H. destruct H as [H|(r2 & g7 & _ & H)]; [discriminate H|].
  apply bind_raise_inv in H. destruct H as [H|(t6 & g8 & _ & H)].
  { revert H. apply (for_each_raises (fun e => e = ValueError)).
    intros i inp g e0. apply gen_stage_raises. }
  apply bind_raise_inv in H. destruct H as [H|(t7 & g9 & _ & H)];
    [eapply param_layer_raises; exact H|].
  discriminate H.
Qed.

Lemma generator_raises self noise reuse is_train gr e :
  generator self noise reuse is_train gr = Raise e ->
  e = ValueError \/ (e = TypeError /\ exists r, n_layer self = PyFloat r).
Proof.
  intros H. destruct (n_layer self) as [n|r] eqn:E.
  - left. eapply generator_int_raises; eassumption.
  - destruct (generator_float self noise reuse is_train gr r E) as [H1|H1];
      rewrite H1 in H; inversion H; subst.
    + right. split; [reflexivity|]. exists r. reflexivity.
    + left. reflexivity.
Qed.

(** X1: the generator returns a tensor only when [n_layer] is an [int]; with
    the float that [__init__] stores it raises, a [TypeError] at the [range]
    of its first loop unless a layer before it already raised a
    [ValueError]; and whatever the object, the only exceptions of the
    generator are [TypeError] and [ValueError], the former only with a float
    layer count. *)
Theorem X1_generator_exceptions self noise reuse is_train gr :
  (forall out gr', generator self noise reuse is_train gr = Ok (out, gr') ->
                   exists n, n_layer self = PyInt n) /\
  (forall r, n_layer self = PyFloat r ->
             generator self noise reuse is_train gr = Raise TypeError \/
             generator self noise reuse is_train gr = Raise ValueError) /\
  (forall e, generator self noise reuse is_train gr = Raise e ->
             e = ValueError \/ (e = TypeError /\ exists r, n_layer self = PyFloat r)).
Proof.
  split; [|split].
  - intros out gr' H. eapply generator_int. exact H.
  - intros r Hr. apply generator_float with (r := r). exact Hr.
  - intros e H. eapply generator_raises. exact H.
Qed.

(** The discriminator raises nothing but [ValueError]. *)
Lemma discriminator_raises self img reuse gr e :
  discriminator self img reuse gr = Raise e -> e = ValueError.
Proof.
  intros H. unfold discriminator in H.
  apply bind_raise_inv in H. destruct H as [H|(t1 & g1 & _ & H)];
    [eapply param_layer_raises; exact H|].
  apply bind_raise_inv in H. destruct H as [H|(r & g2 & _ & H)]; [discriminate H|].
  apply bind_raise_inv in H. destruct H as [H|(t4 & g4 & _ & H)].
  { revert H. apply (for_each_raises (fun e => e = ValueError)).
    intros i inp g e0. apply disc_stage_raises. }
  apply bind_raise_inv in H. destruct H as [H|(tc & gc & _ & H)];
    [eapply param_layer_raises; exact H|].
  apply bind_raise_inv in H. destruct H as [H|(td & gd & _ & H)];
    [eapply param_layer_raises; exact H|].
  discriminate H.
Qed.

(* ------------------------------------------------------------------------- *)
(** ** The layers of the generator *)

Lemma map_seq_shift {A : Type} (f : nat -> A) a b :
  map f (seq a b) = map (fun k => f (a + k)%nat) (seq 0 b).
Proof.
  revert a. induction b as [|b IH]; intros a; [reflexivity|].
  simpl. rewrite Nat.add_0_r. f_equal.
  rewrite IH, <- seq_shift, map_map. apply map_ext.
  intros k. f_equal. lia.
Qed.

Lemma zrange_app lo mid hi :
  lo <= mid <= hi -> zrange lo mid ++ zrange mid hi = zrange lo hi.
Proof.
  intros H. unfold zrange.
  replace (Z.to_nat (hi - lo)) with (Z.to_nat (mid - lo) + Z.to_nat (hi - mid))%nat by lia.
  rewrite seq_app, map_app. simpl Nat.add.
  rewrite (map_seq_shift _ (Z.to_nat (mid - lo))).
  apply (f_equal (app _)). apply map_ext. intros k. lia.
Qed.

Lemma zrange_empty lo hi : hi <= lo -> zrange lo hi = [].
Proof.
  intros H. unfold zrange. replace (Z.to_nat (hi - lo)) with 0%nat by lia. reflexivity.
Qed.

(** The two loops of the generator together run over [range(n_layer)]. *)
Lemma zrange_halves n : zrange 0 (n / 2) ++ zrange (n / 2) n = zrange 0 n.
Proof.
  destruct (Z_lt_le_dec n 0) as [Hn|Hn].
  - rewrite !zrange_empty; [reflexivity|lia| |].
    + pose proof (Z.div_mod n 2). pose proof (Z.mod_pos_bound n 2). lia.
    + pose proof (Z.div_mod n 2). pose proof (Z.mod_pos_bound n 2). lia.
  - apply zrange_app.
    pose proof (Z.div_mod n 2). pose proof (Z.mod_pos_bound n 2). lia.
Qed.

Lemma in_zrange i lo hi : In i (zrange lo hi) <-> lo <= i < hi.
Proof.
  unfold zrange. rewrite in_map_iff. split.
  - intros (k & <- & Hk). apply in_seq in Hk. lia.
  - intros H. exists (Z.to_nat (i - lo)). split; [lia|]. apply in_seq. lia.
Qed.

Lemma gen_layers_eq n : gen_layers n = generator_layers n.
Proof.
  unfold gen_layers, generator_layers. apply (f_equal (app _)).
  rewrite (app_assoc (flat_map _ _)), <- flat_map_app, zrange_halves. reflexivity.
Qed.

(** X3: a run of the generator that returns puts on top of the noise the
    dense layer gen-fc-1, then for i = 0, ..., n_layer - 1, in this order and
    whichever of the two loops runs them, the layers gen-conv2d-(i+1) and
    gen-bn-i, then gen-conv2d-5; the variables it touches are the weight and
    bias of these layers under the scope "generator", created when the call
    does not reuse and then appended to the store, looked up otherwise. *)
Theorem X3_generator_layers self noise reuse is_train gr out gr' :
  generator self noise reuse is_train gr = Ok (out, gr') ->
  exists n ops,
    n_layer self = PyInt n /\
    out = apply_ops noise ops /\
    ops_layers ops = generator_layers n /\
    map v_name (ops_vars ops) = flat_map (layer_var_names "generator") (generator_layers n) /\
    (reuse_flag reuse = false ->
       g_vars gr' = g_vars gr ++ ops_vars ops /\ g_summaries gr' = g_summaries gr) /\
    (reuse_flag reuse = true -> gr' = gr).
Proof.
  intros H. destruct (generator_int _ _ _ _ _ _ _ H) as [n Hn].
  apply (generator_ok self reuse is_train n Hn) in H.
  destruct H as (ops & E & L & N & T).
  exists n, ops. rewrite <- gen_layers_eq. repeat split; try assumption.
  - destruct (reuse_flag reuse); [discriminate|]. destruct T as (_ & V & _). exact V.
  - destruct (reuse_flag reuse); [discriminate|]. destruct T as (S & _). exact S.
  - intros R. rewrite R in T. destruct T as [-> _]. reflexivity.
Qed.

Lemma X3_witness :
  exists out gr' n ops,
    generator tiny_self (z tiny_self) None true fresh_graph = Ok (out, gr') /\
    n_layer tiny_self = PyInt n /\
    out = apply_ops (z tiny_self) ops /\
    ops_layers ops = generator_layers n.
Proof.
  destruct (generator tiny_self (z tiny_self) None true fresh_graph)
    as [[out gr']|e] eqn:E; [|vm_compute in E; discriminate E].
  destruct (X3_generator_layers _ _ _ _ _ _ _ E) as (n & ops & H1 & H2 & H3 & _).
  exists out, gr', n, ops. repeat split; assumption.
Defined.

Lemma nodup_app_disjoint {A : Type} (l1 l2 : list A) a :
  NoDup (l1 ++ l2) -> In a l1 -> In a l2 -> False.
Proof.
  induction l1 as [|b l1 IH]; simpl; intros Hn H1 H2; [exact H1|].
  inversion Hn as [|? ? Hnot Hn']; subst. destruct H1 as [->|H1].
  - apply Hnot. apply in_or_app. right. exact H2.
  - exact (IH Hn' H1 H2).
Qed.

(** From stage 4 on a generator that creates its variables meets the name
    gen-conv2d-5 a second time. *)
Lemma generator_many_stages self noise reuse is_train gr n :
  n_layer self = PyInt n ->
  5 <= n ->
  reuse_flag reuse = false ->
  generator self noise reuse is_train gr = Raise ValueError.
Proof.
  intros Hn H5 R.
  destruct (generator self noise reuse is_train gr) as [[out gr']|e] eqn:E.
  - exfalso. apply (generator_ok self reuse is_train n Hn) in E.
    destruct E as (ops & _ & _ & N & T). rewrite R in T.
    destruct T as (_ & _ & ND & _). rewrite N in ND.
    rewrite gen_layers_eq in ND. unfold generator_layers in ND.
    rewrite !flat_map_app in ND. simpl app in ND.
    apply NoDup_cons_iff in ND. destruct ND as [_ ND].
    apply NoDup_cons_iff in ND. destruct ND as [_ ND].
    apply (nodup_app_disjoint _ _ (var_name "generator" "gen-conv2d-5" "/weight")) in ND.
    + exact ND.
    + apply in_flat_map. exists "gen-conv2d-5". split; [|left; reflexivity].
      apply in_flat_map. exists 4. split; [apply in_zrange; lia|left; reflexivity].
    + left. reflexivity.
  - f_equal. eapply generator_int_raises; eassumption.
Qed.

(** X4: with an integer layer count of 5 or more a generator call that does
    not reuse never returns: stage 4 names its convolution gen-conv2d-5, and
    the final convolution, whose name gen-conv2d-5 is fixed, cannot create
    its variables a second time; the call raises a [ValueError]. *)
Theorem X4_generator_name_clash self noise reuse is_train gr n :
  n_layer self = PyInt n ->
  5 <= n ->
  reuse_flag reuse = false ->
  generator self noise reuse is_train gr = Raise ValueError.
Proof. apply generator_many_stages. Qed.

Lemma X4_witness :
  n_layer (with_n_layer tiny_self 5) = PyInt 5 /\ 5 <= 5 /\ reuse_flag None = false /\
  generator (with_n_layer tiny_self 5) (z tiny_self) None true fresh_graph = Raise ValueError.
Proof.
  split; [reflexivity|]. split; [lia|]. split; [reflexivity|].
  apply (X4_generator_name_clash (with_n_layer tiny_self 5) (z tiny_self) None true
           fresh_graph 5); [reflexivity|lia|reflexivity].
Defined.

(* ------------------------------------------------------------------------- *)
(** ** Calling a network a second time *)

Lemma extends_refl gr : extends gr gr.
Proof. intros n v H. exact H. Qed.

Lemma extends_trans g1 g2 g3 : extends g1 g2 -> extends g2 g3 -> extends g1 g3.
Proof. intros H1 H2 n v H. apply H2, H1, H. Qed.

Lemma add_var_extends v gr : extends gr (add_var v gr).
Proof.
  intros n u H. unfold find_var, add_var in *. simpl.
  fold (lookup n (g_vars gr ++ [v])). fold (lookup n (g_vars gr)) in H.
  rewrite lookup_app, H. reflexivity.
Qed.

Lemma find_var_add v gr :
  find_var (v_name v) gr = None -> find_var (v_name v) (add_var v gr) = Some v.
Proof.
  intros H. unfold find_var, add_var in *. simpl.
  fold (lookup (v_name v) (g_vars gr ++ [v])). fold (lookup (v_name v) (g_vars gr)) in H.
  rewrite lookup_app, H. unfold lookup. simpl. rewrite String.eqb_refl. reflexivity.
Qed.

Lemma shape_eqb_refl sh : shape_eqb sh sh = true.
Proof. unfold shape_eqb. destruct (list_eq_dec Z.eq_dec sh sh); congruence. Qed.

Lemma get_variable_replays name scn sh gr0 v gr1 :
  get_variable {| sc_name := scn; sc_reuse := false |} name sh gr0 = Ok (v, gr1) ->
  extends gr0 gr1 /\
  forall g, extends gr1 g ->
            get_variable {| sc_name := scn; sc_reuse := true |} name sh g = Ok (v, g).
Proof.
  unfold get_variable. simpl.
  destruct (find_var _ gr0) eqn:E; [discriminate|].
  intros H. inversion H; subst; clear H. split; [apply add_var_extends|].
  intros g Hg.
  pose proof (Hg _ _ (find_var_add {| v_name := _; v_shape := sh |} gr0 E)) as F.
  simpl in F. simpl. rewrite F. simpl. rewrite shape_eqb_refl. reflexivity.
Qed.

Lemma replays_param_layer scn k name :
  replays (param_layer {| sc_name := scn; sc_reuse := false |} k name)
          (param_layer {| sc_name := scn; sc_reuse := true |} k name).
Proof.
  intros inp1 gr0 out1 gr1 H. unfold param_layer in H.
  destruct (shape_of inp1) as [sh|] eqn:Es; [|discriminate].
  destruct (layer_shapes k sh) as [[[wsh bsh] osh]|] eqn:El; [|discriminate].
  run_bind H as w gw Hw. run_bind H as b gb Hb.
  apply ret_ok in H. destruct H as [-> ->].
  apply get_variable_replays in Hw, Hb.
  destruct Hw as [Xw Rw], Hb as [Xb Rb].
  split; [eapply extends_trans; eassumption|].
  intros inp2 g Hs Hg. exists (Layer k name w b inp2). split.
  - unfold param_layer. rewrite Hs, El. unfold bind.
    rewrite (Rw g (extends_trans _ _ _ Xb Hg)), (Rb g Hg). reflexivity.
  - simpl. rewrite Hs, Es. reflexivity.
Qed.

Lemma replays_bind fc fr hc hr :
  replays fc fr -> replays hc hr ->
  replays (fun t => bind (fc t) hc) (fun t => bind (fr t) hr).
Proof.
  intros Hf Hh inp1 gr0 out1 gr1 H. run_bind H as mid1 ga Hmid.
  destruct (Hf _ _ _ _ Hmid) as [X1 R1]. destruct (Hh _ _ _ _ H) as [X2 R2].
  split; [eapply extends_trans; eassumption|].
  intros inp2 g Hs Hg.
  destruct (R1 inp2 g Hs (extends_trans _ _ _ X2 Hg)) as (mid2 & E1 & S1).
  destruct (R2 mid2 g S1 Hg) as (out2 & E2 & S2).
  exists out2. split; [|exact S2]. unfold bind. rewrite E1. exact E2.
Qed.

Lemma replays_unary u : replays (fun t => ret (Unary u t)) (fun t => ret (Unary u t)).
Proof.
  intros inp1 gr0 out1 gr1 H. apply ret_ok in H. destruct H as [-> ->].
  split; [apply extends_refl|]. intros inp2 g Hs _.
  exists (Unary u inp2). split; [reflexivity|]. simpl. rewrite Hs. reflexivity.
Qed.

Lemma replays_for_each bc br l :
  (forall i, replays (bc i) (br i)) ->
  replays (for_each l bc) (for_each l br).
Proof.
  intros Hb. induction l as [|i l IH].
  - intros inp1 gr0 out1 gr1 H. apply ret_ok in H. destruct H as [-> ->].
    split; [apply extends_refl|]. intros inp2 g Hs _.
    exists inp2. split; [reflexivity|exact Hs].
  - simpl. apply replays_bind; [apply Hb|exact IH].
Qed.

Lemma replays_reshape target :
  replays (fun t => reshape t target) (fun t => reshape t target).
Proof.
  intros inp1 gr0 out1 gr1 H. unfold reshape in H.
  destruct (shape_of (Unary (Reshape target) inp1)) as [sh|] eqn:E; [|discriminate].
  apply ret_ok in H. destruct H as [-> ->].
  split; [apply extends_refl|]. intros inp2 g Hs _.
  assert (E2 : shape_of (Unary (Reshape target) inp2) = Some sh).
  { simpl. rewrite Hs. exact E. }
  exists (Unary (Reshape target) inp2). split.
  - unfold reshape. rewrite E2. reflexivity.
  - rewrite E2, E. reflexivity.
Qed.

Lemma replays_gen_stage self i :
  replays (gen_stage self (variable_scope "generator" None) true i)
          (gen_stage self (variable_scope "generator" (Some true)) true i).
Proof.
  unfold gen_stage, conv2d, batch_norm, with_reuse, relu.
  apply (replays_bind (param_layer _ _ _) (param_layer _ _ _)).
  - apply replays_param_layer.
  - apply (replays_bind (param_layer _ _ _) (param_layer _ _ _)).
    + apply replays_param_layer.
    + apply replays_unary.
Qed.

Lemma replays_disc_stage self i :
  replays (disc_stage self (variable_scope "discriminator" None) None i)
          (disc_stage self (variable_scope "discriminator" (Some true)) (Some true) i).
Proof.
  unfold disc_stage, conv2d, batch_norm, with_reuse, leaky_relu, dropout.
  apply (replays_bind (param_layer _ _ _) (param_layer _ _ _)).
  - apply replays_param_layer.
  - apply (replays_bind (param_layer _ _ _) (param_layer _ _ _)).
    + apply replays_param_layer.
    + intros inp1 gr0 out1 gr1 H. apply ret_ok in H. destruct H as [-> ->].
      split; [apply extends_refl|]. intros inp2 g Hs _.
      eexists. split; [reflexivity|]. simpl. rewrite Hs. reflexivity.
Qed.

Lemma bind_intro {A B : Type} (m : M A) (k : A -> M B) gr a g1 r :
  m gr = Ok (a, g1) -> k a g1 = r -> bind m k gr = r.
Proof. unfold bind. intros -> H. exact H. Qed.

Lemma touched_extends gr gr' vs : touched false gr gr' vs -> extends gr gr'.
Proof.
  intros (_ & V & _) n v H. unfold find_var in *. rewrite V.
  fold (lookup n (g_vars gr ++ vs)). fold (lookup n (g_vars gr)) in H.
  rewrite lookup_app, H. reflexivity.
Qed.

Lemma touched_shares_later gr0 gr1 g g' vs1 vs2 :
  touched false gr0 gr1 vs1 ->
  extends gr1 g ->
  touched true g g' vs2 ->
  map v_name vs1 = map v_name vs2 ->
  vs2 = vs1.
Proof.
  intros T1 X [-> F2] E. symmetry.
  apply (same_names_same_vars (fun n => find_var n g)); [|exact F2|exact E].
  apply created_found in T1. rewrite Forall_forall in *.
  intros v Hv. apply X, T1, Hv.
Qed.

Lemma replays_generator self it1 it2 :
  replays (fun noise => generator self noise None it1)
          (fun noise => generator self noise (Some true) it2).
Proof.
  intros inp1 gr0 out1 gr1 H.
  destruct (generator_int _ _ _ _ _ _ _ H) as [n Hn].
  unfold generator in H. rewrite Hn in H.
  simpl py_floordiv in H. simpl py_range in H.
  run_bind H as t1 g1 H1.
  run_bind H as t3 g3 H3.
  run_bind H as r1 g4 Hr1. apply ret_ok in Hr1. destruct Hr1 as [-> ->].
  run_bind H as t4 g5 H4.
  run_bind H as t5 g6 H5. apply ret_ok in H5. destruct H5 as [-> ->].
  run_bind H as r2 g7 Hr2. apply ret_ok in Hr2. destruct Hr2 as [-> ->].
  run_bind H as t6 g8 H6.
  run_bind H as t7 g9 H7.
  apply ret_ok in H. destruct H as [-> ->].
  destruct (replays_param_layer "generator" _ _ _ _ _ _ H1) as [X1 R1].
  destruct (replays_reshape _ _ _ _ _ H3) as [X3 R3].
  destruct (replays_for_each _ _ _ (replays_gen_stage self) _ _ _ _ H4) as [X4 R4].
  destruct (replays_for_each _ _ _ (replays_gen_stage self) _ _ _ _ H6) as [X6 R6].
  destruct (replays_param_layer "generator" _ _ _ _ _ _ H7) as [X7 R7].
  split.
  { eapply extends_trans; [exact X1|]. eapply extends_trans; [exact X3|].
    eapply extends_trans; [exact X4|]. eapply extends_trans; [exact X6|]. exact X7. }
  intros inp2 g Hs Xg.
  assert (Y7 : extends g8 g) by (eapply extends_trans; eassumption).
  assert (Y6 : extends g5 g) by (eapply extends_trans; eassumption).
  assert (Y4 : extends g3 g) by (eapply extends_trans; eassumption).
  assert (Y3 : extends g1 g) by (eapply extends_trans; eassumption).
  destruct (R1 inp2 g Hs Y3) as (u1 & E1 & S1).
  destruct (R3 (relu u1) g) as (u3 & E3 & S3); [simpl; rewrite S1; reflexivity|exact Y4|].
  destruct (R4 u3 g S3 Y6) as (u4 & E4 & S4).
  destruct (R6 u4 g S4 Y7) as (u6 & E6 & S6).
  destruct (R7 u6 g S6 Xg) as (u7 & E7 & S7).
  exists (tanh u7). split.
  - unfold generator. rewrite Hn. simpl py_floordiv. simpl py_range.
    eapply bind_intro; [exact E1|].
    eapply bind_intro; [exact E3|].
    eapply bind_intro; [reflexivity|].
    eapply bind_intro; [exact E4|].
    eapply bind_intro; [reflexivity|].
    eapply bind_intro; [reflexivity|].
    eapply bind_intro; [exact E6|].
    eapply bind_intro; [exact E7|].
    reflexivity.
  - simpl. simpl in S7. rewrite S7. reflexivity.
Qed.

(** X5: once a generator call has created the variables, a call with
    [reuse=True] on a noise tensor of the same static shape, in any graph that
    still holds these variables, returns: it leaves the graph as it is, its
    output has the shape of the first output and it applies, in the same
    order, the very variables of the first call. *)
Theorem X5_generator_reuse self noise1 it1 gr0 out1 gr1 noise2 it2 g :
  generator self noise1 None it1 gr0 = Ok (out1, gr1) ->
  shape_of noise2 = shape_of noise1 ->
  extends gr1 g ->
  exists out2,
    generator self noise2 (Some true) it2 g = Ok (out2, g) /\
    shape_of out2 = shape_of out1 /\
    own_params noise2 out2 = own_params noise1 out1.
Proof.
  intros H Hs Xg.
  destruct (replays_generator self it1 it2 _ _ _ _ H) as [_ R].
  destruct (R noise2 g Hs Xg) as (out2 & E & S).
  exists out2. split; [exact E|]. split; [exact S|].
  destruct (generator_int _ _ _ _ _ _ _ H) as [n Hn].
  apply (generator_ok self None it1 n Hn) in H.
  apply (generator_ok self (Some true) it2 n Hn) in E.
  destruct H as (ops1 & -> & _ & N1 & T1). destruct E as (ops2 & -> & _ & N2 & T2).
  rewrite !own_params_apply_ops.
  eapply touched_shares_later; [exact T1|exact Xg|exact T2|].
  rewrite N1, N2. reflexivity.
Qed.

Lemma X5_witness :
  exists out1 gr1 out2,
    generator tiny_self (z tiny_self) None true fresh_graph = Ok (out1, gr1) /\
    generator tiny_self (Placeholder "z-test" [None; Some 2]) (Some true) false gr1
      = Ok (out2, gr1) /\
    shape_of out2 = shape_of out1 /\
    own_params (Placeholder "z-test" [None; Some 2]) out2 = own_params (z tiny_self) out1.
Proof.
  destruct (generator tiny_self (z tiny_self) None true fresh_graph)
    as [[out1 gr1]|e] eqn:E; [|vm_compute in E; discriminate E].
  destruct (X5_generator_reuse tiny_self (z tiny_self) true fresh_graph out1 gr1
              (Placeholder "z-test" [None; Some 2]) false gr1 E)
    as (out2 & H1 & H2 & H3); [reflexivity|apply extends_refl|].
  exists out1, gr1, out2. repeat split; assumption.
Defined.

(** A reusing discriminator call on an image of the same static shape returns
    and applies the variables of the creating call. *)
Lemma discriminator_reuse_ok self img1 gr0 c1 d1 n1 gr1 img2 g :
  discriminator self img1 None gr0 = Ok (c1, d1, n1, gr1) ->
  shape_of img2 = shape_of img1 ->
  extends gr1 g ->
  exists c2 d2 n2,
    discriminator self img2 (Some true) g = Ok (c2, d2, n2, g) /\
    shape_of c2 = shape_of c1 /\ shape_of d2 = shape_of d1 /\ shape_of n2 = shape_of n1 /\
    own_params img2 c2 = own_params img1 c1 /\
    own_params img2 d2 = own_params img1 d1 /\
    own_params img2 n2 = own_params img1 n1.
Proof.
  intros H0 Hs Xg. pose proof H0 as H. unfold discriminator in H.
  run_bind H as t1 g1 H1.
  run_bind H as r g2 Hr. apply ret_ok in Hr. destruct Hr as [-> ->].
  run_bind H as t4 g4 H4.
  run_bind H as tc gc Hc.
  run_bind H as td gd Hd.
  apply ret_ok in H. destruct H as [H ->]. inversion H; subst c1 d1 n1; clear H.
  destruct (replays_param_layer "discriminator" _ _ _ _ _ _ H1) as [X1 R1].
  destruct (replays_for_each _ _ _ (replays_disc_stage self) _ _ _ _ H4) as [X4 R4].
  destruct (replays_param_layer "discriminator" _ _ _ _ _ _ Hc) as [Xc Rc].
  destruct (replays_param_layer "discriminator" _ _ _ _ _ _ Hd) as [Xd Rd].
  assert (Yc : extends gc g) by (eapply extends_trans; eassumption).
  assert (Y4 : extends g4 g) by (eapply extends_trans; eassumption).
  assert (Y1 : extends g1 g) by (eapply extends_trans; eassumption).
  destruct (R1 img2 g Hs Y1) as (u1 & E1 & S1).
  destruct (R4 (dropout (leaky_relu u1 (2 # 10)) (5 # 10) "disc-dropout2d-1") g)
    as (u4 & E4 & S4); [simpl; rewrite S1; reflexivity|exact Y4|].
  assert (Sn : shape_of (flatten u4) = shape_of (flatten t4)) by (simpl; rewrite S4; reflexivity).
  destruct (Rc (flatten u4) g Sn Yc) as (uc & Ec & Sc).
  destruct (Rd (flatten u4) g Sn Xg) as (ud & Ed & Sd).
  assert (E : discriminator self img2 (Some true) g = Ok (uc, ud, flatten u4, g)).
  { unfold discriminator.
    eapply bind_intro; [exact E1|].
    eapply bind_intro; [reflexivity|].
    eapply bind_intro; [exact E4|].
    eapply bind_intro; [exact Ec|].
    eapply bind_intro; [exact Ed|].
    reflexivity. }
  exists uc, ud, (flatten u4). split; [exact E|].
  split; [exact Sc|]. split; [exact Sd|]. split; [exact Sn|].
  apply discriminator_ok in H0.
  destruct H0 as (wc1 & bc1 & wd1 & bd1 & ga & C1 & -> & -> & N1 & T1).
  apply discriminator_ok in E.
  destruct E as (wc2 & bc2 & wd2 & bd2 & gb & C2 & -> & -> & N2 & T2).
  destruct C1 as (ops1 & -> & L1 & V1 & TT1).
  destruct C2 as (ops2 & -> & L2 & V2 & TT2).
  simpl reuse_flag in *.
  pose proof (touched_app _ _ _ _ _ _ TT1 T1) as A1.
  pose proof (touched_app _ _ _ _ _ _ TT2 T2) as A2.
  pose proof (touched_shares_later _ _ _ _ _ _ A1 Xg A2) as Ev.
  rewrite !map_app, V1, V2, N1, N2 in Ev. specialize (Ev eq_refl).
  apply app_inv_same_length in Ev; [|reflexivity].
  destruct Ev as [Eo Eh]. inversion Eh; subst.
  rewrite !own_params_layer, !own_params_apply_ops, Eo.
  repeat split.
Qed.

(** X6: once a discriminator call has created the variables, a call with
    [reuse=True] on an image of the same static shape, in any graph that
    still holds these variables, returns: it leaves the graph as it is, its
    three outputs have the shapes of the first call's and are computed with
    the very variables of the first call. *)
Theorem X6_discriminator_reuse self img1 gr0 c1 d1 n1 gr1 img2 g :
  discriminator self img1 None gr0 = Ok (c1, d1, n1, gr1) ->
  shape_of img2 = shape_of img1 ->
  extends gr1 g ->
  exists c2 d2 n2,
    discriminator self img2 (Some true) g = Ok (c2, d2, n2, g) /\
    shape_of c2 = shape_of c1 /\ shape_of d2 = shape_of d1 /\ shape_of n2 = shape_of n1 /\
    own_params img2 c2 = own_params img1 c1 /\
    own_params img2 d2 = own_params img1 d1 /\
    own_params img2 n2 = own_params img1 n1.
Proof. apply discriminator_reuse_ok. Qed.

Lemma X6_witness :
  exists c1 d1 n1 gr1 c2 d2 n2,
    discriminator tiny_self (x tiny_self) None fresh_graph = Ok (c1, d1, n1, gr1) /\
    discriminator tiny_self (Placeholder "x-test" [None; Some 4; Some 4; Some 1])
      (Some true) gr1 = Ok (c2, d2, n2, gr1) /\
    shape_of d2 = shape_of d1 /\
    own_params (Placeholder "x-test" [None; Some 4; Some 4; Some 1]) d2
      = own_params (x tiny_self) d1.
Proof.
  destruct (discriminator tiny_self (x tiny_self) None fresh_graph)
    as [[[[c1 d1] n1] gr1]|e] eqn:E; [|vm_compute in E; discriminate E].
  destruct (X6_discriminator_reuse tiny_self (x tiny_self) fresh_graph c1 d1 n1 gr1
              (Placeholder "x-test" [None; Some 4; Some 4; Some 1]) gr1 E)
    as (c2 & d2 & n2 & H1 & H2 & H3 & H4 & H5 & H6 & H7); [reflexivity|apply extends_refl|].
  exists c1, d1, n1, gr1, c2, d2, n2. repeat split; assumption.
Defined.

(* ------------------------------------------------------------------------- *)
(** ** The reuse protocol of the variable scopes *)

Lemma touched_found reuse gr gr' vs :
  touched reuse gr gr' vs ->
  Forall (fun v => find_var (v_name v) gr' = Some v) vs.
Proof.
  destruct reuse.
  - intros [-> F]. exact F.
  - apply created_found.
Qed.

Lemma param_layer_clash scn k name inp gr v :
  find_var (var_name scn name "/weight") gr = Some v ->
  param_layer {| sc_name := scn; sc_reuse := false |} k name inp gr = Raise ValueError.
Proof.
  intros F. unfold param_layer.
  destruct (shape_of inp) as [sh|]; [|reflexivity].
  destruct (layer_shapes k sh) as [[[wsh bsh] osh]|]; [|reflexivity].
  apply bind_raise. unfold get_variable. simpl.
  unfold var_name in F. simpl in F. rewrite F. reflexivity.
Qed.

Lemma param_layer_missing scn k name inp gr :
  find_var (var_name scn name "/weight") gr = None ->
  param_layer {| sc_name := scn; sc_reuse := true |} k name inp gr = Raise ValueError.
Proof.
  intros F. unfold param_layer.
  destruct (shape_of inp) as [sh|]; [|reflexivity].
  destruct (layer_shapes k sh) as [[[wsh bsh] osh]|]; [|reflexivity].
  apply bind_raise. unfold get_variable. simpl.
  unfold var_name in F. simpl in F. rewrite F. reflexivity.
Qed.

Lemma generator_first_variable self noise reuse is_train gr out gr' :
  generator self noise reuse is_train gr = Ok (out, gr') ->
  exists v, find_var (var_name "generator" "gen-fc-1" "/weight") gr' = Some v.
Proof.
  intros H. destruct (generator_int _ _ _ _ _ _ _ H) as [n Hn].
  apply (generator_ok self reuse is_train n Hn) in H.
  destruct H as (ops & _ & _ & N & T). apply touched_found in T.
  unfold gen_layers in N. simpl in N.
  destruct (ops_vars ops) as [|v vs]; [discriminate N|].
  inversion N as [[N1 N2]]. inversion T as [|? ? F _]; subst.
  exists v. exact F.
Qed.

Lemma discriminator_first_variable self img reuse gr c d n gr' :
  discriminator self img reuse gr = Ok (c, d, n, gr') ->
  exists v, find_var (var_name "discriminator" "disc-conv2d-1" "/weight") gr' = Some v.
Proof.
  intros H. apply discriminator_ok in H.
  destruct H as (wc & bc & wd & bd & g1 & (ops & _ & _ & N & T) & _ & _ & Nh & Th).
  pose proof (touched_app _ _ _ _ _ _ T Th) as A. apply touched_found in A.
  unfold disc_trunk_layers in N. simpl in N.
  destruct (ops_vars ops) as [|v vs]; [discriminate N|].
  inversion N as [[N1 N2]]. inversion A as [|? ? F _]; subst.
  exists v. exact F.
Qed.

(** X7: the generator follows the create-once protocol of its variable
    scope.  A call with [reuse=True] raises a [ValueError] when the graph has
    no variable generator/gen-fc-1/weight:0, as in a fresh graph; and after
    any call that returned, every later call without reuse raises a
    [ValueError], whatever its object and its noise. *)
Theorem X7_generator_scope_protocol :
  (forall self noise is_train gr,
      find_var (var_name "generator" "gen-fc-1" "/weight") gr = None ->
      generator self noise (Some true) is_train gr = Raise ValueError) /\
  (forall self1 noise1 reuse1 it1 gr0 out1 gr1 self2 noise2 reuse2 it2 g,
      generator self1 noise1 reuse1 it1 gr0 = Ok (out1, gr1) ->
      extends gr1 g ->
      reuse_flag reuse2 = false ->
      generator self2 noise2 reuse2 it2 g = Raise ValueError).
Proof.
  split.
  - intros self noise is_train gr F. unfold generator. apply bind_raise.
    apply (param_layer_missing "generator"). exact F.
  - intros self1 noise1 reuse1 it1 gr0 out1 gr1 self2 noise2 reuse2 it2 g H X R.
    apply generator_first_variable in H. destruct H as [v F]. apply X in F.
    unfold generator. apply bind_raise.
    unfold dense, variable_scope. fold (reuse_flag reuse2). rewrite R.
    eapply param_layer_clash. exact F.
Qed.

Lemma X7_witness :
  generator tiny_self (z tiny_self) (Some true) true fresh_graph = Raise ValueError /\
  exists out1 gr1,
    generator tiny_self (z tiny_self) None true fresh_graph = Ok (out1, gr1) /\
    generator tiny_self (z tiny_self) None true gr1 = Raise ValueError.
Proof.
  split.
  - apply (proj1 X7_generator_scope_protocol). reflexivity.
  - destruct (generator tiny_self (z tiny_self) None true fresh_graph)
      as [[out1 gr1]|e] eqn:E; [|vm_compute in E; discriminate E].
    exists out1, gr1. split; [reflexivity|].
    apply (proj2 X7_generator_scope_protocol tiny_self (z tiny_self) None true
             fresh_graph out1 gr1 tiny_self (z tiny_self) None true gr1 E);
      [intros n v F; exact F|reflexivity].
Defined.

(** X8: the discriminator follows the same protocol.  A call with
    [reuse=True] raises a [ValueError] when the graph has no variable
    discriminator/disc-conv2d-1/weight:0, so the reusing call cannot come
    first; and after any call that returned, every later call without reuse
    raises a [ValueError]. *)
Theorem X8_discriminator_scope_protocol :
  (forall self img gr,
      find_var (var_name "discriminator" "disc-conv2d-1" "/weight") gr = None ->
      discriminator self img (Some true) gr = Raise ValueError) /\
  (forall self1 img1 reuse1 gr0 c1 d1 n1 gr1 self2 img2 reuse2 g,
      discriminator self1 img1 reuse1 gr0 = Ok (c1, d1, n1, gr1) ->
      extends gr1 g ->
      reuse_flag reuse2 = false ->
      discriminator self2 img2 reuse2 g = Raise ValueError).
Proof.
  split.
  - intros self img gr F. unfold discriminator. apply bind_raise.
    apply (param_layer_missing "discriminator"). exact F.
  - intros self1 img1 reuse1 gr0 c1 d1 n1 gr1 self2 img2 reuse2 g H X R.
    apply discriminator_first_variable in H. destruct H as [v F]. apply X in F.
    unfold discriminator. apply bind_raise.
    unfold conv2d, variable_scope. fold (reuse_flag reuse2). rewrite R.
    eapply param_layer_clash. exact F.
Qed.

Lemma X8_witness :
  discriminator tiny_self (x tiny_self) (Some true) fresh_graph = Raise ValueError /\
  exists c1 d1 n1 gr1,
    discriminator tiny_self (x tiny_self) None fresh_graph = Ok (c1, d1, n1, gr1) /\
    discriminator tiny_self (x tiny_self) None gr1 = Raise ValueError.
Proof.
  split.
  - apply (proj1 X8_discriminator_scope_protocol). reflexivity.
  - destruct (discriminator tiny_self (x tiny_self) None fresh_graph)
      as [[[[c1 d1] n1] gr1]|e] eqn:E; [|vm_compute in E; discriminate E].
    exists c1, d1, n1, gr1. split; [reflexivity|].
    apply (proj2 X8_discriminator_scope_protocol tiny_self (x tiny_self) None
             fresh_graph c1 d1 n1 gr1 tiny_self (x tiny_self) None gr1 E);
      [intros n v F; exact F|reflexivity].
Defined.

(* ------------------------------------------------------------------------- *)
(** ** The shapes inside the discriminator *)

Lemma get_variable_shape sc name sh gr v gr' :
  get_variable sc name sh gr = Ok (v, gr') -> v_shape v = sh.
Proof.
  unfold get_variable.
  destruct (find_var _ gr) as [u|]; destruct (sc_reuse sc); try discriminate.
  - unfold shape_eqb. destruct (list_eq_dec Z.eq_dec (v_shape u) sh) as [E|]; [|discriminate].
    intros H. injection H as Hv _. rewrite <- Hv. exact E.
  - intros H. injection H as Hv _. rewrite <- Hv. reflexivity.
Qed.

(** A layer that was built fits its input, and its weight and bias have the
    shapes the layer asks for, whether they were created or looked up. *)
Lemma param_layer_shapes sc k name inp gr out gr' :
  param_layer sc k name inp gr = Ok (out, gr') ->
  exists sh wsh bsh osh w b,
    shape_of inp = Some sh /\ layer_shapes k sh = Some (wsh, bsh, osh) /\
    out = Layer k name w b inp /\ shape_of out = Some osh /\
    v_shape w = wsh /\ v_shape b = bsh.
Proof.
  intros H. unfold param_layer in H.
  destruct (shape_of inp) as [sh|] eqn:Es; [|discriminate].
  destruct (layer_shapes k sh) as [[[wsh bsh] osh]|] eqn:El; [|discriminate].
  run_bind H as w gw Hw. run_bind H as b gb Hb.
  apply ret_ok in H. destruct H as [-> ->].
  apply get_variable_shape in Hw, Hb.
  exists sh, wsh, bsh, osh, w, b. repeat split; try assumption.
  simpl. rewrite Es, El. reflexivity.
Qed.

Lemma ceil_div_1 n : ceil_div n 1 = n.
Proof. unfold ceil_div. replace (n + 1 - 1) with n by lia. apply Z.div_1_r. Qed.

Lemma shape_of_act t alpha rate name :
  shape_of (dropout (leaky_relu t alpha) rate name) = shape_of t.
Proof. simpl. destruct (shape_of t); reflexivity. Qed.

Lemma disc_stage_shape self sc reuse i inp gr out gr' b h w c :
  disc_stage self sc reuse i inp gr = Ok (out, gr') ->
  shape_of inp = Some [b; h; w; c] ->
  shape_of out = Some [b; option_map (fun n => ceil_div n (i mod 2 + 1)) h;
                          option_map (fun n => ceil_div n (i mod 2 + 1)) w;
                          Some (df_dim self * 2 ^ (i + 1))].
Proof.
  intros H Hs. unfold disc_stage in H.
  run_bind H as t1 g1 H1. run_bind H as t2 g2 H2.
  apply ret_ok in H. destruct H as [-> ->].
  apply param_layer_shapes in H1.
  destruct H1 as (sh1 & ? & ? & o1 & w1 & b1 & S1 & L1 & -> & O1 & _).
  rewrite Hs in S1. inversion S1; subst sh1; clear S1.
  destruct c as [c|]; [|discriminate L1]. simpl in L1. inversion L1; subst; clear L1.
  apply param_layer_shapes in H2.
  destruct H2 as (sh2 & ? & ? & o2 & w2 & b2 & S2 & L2 & -> & O2 & _).
  rewrite O1 in S2. inversion S2; subst sh2; clear S2.
  simpl in L2. inversion L2; subst; clear L2.
  rewrite shape_of_act, O2. reflexivity.
Qed.

Lemma discriminator_shapes self img reuse gr cat disc net gr' :
  discriminator self img reuse gr = Ok (cat, disc, net, gr') ->
  exists b h w c wc bc wd bd,
    shape_of img = Some [b; Some h; Some w; Some c] /\
    shape_of net = Some [b; Some (disc_features self h w)] /\
    cat = Layer (Dense (n_classes self)) "disc-fc-cat" wc bc net /\
    disc = Layer (Dense 1) "disc-fc-disc" wd bd net /\
    shape_of cat = Some [b; Some (n_classes self)] /\
    shape_of disc = Some [b; Some 1] /\
    v_shape wc = [disc_features self h w; n_classes self] /\
    v_shape wd = [disc_features self h w; 1].
Proof.
  intros H. unfold discriminator in H.
  run_bind H as t1 g1 H1.
  run_bind H as r g2 Hr. apply ret_ok in Hr. destruct Hr as [-> ->].
  change (zrange 0 5) with [0; 1; 2; 3; 4] in H.
  run_bind H as t4 g4 H4. simpl for_each in H4.
  run_bind H4 as s0 k0 H40. run_bind H4 as s1 k1 H41. run_bind H4 as s2 k2 H42.
  run_bind H4 as s3 k3 H43. run_bind H4 as s4 k4 H44.
  apply ret_ok in H4. destruct H4 as [-> ->].
  run_bind H as tc gc Hc. run_bind H as td gd Hd.
  apply ret_ok in H. destruct H as [H ->]. inversion H; subst cat disc net; clear H.
  apply param_layer_shapes in H1.
  destruct H1 as (sh & ? & ? & o1 & w1 & b1 & S1 & L1 & -> & O1 & _).
  destruct sh as [|b [|h [|w [|[c|] [|? ?]]]]]; try discriminate L1.
  simpl in L1. inversion L1; subst; clear L1.
  rewrite <- (shape_of_act _ (2 # 10) (5 # 10) "disc-dropout2d-1") in O1.
  pose proof (disc_stage_shape _ _ _ _ _ _ _ _ _ _ _ _ H40 O1) as O2.
  pose proof (disc_stage_shape _ _ _ _ _ _ _ _ _ _ _ _ H41 O2) as O3.
  pose proof (disc_stage_shape _ _ _ _ _ _ _ _ _ _ _ _ H42 O3) as O4.
  pose proof (disc_stage_shape _ _ _ _ _ _ _ _ _ _ _ _ H43 O4) as O5.
  pose proof (disc_stage_shape _ _ _ _ _ _ _ _ _ _ _ _ H44 O5) as O6.
  clear O1 O2 O3 O4 O5 H40 H41 H42 H43 H44.
  change (0 mod 2 + 1) with 1 in O6. change (1 mod 2 + 1) with 2 in O6.
  change (2 mod 2 + 1) with 1 in O6. change (3 mod 2 + 1) with 2 in O6.
  change (4 mod 2 + 1) with 1 in O6. change (2 ^ (4 + 1)) with 32 in O6.
  apply param_layer_shapes in Hc, Hd.
  destruct Hc as (shc & ? & ? & oc & wc & bc & Sc & Lc & -> & Oc & Wc & _).
  destruct Hd as (shd & ? & ? & od & wd & bd & Sd & Ld & -> & Od & Wd & _).
  assert (Sn : shape_of (flatten s4) =
               match h, w with
               | Some h, Some w => Some [b; Some (disc_features self h w)]
               | _, _ => Some [b; None]
               end).
  { simpl. rewrite O6. destruct h as [h|], w as [w|]; simpl; try reflexivity.
    rewrite !ceil_div_1. unfold disc_features, eighth. do 4 f_equal. ring. }
  destruct h as [h|]; [|rewrite Sn in Sc; inversion Sc; subst; discriminate Lc].
  destruct w as [w|]; [|rewrite Sn in Sc; inversion Sc; subst; discriminate Lc].
  rewrite Sn in Sc, Sd. inversion Sc; subst shc. inversion Sd; subst shd.
  simpl in Lc, Ld. inversion Lc; subst. inversion Ld; subst.
  exists b, h, w, c, wc, bc, wd, bd. repeat split; try assumption; symmetry; assumption.
Qed.

(** X9: a discriminator call returns only for an image of known height,
    width and channel count; the features it returns have
    [ceil(h/8) * ceil(w/8) * (df_dim * 32)] entries per example (three of its
    six convolutions have stride 2, the last has [df_dim * 2^5] filters), the
    class logits have [n_classes] entries and the real/fake logit one; the
    batch size is the image's. *)
Theorem X9_discriminator_output_shapes self img reuse gr cat disc net gr' :
  discriminator self img reuse gr = Ok (cat, disc, net, gr') ->
  exists b h w c,
    shape_of img = Some [b; Some h; Some w; Some c] /\
    shape_of net = Some [b; Some (disc_features self h w)] /\
    shape_of cat = Some [b; Some (n_classes self)] /\
    shape_of disc = Some [b; Some 1].
Proof.
  intros H. apply discriminator_shapes in H.
  destruct H as (b & h & w & c & wc & bc & wd & bd & H1 & H2 & _ & _ & H3 & H4 & _).
  exists b, h, w, c. repeat split; assumption.
Qed.

Lemma X9_witness :
  exists cat disc net gr' b h w c,
    discriminator tiny_self (x tiny_self) None fresh_graph = Ok (cat, disc, net, gr') /\
    shape_of (x tiny_self) = Some [b; Some h; Some w; Some c] /\
    shape_of net = Some [b; Some (disc_features tiny_self h w)] /\
    shape_of cat = Some [b; Some (n_classes tiny_self)] /\
    shape_of disc = Some [b; Some 1].
Proof.
  destruct (discriminator tiny_self (x tiny_self) None fresh_graph)
    as [[[[cat disc] net] gr']|e] eqn:E; [|vm_compute in E; discriminate E].
  destruct (X9_discriminator_output_shapes _ _ _ _ _ _ _ _ E)
    as (b & h & w & c & H1 & H2 & H3 & H4).
  exists cat, disc, net, gr', b, h, w, c. repeat split; assumption.
Defined.

(* ------------------------------------------------------------------------- *)
(** ** When [build_sagan] can return *)

Lemma ceil_div_2_pos n : 0 < n -> 0 < ceil_div n 2.
Proof.
  intros H. unfold ceil_div.
  pose proof (Z.div_mod (n + 2 - 1) 2). pose proof (Z.mod_pos_bound (n + 2 - 1) 2). lia.
Qed.

Lemma ceil_div_2_le n m : ceil_div n 2 <= m -> n <= 2 * m.
Proof.
  unfold ceil_div. intros H.
  pose proof (Z.div_mod (n + 2 - 1) 2). pose proof (Z.mod_pos_bound (n + 2 - 1) 2). lia.
Qed.

Lemma eighth_pos n : 0 < n -> 0 < eighth n.
Proof. intros H. unfold eighth. do 3 apply ceil_div_2_pos. exact H. Qed.

Lemma eighth_one n : eighth n = 1 -> n <= 8.
Proof.
  unfold eighth. intros H.
  assert (H1 : ceil_div (ceil_div n 2) 2 <= 2 * 1) by (apply ceil_div_2_le; lia).
  apply ceil_div_2_le in H1. apply ceil_div_2_le in H1. lia.
Qed.

(** The heads of the two discriminator calls of [build_sagan] are one pair of
    variables, so both calls feed them the same number of features. *)
Lemma build_sagan_features self gr0 self' gr' b h w c :
  build_sagan self gr0 = Ok (self', gr') ->
  shape_of (x self) = Some [b; Some h; Some w; Some c] ->
  disc_features self h w = disc_features self 4 4.
Proof.
  intros H Sx. apply build_sagan_inv in H.
  destruct H as (gen & gr1 & c_real & d_real & n_real & gr2 & c_fake & d_fake & n_fake & gr3
                 & Hg & Hr & Hf & _).
  apply generator_shape in Hg. destruct Hg as [bg Sg].
  destruct (discriminator_shares _ _ _ _ _ _ _ _ _ _ _ _ _ Hr Hf) as (_ & Ec & _).
  pose proof (discriminator_ok _ _ _ _ _ _ _ _ Hr) as Kr.
  pose proof (discriminator_ok _ _ _ _ _ _ _ _ Hf) as Kf.
  destruct Kr as (wc1 & bc1 & wd1 & bd1 & ga & (ops1 & -> & _) & -> & _).
  destruct Kf as (wc2 & bc2 & wd2 & bd2 & gb & (ops2 & -> & _) & -> & _).
  rewrite !own_params_layer in Ec.
  apply app_inv_same_length in Ec; [|reflexivity]. destruct Ec as [_ Ec].
  inversion Ec; subst wc2 bc2; clear Ec.
  apply discriminator_shapes in Hr, Hf.
  destruct Hr as (b1 & h1 & w1 & c1 & wc & bc & wd & bd & S1 & _ & E1 & _ & _ & _ & V1 & _).
  destruct Hf as (b2 & h2 & w2 & c2 & wc' & bc' & wd' & bd' & S2 & _ & E2 & _ & _ & _ & V2 & _).
  inversion E1; subst wc bc. inversion E2; subst wc' bc'.
  rewrite Sx in S1. inversion S1; subst b1 h1 w1 c1.
  rewrite Sg in S2. inversion S2; subst b2 h2 w2 c2.
  rewrite V1 in V2. inversion V2 as [E]. exact E.
Qed.

(** X10: [build_sagan] returns only for an integer layer count below 5 and,
    with [df_dim] not 0, only for images of at most 8 by 8 pixels: the
    generator's output is 4 by 4, and the dense heads of the discriminator,
    shared by its two calls, accept one feature count, that of a map that
    three stride-2 convolutions reduce to a single position. *)
Theorem X10_build_sagan_preconditions self gr0 self' gr' b h w c :
  build_sagan self gr0 = Ok (self', gr') ->
  shape_of (x self) = Some [b; Some h; Some w; Some c] ->
  0 < h -> 0 < w -> df_dim self <> 0 ->
  (exists n, n_layer self = PyInt n /\ n < 5) /\ h <= 8 /\ w <= 8.
Proof.
  intros H Sx Hh Hw Hd. split.
  - pose proof (build_sagan_inv _ _ _ _ H) as K.
    destruct K as (gen & gr1 & _ & _ & _ & _ & _ & _ & _ & _ & Hg & _).
    destruct (generator_int _ _ _ _ _ _ _ Hg) as [n Hn].
    exists n. split; [exact Hn|].
    destruct (Z_lt_le_dec n 5) as [L|L]; [exact L|].
    rewrite (generator_many_stages self (z self) None true gr0 n Hn L eq_refl) in Hg.
    discriminate Hg.
  - pose proof (build_sagan_features _ _ _ _ _ _ _ _ H Sx) as E.
    unfold disc_features in E.
    change (eighth 4) with 1 in E.
    pose proof (eighth_pos h Hh). pose proof (eighth_pos w Hw).
    assert (P : eighth h * eighth w = 1).
    { apply (Z.mul_reg_r _ _ (df_dim self * 32)); [lia|]. rewrite E. ring. }
    assert (eighth h = 1 /\ eighth w = 1) as [E1 E2] by nia.
    split; apply eighth_one; assumption.
Qed.

Lemma X10_witness :
  build_sagan tiny_self fresh_graph = Ok tiny_built /\
  (exists n, n_layer tiny_self = PyInt n /\ n < 5) /\ 4 <= 8 /\ 4 <= 8.
Proof.
  split; [exact tiny_build|].
  apply (X10_build_sagan_preconditions tiny_self fresh_graph (fst tiny_built) (snd tiny_built)
           None 4 4 1); [exact tiny_build|reflexivity|lia|lia|discriminate].
Defined.

(* ------------------------------------------------------------------------- *)
(** ** What [build_sagan] leaves behind *)

Lemma touched_summaries reuse gr gr' vs :
  touched reuse gr gr' vs -> g_summaries gr' = g_summaries gr.
Proof.
  destruct reuse.
  - intros [-> _]. reflexivity.
  - intros (S & _). exact S.
Qed.

Lemma generator_summaries self noise reuse is_train gr out gr' :
  generator self noise reuse is_train gr = Ok (out, gr') ->
  g_summaries gr' = g_summaries gr.
Proof.
  intros H. destruct (generator_int _ _ _ _ _ _ _ H) as [n Hn].
  apply (generator_ok self reuse is_train n Hn) in H.
  destruct H as (ops & _ & _ & _ & T). eapply touched_summaries. exact T.
Qed.

Lemma discriminator_summaries self img reuse gr c d n gr' :
  discriminator self img reuse gr = Ok (c, d, n, gr') ->
  g_summaries gr' = g_summaries gr.
Proof.
  intros H. apply discriminator_ok in H.
  destruct H as (wc & bc & wd & bd & g1 & (ops & _ & _ & _ & T) & _ & _ & _ & Th).
  apply touched_summaries in T, Th. congruence.
Qed.

(** The whole effect of a run of [build_sagan] that returns. *)
Lemma build_sagan_run self gr0 self' gr' :
  build_sagan self gr0 = Ok (self', gr') ->
  exists gen gr1 c_real d_real n_real gr2 c_fake d_fake n_fake dl gl op1 op2,
    generator self (z self) None true gr0 = Ok (gen, gr1) /\
    discriminator (set_g self (Some gen)) (x self) None gr1
      = Ok (c_real, d_real, n_real, gr2) /\
    discriminator (set_g self (Some gen)) gen (Some true) gr2
      = Ok (c_fake, d_fake, n_fake, gr2) /\
    dl = LTensor (Add (sce_loss d_real (ones_like d_real))
                      (sce_loss d_fake (zeros_like d_fake))) /\
    gl = LTensor (sce_loss d_fake (ones_like d_fake)) /\
    g_vars gr' = g_vars gr2 /\
    g_summaries gr' =
      g_summaries gr0 ++
      [("loss/d_real_loss", LTensor (sce_loss d_real (ones_like d_real)));
       ("loss/d_fake_loss", LTensor (sce_loss d_fake (zeros_like d_fake)));
       ("loss/d_loss", dl); ("loss/g_loss", gl)] /\
    op1 = {| op_optimizer := AdamOptimizer (lr self * 4) (beta1 self) (beta2 self);
             op_loss := dl; op_var_list := filter is_d (g_vars gr') |} /\
    op2 = {| op_optimizer := AdamOptimizer (lr self * 1) (beta1 self) (beta2 self);
             op_loss := gl; op_var_list := filter is_g (g_vars gr') |} /\
    self' =
      set_writer
        (set_saver
           (set_merged
              (set_g_op
                 (set_d_op (set_g_loss (set_d_loss (set_g self (Some gen)) dl) gl) (Some op1))
                 (Some op2))
              (Some (g_summaries gr')))
           (Some {| max_to_keep := 1 |}))
        (Some {| logdir := "./model/" |}).
Proof.
  intros H. unfold build_sagan in H.
  run_bind H as gen gr1 Hgen.
  run_bind H as real gr2 Hreal. destruct real as [[c_real d_real] n_real].
  run_bind H as img gi Himg. apply ret_ok in Himg. destruct Himg as [-> ->].
  run_bind H as fake gr3 Hfake. destruct fake as [[c_fake d_fake] n_fake].
  destruct (discriminator_shares _ _ _ _ _ _ _ _ _ _ _ _ _ Hreal Hfake) as [-> _].
  run_bind H as u1 gs1 Hs1. inversion Hs1; subst u1 gs1; clear Hs1.
  run_bind H as u2 gs2 Hs2. inversion Hs2; subst u2 gs2; clear Hs2.
  run_bind H as u3 gs3 Hs3. inversion Hs3; subst u3 gs3; clear Hs3.
  run_bind H as u4 gs4 Hs4. inversion Hs4; subst u4 gs4; clear Hs4.
  run_bind H as t_vars gt Ht. inversion Ht; subst t_vars gt; clear Ht.
  run_bind H as op1 go1 Ho1. apply minimize_inv in Ho1. destruct Ho1 as [-> ->].
  run_bind H as op2 go2 Ho2. apply minimize_inv in Ho2. destruct Ho2 as [-> ->].
  run_bind H as m gm Hm. inversion Hm; subst m gm; clear Hm.
  run_bind H as sv gv Hsv. apply Saver_inv in Hsv. destruct Hsv as [-> ->].
  run_bind H as w gw Hw. apply FileWriter_inv in Hw. destruct Hw as (-> & -> & _).
  apply ret_ok in H. destruct H as [-> ->].
  pose proof (generator_summaries _ _ _ _ _ _ _ Hgen) as S1.
  pose proof (discriminator_summaries _ _ _ _ _ _ _ _ Hreal) as S2.
  exists gen, gr1, c_real, d_real, n_real, gr2, c_fake, d_fake, n_fake.
  eexists. eexists. eexists. eexists.
  split; [exact Hgen|]. split; [exact Hreal|]. split; [exact Hfake|].
  split; [reflexivity|]. split; [reflexivity|]. split; [reflexivity|].
  split; [simpl; rewrite S2, S1, <- !app_assoc; reflexivity|].
  split; [reflexivity|]. split; [reflexivity|].
  simpl g_summaries. simpl set_g. 
  destruct (g_summaries gr2) as [|e l] eqn:E; reflexivity.
Qed.

(** X11: a run of [build_sagan] that returns appends to the summary
    collection of the graph exactly four scalar summaries, loss/d_real_loss,
    loss/d_fake_loss, loss/d_loss and loss/g_loss in this order, the third
    being the sum of the first two and the last two the losses stored in the
    object; [merged] holds the whole collection, the summaries the graph
    already had included; the saver keeps one checkpoint and the writer logs
    to ./model/. *)
Theorem X11_build_sagan_summaries self gr0 self' gr' :
  build_sagan self gr0 = Ok (self', gr') ->
  exists real_loss fake_loss,
    g_summaries gr' =
      g_summaries gr0 ++
      [("loss/d_real_loss", LTensor real_loss); ("loss/d_fake_loss", LTensor fake_loss);
       ("loss/d_loss", d_loss self'); ("loss/g_loss", g_loss self')] /\
    d_loss self' = LTensor (Add real_loss fake_loss) /\
    merged self' = Some (g_summaries gr') /\
    saver self' = Some {| max_to_keep := 1 |} /\
    writer self' = Some {| logdir := "./model/" |}.
Proof.
  intros H. apply build_sagan_run in H.
  destruct H as (gen & gr1 & c_real & d_real & n_real & gr2 & c_fake & d_fake & n_fake
                 & dl & gl & op1 & op2 & _ & _ & _ & -> & -> & _ & S & _ & _ & ->).
  exists (sce_loss d_real (ones_like d_real)), (sce_loss d_fake (zeros_like d_fake)).
  repeat split. exact S.
Qed.

Lemma X11_witness :
  build_sagan tiny_self fresh_graph = Ok tiny_built /\
  List.length (g_summaries (snd tiny_built)) = 4%nat /\
  merged (fst tiny_built) = Some (g_summaries (snd tiny_built)) /\
  saver (fst tiny_built) = Some {| max_to_keep := 1 |}.
Proof.
  split; [exact tiny_build|].
  destruct (X11_build_sagan_summaries tiny_self fresh_graph (fst tiny_built) (snd tiny_built)
              tiny_build) as (rl & fl & S & _ & M & V & _).
  split; [rewrite S; reflexivity|]. split; assumption.
Defined.

(** X12: a run of [build_sagan] that returns assigns the attributes [g],
    [d_loss], [g_loss], [d_op], [g_op], [merged], [saver] and [writer] and no
    other: the hyperparameters, the two placeholders, [c_loss] and [g_test]
    are those of the object it was called on, so that [g_test] is still
    [None] after construction; both optimizers are built with the object's
    [beta1] and [beta2]. *)
Theorem X12_build_sagan_frame self gr0 self' gr' :
  build_sagan self gr0 = Ok (self', gr') ->
  s self' = s self /\ batch_size self' = batch_size self /\
  height self' = height self /\ width self' = width self /\
  channel self' = channel self /\ image_shape self' = image_shape self /\
  n_classes self' = n_classes self /\ n_layer self' = n_layer self /\
  sample_num self' = sample_num self /\ sample_size self' = sample_size self /\
  df_dim self' = df_dim self /\ gf_dim self' = gf_dim self /\
  fc_unit self' = fc_unit self /\ z_dim self' = z_dim self /\
  beta1 self' = beta1 self /\ beta2 self' = beta2 self /\ lr self' = lr self /\
  c_loss self' = c_loss self /\ g_test self' = g_test self /\
  x self' = x self /\ z self' = z self /\
  exists op1 op2,
    d_op self' = Some op1 /\ g_op self' = Some op2 /\
    opt_beta1 (op_optimizer op1) = beta1 self /\ opt_beta2 (op_optimizer op1) = beta2 self /\
    opt_beta1 (op_optimizer op2) = beta1 self /\ opt_beta2 (op_optimizer op2) = beta2 self.
Proof.
  intros H. apply build_sagan_run in H.
  destruct H as (gen & gr1 & c_real & d_real & n_real & gr2 & c_fake & d_fake & n_fake
                 & dl & gl & op1 & op2 & _ & _ & _ & _ & _ & _ & _ & -> & -> & ->).
  repeat split. eexists. eexists. repeat split.
Qed.

Lemma X12_witness :
  build_sagan tiny_self fresh_graph = Ok tiny_built /\
  g_test (fst tiny_built) = None /\ n_layer (fst tiny_built) = PyInt 0.
Proof.
  split; [exact tiny_build|].
  pose proof (X12_build_sagan_frame tiny_self fresh_graph (fst tiny_built) (snd tiny_built)
                tiny_build) as F.
  split; [exact (proj1 (proj2 (proj2 (proj2 (proj2 (proj2 (proj2 (proj2 (proj2 (proj2
            (proj2 (proj2 (proj2 (proj2 (proj2 (proj2 (proj2 (proj2 (proj2 F)))))))))))))))))))|].
  exact (proj1 (proj2 (proj2 (proj2 (proj2 (proj2 (proj2 (proj2 F)))))))).
Defined.

(* ------------------------------------------------------------------------- *)
(** ** The variables of the model *)

Lemma length_layer_var_names scope l :
  List.length (flat_map (layer_var_names scope) l) = (2 * List.length l)%nat.
Proof. induction l as [|a l IH]; simpl; [reflexivity|]. rewrite IH. lia. Qed.

Lemma length_generator_layers n :
  List.length (generator_layers n) = (2 * Z.to_nat n + 2)%nat.
Proof.
  unfold generator_layers. rewrite !length_app. simpl.
  assert (E : forall l, List.length (flat_map gen_stage_layers l) = (2 * List.length l)%nat).
  { induction l as [|a l IH]; simpl; [reflexivity|]. rewrite IH. lia. }
  rewrite E. unfold zrange. rewrite length_map, length_seq. lia.
Qed.

(** The variables of the three networks calls of [build_sagan]: those of the
    generator, those of the discriminator's trunk and its two heads; the
    second discriminator call applies the variables of the first. *)
Lemma build_sagan_params self gr0 self' gr' :
  build_sagan self gr0 = Ok (self', gr') ->
  exists n gen d_real d_fake gvars tvars wc bc wd bd op1 op2,
    n_layer self = PyInt n /\
    g_vars gr' = g_vars gr0 ++ gvars ++ tvars ++ [wc; bc; wd; bd] /\
    NoDup (map v_name (gvars ++ tvars ++ [wc; bc; wd; bd])) /\
    Forall (fun v => find_var (v_name v) gr0 = None) (gvars ++ tvars ++ [wc; bc; wd; bd]) /\
    map v_name gvars = flat_map (layer_var_names "generator") (generator_layers n) /\
    map v_name tvars = flat_map (layer_var_names "discriminator") disc_trunk_layers /\
    map v_name [wc; bc; wd; bd] =
      flat_map (layer_var_names "discriminator") ["disc-fc-cat"; "disc-fc-disc"] /\
    params_of gen = params_of (z self) ++ gvars /\
    params_of d_real = params_of (x self) ++ tvars ++ [wd; bd] /\
    params_of d_fake = params_of gen ++ tvars ++ [wd; bd] /\
    d_op self' = Some op1 /\ g_op self' = Some op2 /\
    op_loss op1 = LTensor (Add (sce_loss d_real (ones_like d_real))
                               (sce_loss d_fake (zeros_like d_fake))) /\
    op_loss op2 = LTensor (sce_loss d_fake (ones_like d_fake)) /\
    op_var_list op1 = filter is_d (g_vars gr') /\
    op_var_list op2 = filter is_g (g_vars gr').
Proof.
  intros H. apply build_sagan_run in H.
  destruct H as (gen & gr1 & c_real & d_real & n_real & gr2 & c_fake & d_fake & n_fake
                 & dl & gl & op1 & op2 & Hg & Hr & Hf & -> & -> & V & S & -> & -> & ->).
  destruct (generator_int _ _ _ _ _ _ _ Hg) as [n Hn].
  apply (generator_ok self None true n Hn) in Hg.
  destruct Hg as (gops & -> & _ & GN & GT). simpl reuse_flag in GT.
  destruct (discriminator_shares _ _ _ _ _ _ _ _ _ _ _ _ _ Hr Hf) as (_ & _ & Ed & _).
  apply discriminator_ok in Hr.
  destruct Hr as (wc & bc & wd & bd & ga & (dops & -> & _ & DN & DT) & -> & -> & HN & HT).
  apply discriminator_ok in Hf.
  destruct Hf as (wc2 & bc2 & wd2 & bd2 & gb & (fops & -> & _ & _ & _) & -> & -> & _ & _).
  simpl reuse_flag in DT, HT.
  rewrite !own_params_layer in Ed.
  apply app_inv_same_length in Ed; [|reflexivity]. destruct Ed as [Eo Eh].
  inversion Eh; subst wd2 bd2; clear Eh.
  pose proof (touched_app _ _ _ _ _ _ GT (touched_app _ _ _ _ _ _ DT HT)) as T.
  exists n, (apply_ops (z self) gops),
    (Layer (Dense 1) "disc-fc-disc" wd bd (apply_ops (x self) dops)),
    (Layer (Dense 1) "disc-fc-disc" wd bd (apply_ops (apply_ops (z self) gops) fops)),
    (ops_vars gops), (ops_vars dops), wc, bc, wd, bd.
  eexists. eexists.
  destruct T as (_ & T2 & T3 & T4).
  split; [exact Hn|]. split; [rewrite V; exact T2|]. split; [exact T3|]. split; [exact T4|].
  split; [rewrite GN, gen_layers_eq; reflexivity|]. split; [exact DN|]. split; [exact HN|].
  split; [apply params_of_apply_ops|].
  split; [simpl; rewrite params_of_apply_ops, <- app_assoc; reflexivity|].
  split; [simpl; rewrite (params_of_apply_ops _ fops), Eo, <- app_assoc; reflexivity|].
  repeat split.
Qed.

(** X13: a run of [build_sagan] that returns appends to the variables of the
    graph, in this order, the weight and bias of every generator layer and
    the weight and bias of every discriminator layer (the trunk, then
    disc-fc-cat and disc-fc-disc), named scope/layer/weight:0 and
    scope/layer/bias:0: [4 * n_layer + 30] variables, with distinct names
    that the graph did not hold before.  The second discriminator call adds
    none. *)
Theorem X13_build_sagan_variables self gr0 self' gr' :
  build_sagan self gr0 = Ok (self', gr') ->
  exists n vs,
    n_layer self = PyInt n /\
    g_vars gr' = g_vars gr0 ++ vs /\
    map v_name vs =
      flat_map (layer_var_names "generator") (generator_layers n) ++
      flat_map (layer_var_names "discriminator")
        (disc_trunk_layers ++ ["disc-fc-cat"; "disc-fc-disc"]) /\
    NoDup (map v_name vs) /\
    Forall (fun v => find_var (v_name v) gr0 = None) vs /\
    List.length vs = (4 * Z.to_nat n + 30)%nat.
Proof.
  intros H. apply build_sagan_params in H.
  destruct H as (n & gen & d_real & d_fake & gvars & tvars & wc & bc & wd & bd & op1 & op2
                 & Hn & V & ND & F & GN & TN & HN & _).
  exists n, (gvars ++ tvars ++ [wc; bc; wd; bd]).
  assert (E : map v_name (gvars ++ tvars ++ [wc; bc; wd; bd]) =
              flat_map (layer_var_names "generator") (generator_layers n) ++
              flat_map (layer_var_names "discriminator")
                (disc_trunk_layers ++ ["disc-fc-cat"; "disc-fc-disc"])).
  { rewrite !map_app, GN, TN, HN, flat_map_app. reflexivity. }
  repeat split; try assumption.
  rewrite <- (length_map v_name), E, length_app, !length_layer_var_names,
    length_generator_layers.
  change (List.length (disc_trunk_layers ++ ["disc-fc-cat"; "disc-fc-disc"])) with 13%nat.
  lia.
Qed.

Lemma X13_witness :
  build_sagan tiny_self fresh_graph = Ok tiny_built /\
  List.length (g_vars (snd tiny_built)) = 30%nat.
Proof.
  split; [exact tiny_build|].
  destruct (X13_build_sagan_variables tiny_self fresh_graph (fst tiny_built) (snd tiny_built)
              tiny_build) as (n & vs & Hn & V & _ & _ & _ & L).
  rewrite V. simpl app. rewrite L. inversion Hn. reflexivity.
Defined.

Lemma filter_true {A : Type} (P : A -> bool) l :
  Forall (fun a => P a = true) l -> filter P l = l.
Proof.
  induction l as [|a l IH]; intros H; [reflexivity|].
  inversion H; subst. simpl. rewrite H2, IH; [reflexivity|assumption].
Qed.

Lemma filter_false {A : Type} (P : A -> bool) l :
  Forall (fun a => P a = false) l -> filter P l = [].
Proof.
  induction l as [|a l IH]; intros H; [reflexivity|].
  inversion H; subst. simpl. rewrite H2. apply IH. assumption.
Qed.

Lemma var_in_spec v l : var_in v l = true <-> In (v_name v) (map v_name l).
Proof.
  unfold var_in. rewrite existsb_exists, in_map_iff. split.
  - intros (u & Hu & E). apply String.eqb_eq in E. exists u. split; assumption.
  - intros (u & E & Hu). exists u. split; [exact Hu|]. apply String.eqb_eq. exact E.
Qed.

Lemma var_in_false v l : ~ In (v_name v) (map v_name l) -> var_in v l = false.
Proof.
  intros H. destruct (var_in v l) eqn:E; [|reflexivity].
  exfalso. apply H, var_in_spec, E.
Qed.

Lemma names_g_not_d vs lnames :
  map v_name vs = flat_map (layer_var_names "generator") lnames ->
  Forall (fun v => is_g v = true) vs /\ Forall (fun v => is_d v = false) vs.
Proof.
  intros N.
  assert (G : Forall (fun v => is_g v = true) vs).
  { apply Forall_forall. intros v Hv. unfold is_g.
    apply (generator_names_g lnames). rewrite <- N. apply in_map. exact Hv. }
  split; [exact G|]. rewrite Forall_forall in *. intros v Hv. specialize (G v Hv).
  unfold is_d, is_g in *. destruct (startswith "d" (v_name v)) eqn:E; [|reflexivity].
  apply startswith_d_not_g in E. congruence.
Qed.

Lemma names_d_not_g vs lnames :
  map v_name vs = flat_map (layer_var_names "discriminator") lnames ->
  Forall (fun v => is_d v = true) vs /\ Forall (fun v => is_g v = false) vs.
Proof.
  intros N.
  assert (D : Forall (fun v => is_d v = true) vs).
  { apply Forall_forall. intros v Hv. unfold is_d.
    apply (discriminator_names_d lnames). rewrite <- N. apply in_map. exact Hv. }
  split; [exact D|]. rewrite Forall_forall in *. intros v Hv. specialize (D v Hv).
  unfold is_d, is_g in *. apply startswith_d_not_g. exact D.
Qed.

(** X14: in a graph that held no variable, with placeholders as inputs, the
    two training operations of a model that [build_sagan] built have as
    variable lists all discriminator and all generator variables; the
    generator's step updates every generator variable, and the
    discriminator's step updates every discriminator variable except the
    weight and bias of disc-fc-cat: the class head is in the list but no loss
    depends on it, so it is never trained. *)
Theorem X14_trained_variables self gr0 self' gr' :
  build_sagan self gr0 = Ok (self', gr') ->
  g_vars gr0 = [] -> params_of (x self) = [] -> params_of (z self) = [] ->
  exists gvars tvars wc bc wd bd op1 op2,
    g_vars gr' = gvars ++ tvars ++ [wc; bc; wd; bd] /\
    map v_name [wc; bc] = layer_var_names "discriminator" "disc-fc-cat" /\
    d_op self' = Some op1 /\ g_op self' = Some op2 /\
    op_var_list op1 = tvars ++ [wc; bc; wd; bd] /\
    op_updates op1 = tvars ++ [wd; bd] /\
    op_var_list op2 = gvars /\
    op_updates op2 = gvars.
Proof.
  intros H G0 Px Pz. apply build_sagan_params in H.
  destruct H as (n & gen & d_real & d_fake & gvars & tvars & wc & bc & wd & bd & op1 & op2
                 & Hn & V & ND & _ & GN & TN & HN & Pg & Pr & Pf & O1 & O2 & L1 & L2 & V1 & V2).
  rewrite G0 in V. simpl in V. rewrite Px in Pr. rewrite Pz in Pg. simpl in Pr, Pg.
  rewrite Pg in Pf.
  destruct (names_g_not_d _ _ GN) as [Gg Gd].
  destruct (names_d_not_g _ _ TN) as [Td Tg].
  destruct (names_d_not_g [wc; bc; wd; bd] ["disc-fc-cat"; "disc-fc-disc"] HN) as [Hd Hg].
  assert (E1 : op_var_list op1 = tvars ++ [wc; bc; wd; bd]).
  { rewrite V1, V, !filter_app, (filter_false _ _ Gd), (filter_true _ _ Td),
      (filter_true _ _ Hd). reflexivity. }
  assert (E2 : op_var_list op2 = gvars).
  { rewrite V2, V, !filter_app, (filter_true _ _ Gg), (filter_false _ _ Tg),
      (filter_false _ _ Hg). simpl. apply app_nil_r. }
  exists gvars, tvars, wc, bc, wd, bd, op1, op2.
  split; [exact V|]. split; [simpl in HN; inversion HN as [[N1 N2 N3 N4]]; simpl; rewrite N1, N2; reflexivity|].
  split; [exact O1|]. split; [exact O2|]. split; [exact E1|].
  split; [|split; [exact E2|]].
  - unfold op_updates. rewrite E1, L1. simpl loss_params. rewrite Pr, Pf, !app_nil_r.
    rewrite filter_app. f_equal.
    + apply filter_true. apply Forall_forall. intros v Hv. apply var_in_spec.
      apply in_map. apply in_or_app. left. apply in_or_app. left. exact Hv.
    + assert (Nc : forall v, In v [wc; bc] ->
                   ~ In (v_name v) (map v_name ((tvars ++ [wd; bd]) ++ gvars ++ tvars ++ [wd; bd]))).
      { intros v Hv Hin.
        assert (Hin' : In (v_name v) (map v_name (gvars ++ tvars ++ [wd; bd]))).
        { rewrite !map_app, !in_app_iff in Hin. rewrite !map_app, !in_app_iff. tauto. }
        clear Hin. rewrite !map_app in ND, Hin'. simpl map in ND, Hin'.
        rewrite !app_assoc in ND, Hin'.
        destruct Hv as [<-|[<-|[]]].
        - apply NoDup_remove_2 in ND. apply ND. rewrite in_app_iff in *.
          simpl in *. tauto.
        - replace ((map v_name gvars ++ map v_name tvars) ++ [v_name wc; v_name bc; v_name wd; v_name bd])
            with (((map v_name gvars ++ map v_name tvars) ++ [v_name wc]) ++ v_name bc :: [v_name wd; v_name bd]) in ND
            by (rewrite <- !app_assoc; reflexivity).
          apply NoDup_remove_2 in ND. apply ND. rewrite !in_app_iff in *.
          simpl in *. tauto. }
      simpl filter.
      rewrite (var_in_false wc _ (Nc wc (or_introl eq_refl))).
      rewrite (var_in_false bc _ (Nc bc (or_intror (or_introl eq_refl)))).
      assert (Y : forall v, In v [wd; bd] ->
                  var_in v ((tvars ++ [wd; bd]) ++ gvars ++ tvars ++ [wd; bd]) = true).
      { intros v Hv. apply var_in_spec, in_map. apply in_or_app. left.
        apply in_or_app. right. exact Hv. }
      rewrite (Y wd (or_introl eq_refl)), (Y bd (or_intror (or_introl eq_refl))).
      reflexivity.
  - unfold op_updates. rewrite E2, L2. simpl loss_params. rewrite Pf, !app_nil_r.
    apply filter_true. apply Forall_forall. intros v Hv. apply var_in_spec, in_map.
    apply in_or_app. left. exact Hv.
Qed.

Lemma X14_witness :
  build_sagan tiny_self fresh_graph = Ok tiny_built /\
  exists op1 op2,
    d_op (fst tiny_built) = Some op1 /\ g_op (fst tiny_built) = Some op2 /\
    List.length (op_var_list op1) = 26%nat /\ List.length (op_updates op1) = 24%nat /\
    List.length (op_var_list op2) = 4%nat /\ List.length (op_updates op2) = 4%nat.
Proof.
  split; [exact tiny_build|].
  destruct (X14_trained_variables tiny_self fresh_graph (fst tiny_built) (snd tiny_built)
              tiny_build eq_refl eq_refl eq_refl)
    as (gvars & tvars & wc & bc & wd & bd & op1 & op2 & V & N & O1 & O2 & L1 & U1 & L2 & U2).
  exists op1, op2. split; [exact O1|]. split; [exact O2|].
  inversion O1; subst op1. inversion O2; subst op2.
  repeat split; reflexivity.
Defined.

(* ------------------------------------------------------------------------- *)
(** ** When the networks can be built *)

Lemma find_var_add_var nm v gr :
  find_var nm (add_var v gr) =
  match find_var nm gr with
  | Some u => Some u
  | None => if String.eqb (v_name v) nm then Some v else None
  end.
Proof.
  unfold find_var, add_var. simpl.
  fold (lookup nm (g_vars gr ++ [v])). fold (lookup nm (g_vars gr)).
  rewrite lookup_app. destruct (lookup nm (g_vars gr)); reflexivity.
Qed.

Lemma get_variable_creates scn name sh gr :
  find_var (scn ++ "/" ++ name ++ ":0")%string gr = None ->
  get_variable {| sc_name := scn; sc_reuse := false |} name sh gr =
  Ok ({| v_name := (scn ++ "/" ++ name ++ ":0")%string; v_shape := sh |},
      add_var {| v_name := (scn ++ "/" ++ name ++ ":0")%string; v_shape := sh |} gr).
Proof. intros F. unfold get_variable. simpl in *. rewrite F. reflexivity. Qed.

Lemma builds_param_layer scn k name :
  builds scn [name] (layer_out k) (param_layer {| sc_name := scn; sc_reuse := false |} k name).
Proof.
  intros inp gr sh sh' Hs Hl ND F. unfold layer_out in Hl.
  destruct (layer_shapes k sh) as [[[wsh bsh] osh]|] eqn:El; [|discriminate Hl].
  simpl in Hl. inversion Hl; subst osh; clear Hl.
  simpl in ND, F. inversion ND as [|? ? Nw _]; subst.
  assert (Fw : find_var (var_name scn name "/weight") gr = None) by (apply F; left; reflexivity).
  assert (Fb : find_var (var_name scn name "/bias") gr = None)
    by (apply F; right; left; reflexivity).
  exists (Layer k name {| v_name := var_name scn name "/weight"; v_shape := wsh |}
                       {| v_name := var_name scn name "/bias"; v_shape := bsh |} inp).
  exists (add_var {| v_name := var_name scn name "/bias"; v_shape := bsh |}
            (add_var {| v_name := var_name scn name "/weight"; v_shape := wsh |} gr)).
  split; [|split].
  - unfold param_layer. rewrite Hs, El.
    eapply bind_intro; [apply get_variable_creates; exact Fw|].
    eapply bind_intro; [apply get_variable_creates|reflexivity].
    rewrite find_var_add_var.
    change (find_var (var_name scn name "/bias") gr) with
      (find_var (scn ++ "/" ++ (name ++ "/bias") ++ ":0")%string gr) in Fb.
    rewrite Fb. simpl v_name.
    destruct (String.eqb _ _) eqn:E; [|reflexivity].
    exfalso. apply String.eqb_eq in E. apply Nw. left. symmetry. exact E.
  - simpl. rewrite Hs, El. reflexivity.
  - intros nm Hn. rewrite !find_var_add_var.
    destruct (find_var nm gr); [reflexivity|]. simpl v_name.
    destruct (String.eqb (var_name scn name "/weight") nm) eqn:E1.
    { exfalso. apply Hn. left. apply String.eqb_eq. exact E1. }
    destruct (String.eqb (var_name scn name "/bias") nm) eqn:E2.
    { exfalso. apply Hn. right. left. apply String.eqb_eq. exact E2. }
    reflexivity.
Qed.

Lemma builds_ret scope : builds scope [] Some (fun t => ret t).
Proof.
  intros inp gr sh sh' Hs Hl _ _. inversion Hl; subst.
  exists inp, gr. repeat split. exact Hs.
Qed.

Lemma builds_unary scope lnames u fsh c :
  builds scope lnames fsh c ->
  builds scope lnames (then_shape (unary_shape u) fsh) (fun t => c (Unary u t)).
Proof.
  intros Hc inp gr sh sh' Hs Hl ND F. unfold then_shape in Hl.
  destruct (unary_shape u sh) as [s|] eqn:E; [|discriminate Hl].
  apply (Hc (Unary u inp) gr s sh'); try assumption.
  simpl. rewrite Hs. exact E.
Qed.

Lemma builds_bind scope n1 n2 f1 f2 c1 c2 :
  builds scope n1 f1 c1 -> builds scope n2 f2 c2 ->
  builds scope (n1 ++ n2) (then_shape f1 f2) (fun t => bind (c1 t) c2).
Proof.
  intros H1 H2 inp gr sh sh' Hs Hl ND F. unfold then_shape in Hl.
  destruct (f1 sh) as [s|] eqn:E; [|discriminate Hl].
  rewrite flat_map_app in ND, F.
  destruct (H1 inp gr sh s Hs E) as (o1 & g1 & R1 & S1 & K1).
  { eapply NoDup_app_remove_r. exact ND. }
  { intros nm Hn. apply F. apply in_or_app. left. exact Hn. }
  destruct (H2 o1 g1 s sh' S1 Hl) as (o2 & g2 & R2 & S2 & K2).
  { eapply NoDup_app_remove_l. exact ND. }
  { intros nm Hn. rewrite K1.
    - apply F. apply in_or_app. right. exact Hn.
    - intros Hn1. exact (nodup_app_disjoint _ _ nm ND Hn1 Hn). }
  exists o2, g2. split; [|split].
  - eapply bind_intro; [exact R1|exact R2].
  - exact S2.
  - intros nm Hn. rewrite flat_map_app in Hn. rewrite K2, K1; [reflexivity| |].
    + intros X. apply Hn. apply in_or_app. left. exact X.
    + intros X. apply Hn. apply in_or_app. right. exact X.
Qed.

Lemma builds_for_each scope (nm : Z -> list string) fs body l :
  (forall i, builds scope (nm i) (fs i) (body i)) ->
  builds scope (flat_map nm l) (iter_shape fs l) (for_each l body).
Proof.
  intros Hb. induction l as [|i l IH].
  - apply builds_ret.
  - simpl. apply builds_bind; [apply Hb|exact IH].
Qed.

Lemma builds_reshape scope target :
  builds scope [] (reshape_shape target) (fun t => reshape t target).
Proof.
  intros inp gr sh sh' Hs Hl _ _.
  assert (E : shape_of (Unary (Reshape target) inp) = Some sh').
  { simpl. rewrite Hs. exact Hl. }
  exists (Unary (Reshape target) inp), gr. split; [|split].
  - unfold reshape. rewrite E. reflexivity.
  - exact E.
  - reflexivity.
Qed.

Lemma has_duplicate_NoDup l : has_duplicate l = false -> NoDup l.
Proof.
  induction l as [|a l IH]; intros H; [constructor|].
  simpl in H. apply orb_false_iff in H. destruct H as [H1 H2].
  constructor; [|apply IH; exact H2].
  intros Hin. assert (X : existsb (String.eqb a) l = true).
  { apply existsb_exists. exists a. split; [exact Hin|apply String.eqb_refl]. }
  congruence.
Qed.

Lemma builds_gen_stage self i :
  builds "generator" (gen_stage_layers i) (gen_stage_out self i)
         (gen_stage self (variable_scope "generator" None) true i).
Proof.
  exact (builds_bind "generator" _ _ _ _ _ _
           (builds_param_layer "generator" _ _)
           (builds_bind "generator" _ _ _ _ _ _
              (builds_param_layer "generator" BatchNorm _)
              (builds_unary "generator" _ Relu _ _ (builds_ret "generator")))).
Qed.

Lemma builds_disc_stage self i :
  builds "discriminator" (disc_stage_layers i) (disc_stage_out self i)
         (disc_stage self (variable_scope "discriminator" None) None i).
Proof.
  exact (builds_bind "discriminator" _ _ _ _ _ _
           (builds_param_layer "discriminator" _ _)
           (builds_bind "discriminator" _ _ _ _ _ _
              (builds_param_layer "discriminator" BatchNorm _)
              (builds_unary "discriminator" _ (LeakyRelu (2 # 10)) _ _
                 (builds_unary "discriminator" _ (Dropout (5 # 10) _) _ _
                    (builds_ret "discriminator"))))).
Qed.

Lemma gen_stage_out_4x4 self i b c :
  gen_stage_out self i [b; Some 4; Some 4; Some c] =
  Some [b; Some 4; Some 4; Some (gf_dim self * 8 / 2 ^ (i + 1))].
Proof. reflexivity. Qed.

Lemma iter_gen_stage_out self l b c :
  exists c', iter_shape (gen_stage_out self) l [b; Some 4; Some 4; Some c]
             = Some [b; Some 4; Some 4; Some c'].
Proof.
  revert c. induction l as [|i l IH]; intros c.
  - exists c. reflexivity.
  - change (iter_shape (gen_stage_out self) (i :: l) [b; Some 4; Some 4; Some c])
      with (match gen_stage_out self i [b; Some 4; Some 4; Some c] with
            | Some sh1 => iter_shape (gen_stage_out self) l sh1
            | None => None
            end).
    rewrite gen_stage_out_4x4. apply IH.
Qed.

Lemma no_prefix_fresh p gr names :
  Forall (fun v => startswith p (v_name v) = false) (g_vars gr) ->
  (forall nm, In nm names -> startswith p nm = true) ->
  fresh_names names gr.
Proof.
  intros H N nm Hn. unfold find_var. fold (lookup nm (g_vars gr)).
  apply lookup_none. intros Hin. apply in_map_iff in Hin.
  destruct Hin as (v & E & Hv). rewrite Forall_forall in H.
  specialize (H v Hv). rewrite E, (N nm Hn) in H. discriminate H.
Qed.

Lemma generator_names_nodup n :
  n <= 4 -> NoDup (flat_map (layer_var_names "generator") (gen_layers n)).
Proof.
  intros H. rewrite gen_layers_eq. unfold generator_layers.
  destruct (Z_le_gt_dec n 0) as [L|L].
  - rewrite (zrange_empty 0 n L). apply has_duplicate_NoDup. reflexivity.
  - assert (C : n = 1 \/ n = 2 \/ n = 3 \/ n = 4) by lia.
    destruct C as [-> | [-> | [-> | ->]]]; apply has_duplicate_NoDup; reflexivity.
Qed.

Lemma discriminator_names_nodup :
  NoDup (flat_map (layer_var_names "discriminator")
           (disc_trunk_layers ++ ["disc-fc-cat"; "disc-fc-disc"])).
Proof. apply has_duplicate_NoDup. reflexivity. Qed.

Lemma gf8_not_minus_1 gf : (gf * 8 =? -1) = false.
Proof. apply Z.eqb_neq. lia. Qed.

(** In a graph that holds none of its variables a generator of at most 4
    stages returns, on noise of shape (None, z_dim), a map of 4x4 positions. *)
Lemma generator_creates self noise reuse it gr n zd :
  n_layer self = PyInt n -> n <= 4 -> reuse_flag reuse = false ->
  shape_of noise = Some [None; Some zd] ->
  fresh_names (flat_map (layer_var_names "generator") (gen_layers n)) gr ->
  exists out gr',
    generator self noise reuse it gr = Ok (out, gr') /\
    shape_of out = Some [None; Some 4; Some 4; Some (channel self)] /\
    forall nm, ~ In nm (flat_map (layer_var_names "generator") (gen_layers n)) ->
               find_var nm gr' = find_var nm gr.
Proof.
  intros Hn H4 R Hs F.
  pose proof (builds_bind "generator" _ _ _ _ _ _
    (builds_param_layer "generator" (Dense (4 * 4 * gf_dim self * 8)) "gen-fc-1")
    (builds_unary "generator" _ Relu _ _
      (builds_bind "generator" _ _ _ _ _ _
        (builds_reshape "generator" [-1; 4; 4; gf_dim self * 8])
        (builds_bind "generator" _ _ _ _ _ _
          (builds_for_each "generator" gen_stage_layers _ _ (zrange 0 (n / 2))
             (builds_gen_stage self))
          (builds_bind "generator" _ _ _ _ _ _
            (builds_for_each "generator" gen_stage_layers _ _ (zrange (n / 2) n)
               (builds_gen_stage self))
            (builds_bind "generator" _ _ _ _ _ _
              (builds_param_layer "generator" (Conv2d (channel self) 5 1) "gen-conv2d-5")
              (builds_unary "generator" _ Tanh _ _ (builds_ret "generator")))))))) as B.
  destruct (iter_gen_stage_out self (zrange 0 (n / 2)) None (gf_dim self * 8)) as [c1 E1].
  destruct (iter_gen_stage_out self (zrange (n / 2) n) None c1) as [c2 E2].
  destruct (B noise gr [None; Some zd] [None; Some 4; Some 4; Some (channel self)] Hs)
    as (out & gr' & Run & S & K).
  - unfold then_shape at 1. unfold layer_out at 1. simpl layer_shapes. simpl option_map.
    unfold then_shape at 1. simpl unary_shape.
    unfold then_shape at 1. unfold reshape_shape. simpl known_size. simpl map.
    rewrite gf8_not_minus_1.
    unfold then_shape at 1. rewrite E1.
    unfold then_shape at 1. rewrite E2.
    reflexivity.
  - apply (generator_names_nodup n H4).
  - exact F.
  - exists out, gr'. split; [|split; [exact S|exact K]].
    unfold generator. rewrite Hn.
    destruct reuse as [[|]|]; [discriminate R| |]; exact Run.
Qed.

Lemma disc_trunk_out self b h w c :
  exists h' w',
    then_shape (layer_out (Conv2d (df_dim self) 3 2))
      (then_shape (unary_shape (LeakyRelu (2 # 10)))
         (then_shape (unary_shape (Dropout (5 # 10) "disc-dropout2d-1"))
            (iter_shape (disc_stage_out self) (zrange 0 5))))
      [b; Some h; Some w; Some c]
    = Some [b; Some h'; Some w'; Some (df_dim self * 2 ^ (4 + 1))].
Proof. eexists. eexists. reflexivity. Qed.

(** In a graph that holds none of its variables the discriminator returns on
    every image of known height, width and channel count. *)
Lemma discriminator_creates self img reuse gr b h w c :
  reuse_flag reuse = false ->
  shape_of img = Some [b; Some h; Some w; Some c] ->
  fresh_names (flat_map (layer_var_names "discriminator")
                 (disc_trunk_layers ++ ["disc-fc-cat"; "disc-fc-disc"])) gr ->
  exists cat disc net gr',
    discriminator self img reuse gr = Ok (cat, disc, net, gr') /\
    forall nm, ~ In nm (flat_map (layer_var_names "discriminator")
                          (disc_trunk_layers ++ ["disc-fc-cat"; "disc-fc-disc"])) ->
               find_var nm gr' = find_var nm gr.
Proof.
  intros R Hs F.
  pose proof discriminator_names_nodup as ND.
  rewrite flat_map_app in ND, F.
  pose proof (builds_bind "discriminator" _ _ _ _ _ _
    (builds_param_layer "discriminator" (Conv2d (df_dim self) 3 2) "disc-conv2d-1")
    (builds_unary "discriminator" _ (LeakyRelu (2 # 10)) _ _
      (builds_unary "discriminator" _ (Dropout (5 # 10) "disc-dropout2d-1") _ _
        (builds_for_each "discriminator" disc_stage_layers _ _ (zrange 0 5)
           (builds_disc_stage self))))) as B.
  destruct (disc_trunk_out self b h w c) as (h' & w' & E).
  destruct (B img gr _ _ Hs E) as (t4 & g4 & Run & S4 & K4).
  { eapply NoDup_app_remove_r. exact ND. }
  { intros nm Hn. apply F. apply in_or_app. left. exact Hn. }
  assert (Sn : shape_of (flatten t4) =
               Some [b; Some (h' * (w' * (df_dim self * 2 ^ (4 + 1) * 1)))]).
  { simpl. rewrite S4. reflexivity. }
  assert (NDh : NoDup (flat_map (layer_var_names "discriminator") ["disc-fc-cat"] ++
                       flat_map (layer_var_names "discriminator") ["disc-fc-disc"])).
  { apply NoDup_app_remove_l in ND. exact ND. }
  destruct (builds_param_layer "discriminator" (Dense (n_classes self)) "disc-fc-cat"
              (flatten t4) g4 _ [b; Some (n_classes self)] Sn eq_refl)
    as (tc & gc & Rc & Sc & Kc).
  { eapply NoDup_app_remove_r. exact NDh. }
  { intros nm Hn. rewrite K4.
    - apply F. apply in_or_app. right. simpl. simpl in Hn. tauto.
    - intros X. apply (nodup_app_disjoint _ _ nm ND X). simpl. simpl in Hn. tauto. }
  destruct (builds_param_layer "discriminator" (Dense 1) "disc-fc-disc"
              (flatten t4) gc _ [b; Some 1] Sn eq_refl)
    as (td & gd & Rd & Sd & Kd).
  { eapply NoDup_app_remove_l. exact NDh. }
  { intros nm Hn. rewrite Kc, K4.
    - apply F. apply in_or_app. right. simpl. simpl in Hn. tauto.
    - intros X. apply (nodup_app_disjoint _ _ nm ND X). simpl. simpl in Hn. tauto.
    - intros X. exact (nodup_app_disjoint _ _ nm NDh X Hn). }
  exists tc, td, (flatten t4), gd. split.
  - apply bind_ok in Run. destruct Run as (t1 & g1 & R1 & R4).
    unfold discriminator.
    destruct reuse as [[|]|]; [discriminate R| |].
    + eapply bind_intro; [exact R1|].
      eapply bind_intro; [reflexivity|].
      eapply bind_intro; [exact R4|].
      eapply bind_intro; [exact Rc|].
      eapply bind_intro; [exact Rd|]. reflexivity.
    + eapply bind_intro; [exact R1|].
      eapply bind_intro; [reflexivity|].
      eapply bind_intro; [exact R4|].
      eapply bind_intro; [exact Rc|].
      eapply bind_intro; [exact Rd|]. reflexivity.
  - intros nm Hn. rewrite flat_map_app in Hn. rewrite Kd, Kc, K4; [reflexivity| | |].
    + intros X. apply Hn. apply in_or_app. left. exact X.
    + intros X. apply Hn. apply in_or_app. right. simpl. simpl in X. tauto.
    + intros X. apply Hn. apply in_or_app. right. simpl. simpl in X. tauto.
Qed.

(** X15: a generator with an integer layer count of at most 4, moderate
    sizes and at least one filter in every stage (2^n_layer <= gf_dim * 8),
    called without reuse on noise of shape (None, z_dim) in a graph none of
    whose variables has a name starting with g, returns; its output has the
    shape (None, 4, 4, channel). *)
Theorem X15_generator_returns self noise reuse is_train gr n zd :
  n_layer self = PyInt n -> n <= 4 -> 2 ^ n <= gf_dim self * 8 ->
  moderate (gf_dim self) -> moderate (channel self) -> moderate zd ->
  reuse_flag reuse = false ->
  shape_of noise = Some [None; Some zd] ->
  Forall (fun v => is_g v = false) (g_vars gr) ->
  exists out gr',
    generator self noise reuse is_train gr = Ok (out, gr') /\
    shape_of out = Some [None; Some 4; Some 4; Some (channel self)].
Proof.
  intros Hn H4 _ _ _ _ R Hs F.
  destruct (generator_creates self noise reuse is_train gr n zd Hn H4 R Hs)
    as (out & gr' & Run & S & _).
  - apply (no_prefix_fresh "g"); [exact F|]. apply generator_names_g.
  - exists out, gr'. split; assumption.
Qed.

Lemma X15_witness :
  exists out gr',
    generator (with_n_layer (default_attrs 64) 3) (z (default_attrs 64)) None true fresh_graph
      = Ok (out, gr') /\
    shape_of out = Some [None; Some 4; Some 4; Some 3].
Proof.
  apply (X15_generator_returns (with_n_layer (default_attrs 64) 3) (z (default_attrs 64))
           None true fresh_graph 3 128);
    [reflexivity|lia|simpl; lia|unfold moderate; simpl; lia|unfold moderate; simpl; lia
    |unfold moderate; lia|reflexivity|reflexivity|constructor].
Defined.

(** X16: the discriminator, with moderate sizes, called without reuse on an
    image of moderate height, width and channel count in a graph none of
    whose variables has a name starting with d, returns. *)
Theorem X16_discriminator_returns self img reuse gr b h w c :
  moderate (df_dim self) -> moderate (n_classes self) ->
  moderate_dim b -> moderate h -> moderate w -> moderate c ->
  reuse_flag reuse = false ->
  shape_of img = Some [b; Some h; Some w; Some c] ->
  Forall (fun v => is_d v = false) (g_vars gr) ->
  exists cat disc net gr', discriminator self img reuse gr = Ok (cat, disc, net, gr').
Proof.
  intros _ _ _ _ _ _ R Hs F.
  destruct (discriminator_creates self img reuse gr b h w c R Hs)
    as (cat & disc & net & gr' & Run & _).
  - apply (no_prefix_fresh "d"); [exact F|]. apply discriminator_names_d.
  - exists cat, disc, net, gr'. exact Run.
Qed.

Lemma X16_witness :
  exists cat disc net gr',
    discriminator (default_attrs 64) (x (default_attrs 64)) None fresh_graph
      = Ok (cat, disc, net, gr').
Proof.
  apply (X16_discriminator_returns (default_attrs 64) (x (default_attrs 64)) None fresh_graph
           None 32 32 3);
    [unfold moderate; simpl; lia|unfold moderate; simpl; lia|exact I
    |unfold moderate; lia|unfold moderate; lia|unfold moderate; lia
    |reflexivity|reflexivity|constructor].
Defined.

(* ------------------------------------------------------------------------- *)
(** ** The file system *)

Lemma same_files_refl gr : same_files gr gr.
Proof. split; reflexivity. Qed.

Lemma same_files_trans g1 g2 g3 : same_files g1 g2 -> same_files g2 g3 -> same_files g1 g3.
Proof. intros [A B] [C D]. split; congruence. Qed.

Lemma keeps_ret {A : Type} (a : A) : keeps_files (ret a).
Proof. intros gr b gr' H. apply ret_ok in H. destruct H as [_ ->]. apply same_files_refl. Qed.

Lemma keeps_raise {A : Type} (e : exn) : keeps_files (@raise A e).
Proof. intros gr b gr' H. discriminate H. Qed.

Lemma keeps_lift {A : Type} (r : result A) : keeps_files (lift r).
Proof. intros gr b gr' H. apply lift_ok in H. destruct H as [_ ->]. apply same_files_refl. Qed.

Lemma keeps_bind {A B : Type} (m : M A) (k : A -> M B) :
  keeps_files m -> (forall a, keeps_files (k a)) -> keeps_files (bind m k).
Proof.
  intros Hm Hk gr b gr' H. run_bind H as a g1 Ha.
  eapply same_files_trans; [eapply Hm; exact Ha|eapply Hk; exact H].
Qed.

Lemma keeps_for_each {A : Type} (l : list Z) (body : Z -> A -> M A) a :
  (forall i x, keeps_files (body i x)) -> keeps_files (for_each l body a).
Proof.
  intros Hb. revert a. induction l as [|i l IH]; intros a; simpl.
  - apply keeps_ret.
  - apply keeps_bind; [apply Hb|exact IH].
Qed.

Lemma keeps_get_variable sc name sh : keeps_files (get_variable sc name sh).
Proof.
  intros gr v gr'. unfold get_variable.
  destruct (find_var _ gr) as [u|]; destruct (sc_reuse sc); try discriminate.
  - destruct (shape_eqb (v_shape u) sh); [|discriminate].
    intros H. inversion H. apply same_files_refl.
  - intros H. inversion H. split; reflexivity.
Qed.

Lemma keeps_param_layer sc k name inp : keeps_files (param_layer sc k name inp).
Proof.
  unfold param_layer. destruct (shape_of inp) as [sh|]; [|apply keeps_raise].
  destruct (layer_shapes k sh) as [[[wsh bsh] osh]|]; [|apply keeps_raise].
  apply keeps_bind; [apply keeps_get_variable|intros w].
  apply keeps_bind; [apply keeps_get_variable|intros b]. apply keeps_ret.
Qed.

Lemma keeps_reshape inp target : keeps_files (reshape inp target).
Proof.
  unfold reshape. destruct (shape_of _); [apply keeps_ret|apply keeps_raise].
Qed.

Lemma keeps_gen_stage self sc up i inp : keeps_files (gen_stage self sc up i inp).
Proof.
  unfold gen_stage.
  apply keeps_bind; [destruct up; apply keeps_param_layer|intros t1].
  apply keeps_bind; [apply keeps_param_layer|intros t2]. apply keeps_ret.
Qed.

Lemma keeps_disc_stage self sc reuse i inp : keeps_files (disc_stage self sc reuse i inp).
Proof.
  unfold disc_stage.
  apply keeps_bind; [apply keeps_param_layer|intros t1].
  apply keeps_bind; [apply keeps_param_layer|intros t2]. apply keeps_ret.
Qed.

(** The generator does not touch the file system. *)
Lemma keeps_generator self noise reuse is_train :
  keeps_files (generator self noise reuse is_train).
Proof.
  unfold generator.
  apply keeps_bind; [apply keeps_param_layer|intros t1].
  apply keeps_bind; [apply keeps_reshape|intros t3].
  apply keeps_bind; [apply keeps_lift|intros r1].
  apply keeps_bind; [apply keeps_for_each; intros; apply keeps_gen_stage|intros t4].
  apply keeps_bind; [apply keeps_ret|intros t5].
  apply keeps_bind; [apply keeps_lift|intros r2].
  apply keeps_bind; [apply keeps_for_each; intros; apply keeps_gen_stage|intros t6].
  apply keeps_bind; [apply keeps_param_layer|intros t7]. apply keeps_ret.
Qed.

(** Nor does the discriminator. *)
Lemma keeps_discriminator self img reuse : keeps_files (discriminator self img reuse).
Proof.
  unfold discriminator.
  apply keeps_bind; [apply keeps_param_layer|intros t1].
  apply keeps_bind; [apply keeps_lift|intros r].
  apply keeps_bind; [apply keeps_for_each; intros; apply keeps_disc_stage|intros t4].
  apply keeps_bind; [apply keeps_param_layer|intros tc].
  apply keeps_bind; [apply keeps_param_layer|intros td]. apply keeps_ret.
Qed.

Lemma FileWriter_ok dir g gr :
  ~ In dir (fs_denied gr) ->
  FileWriter dir g gr =
  Ok ({| logdir := dir |},
      {| g_vars := g_vars gr; g_summaries := g_summaries gr;
         fs_denied := fs_denied gr; fs_events := fs_events gr ++ [(dir, g)] |}).
Proof.
  intros H. unfold FileWriter.
  destruct (existsb (String.eqb dir) (fs_denied gr)) eqn:E; [|reflexivity].
  exfalso. apply H. apply existsb_exists in E. destruct E as (d & Hin & Hd).
  apply String.eqb_eq in Hd. subst d. exact Hin.
Qed.

Lemma FileWriter_raises dir g gr e :
  FileWriter dir g gr = Raise e -> e = OpError /\ In dir (fs_denied gr).
Proof.
  unfold FileWriter. destruct (existsb (String.eqb dir) (fs_denied gr)) eqn:E;
    intros H; inversion H. split; [reflexivity|].
  apply existsb_exists in E. destruct E as (d & Hin & Hd).
  apply String.eqb_eq in Hd. subst d. exact Hin.
Qed.

Lemma minimize_ok opt loss vl gr v :
  In v vl -> var_in v (loss_params loss) = true ->
  minimize opt loss vl gr =
  Ok ({| op_optimizer := opt; op_loss := loss; op_var_list := vl |}, gr).
Proof.
  intros Hin Hv. unfold minimize. destruct vl as [|u vl]; [destruct Hin|].
  assert (E : existsb (fun v => var_in v (loss_params loss)) (u :: vl) = true).
  { apply existsb_exists. exists v. split; assumption. }
  rewrite E. reflexivity.
Qed.

Lemma Saver_ok n gr :
  g_vars gr <> [] -> Saver n gr = Ok ({| max_to_keep := n |}, gr).
Proof.
  intros H. unfold Saver. destruct (g_vars gr); [contradiction H; reflexivity|reflexivity].
Qed.

(** X17: for images of 4x4 positions [build_sagan] returns, and leaves an
    event file of the session's graph in ./model/: with an integer layer
    count of at most 4, moderate sizes and at least one filter in every stage
    of the generator, the placeholders of [__init__] (noise of shape
    (None, z_dim), images of shape (None, 4, 4, channel)), a graph none of
    whose variables has a name starting with g or d, and a file system in
    which the directory ./model/ can be made. *)
Theorem X17_build_sagan_returns self gr0 n zd :
  n_layer self = PyInt n -> n <= 4 -> 2 ^ n <= gf_dim self * 8 ->
  moderate (gf_dim self) -> moderate (df_dim self) -> moderate (n_classes self) ->
  moderate (channel self) -> moderate zd ->
  shape_of (z self) = Some [None; Some zd] ->
  shape_of (x self) = Some [None; Some 4; Some 4; Some (channel self)] ->
  Forall (fun v => is_g v = false) (g_vars gr0) ->
  Forall (fun v => is_d v = false) (g_vars gr0) ->
  ~ In "./model/" (fs_denied gr0) ->
  exists self' gr',
    build_sagan self gr0 = Ok (self', gr') /\
    fs_events gr' = fs_events gr0 ++ [("./model/", session_graph (s self))] /\
    fs_denied gr' = fs_denied gr0.
Proof.
  intros Hn H4 _ _ _ _ _ _ Sz Sx Fg Fd Hden.
  destruct (generator_creates self (z self) None true gr0 n zd Hn H4 eq_refl Sz)
    as (gen & gr1 & Hgen & Sg & Kg).
  { apply (no_prefix_fresh "g"); [exact Fg|]. apply generator_names_g. }
  destruct (discriminator_creates (set_g self (Some gen)) (x self) None gr1
              None 4 4 (channel self) eq_refl Sx)
    as (c_real & d_real & n_real & gr2 & Hreal & _).
  { intros nm Hd. rewrite Kg.
    - revert nm Hd. apply (no_prefix_fresh "d"); [exact Fd|]. apply discriminator_names_d.
    - intros Hg. apply generator_names_g in Hg. apply discriminator_names_d in Hd.
      apply startswith_d_not_g in Hd. congruence. }
  destruct (discriminator_reuse_ok _ _ _ _ _ _ _ gen gr2 Hreal)
    as (c_fake & d_fake & n_fake & Hfake & _ & _ & _ & _ & Ed & _).
  { rewrite Sg, Sx. reflexivity. }
  { apply extends_refl. }
  destruct (keeps_generator _ _ _ _ _ _ _ Hgen) as [D1 V1].
  destruct (keeps_discriminator _ _ _ _ _ _ Hreal) as [D2 V2].
  pose proof (generator_ok self None true n Hn _ _ _ _ Hgen) as Cg.
  destruct Cg as (gops & Eg & _ & GN & (_ & GV & _)).
  pose proof (discriminator_ok _ _ _ _ _ _ _ _ Hreal) as Cr.
  destruct Cr as (wc & bc & wd & bd & ga & (dops & En & _ & _ & (_ & DV & _)) & _ & Edr
                  & HN & (_ & HV & _)).
  pose proof (discriminator_ok _ _ _ _ _ _ _ _ Hfake) as Cf.
  destruct Cf as (wc2 & bc2 & wd2 & bd2 & gb & (fops & Ef & _) & _ & Edf & _).
  (* a discriminator variable with a gradient *)
  assert (Dd : is_d wd = true).
  { unfold is_d. apply (discriminator_names_d ["disc-fc-cat"; "disc-fc-disc"]).
    rewrite <- HN. simpl. tauto. }
  assert (Din : In wd (filter is_d (g_vars gr2))).
  { apply filter_In. split; [|exact Dd]. rewrite HV. apply in_or_app. right. simpl. tauto. }
  assert (Dv : var_in wd (loss_params
                 (LTensor (Add (sce_loss d_real (ones_like d_real))
                               (sce_loss d_fake (zeros_like d_fake))))) = true).
  { apply var_in_spec, in_map. simpl. rewrite Edr. simpl.
    rewrite !in_app_iff. left. left. right. left. reflexivity. }
  (* a generator variable with a gradient *)
  unfold gen_layers in GN. simpl in GN.
  destruct (ops_vars gops) as [|v0 gvs] eqn:Eo; [discriminate GN|].
  simpl in GN. injection GN as N0 _.
  assert (Gg : is_g v0 = true).
  { unfold is_g. rewrite N0. reflexivity. }
  assert (Gin : In v0 (filter is_g (g_vars gr2))).
  { apply filter_In. split; [|exact Gg]. rewrite HV, DV, GV.
    rewrite !in_app_iff. left. left. right. left. reflexivity. }
  assert (Gv : var_in v0 (loss_params (LTensor (sce_loss d_fake (ones_like d_fake)))) = true).
  { apply var_in_spec, in_map. simpl. rewrite Edf. simpl. rewrite Ef.
    rewrite !params_of_apply_ops, Eg, params_of_apply_ops, Eo.
    rewrite !in_app_iff. left. left. left. right. left. reflexivity. }
  assert (Nv : g_vars gr2 <> []).
  { intros X. rewrite X in Din. destruct Din. }
  eexists. eexists. split.
  - unfold build_sagan.
    eapply bind_intro; [exact Hgen|].
    eapply bind_intro; [exact Hreal|].
    eapply bind_intro; [reflexivity|].
    eapply bind_intro; [exact Hfake|].
    eapply bind_intro; [reflexivity|].
    eapply bind_intro; [reflexivity|].
    eapply bind_intro; [reflexivity|].
    eapply bind_intro; [reflexivity|].
    eapply bind_intro; [reflexivity|].
    eapply bind_intro; [eapply (minimize_ok _ _ _ _ wd); [exact Din|exact Dv]|].
    eapply bind_intro; [eapply (minimize_ok _ _ _ _ v0); [exact Gin|exact Gv]|].
    eapply bind_intro; [reflexivity|].
    eapply bind_intro.
    { apply Saver_ok. exact Nv. }
    eapply bind_intro.
    { apply FileWriter_ok. simpl. rewrite D2, D1. exact Hden. }
    reflexivity.
  - simpl. rewrite V2, V1, D2, D1. split; reflexivity.
Qed.

Lemma X17_witness :
  exists self' gr',
    build_sagan
      (with_n_layer
         (init_attrs Session 100 4 4 3 10 100 10 64 64 512 128 (1 # 10000)
            (PyFloat (FSub (FLog2 4) 2))
            (Placeholder "x-image" [None; Some 4; Some 4; Some 3])
            (Placeholder "z-noise" [None; Some 128])) 0)
      fresh_graph = Ok (self', gr') /\
    fs_events gr' = [("./model/", GraphOf Session)] /\
    fs_denied gr' = [].
Proof.
  apply (X17_build_sagan_returns
           (with_n_layer
              (init_attrs Session 100 4 4 3 10 100 10 64 64 512 128 (1 # 10000)
                 (PyFloat (FSub (FLog2 4) 2))
                 (Placeholder "x-image" [None; Some 4; Some 4; Some 3])
                 (Placeholder "z-noise" [None; Some 128])) 0)
           fresh_graph 0 128);
    [reflexivity|lia|simpl; lia|unfold moderate; simpl; lia|unfold moderate; simpl; lia
    |unfold moderate; simpl; lia|unfold moderate; simpl; lia|unfold moderate; lia
    |reflexivity|reflexivity|constructor|constructor|intros []].
Defined.

(* ------------------------------------------------------------------------- *)
(** ** The exceptions of the construction *)

Lemma minimize_raises opt loss vl gr e :
  minimize opt loss vl gr = Raise e -> e = ValueError.
Proof.
  unfold minimize. destruct vl as [|v vl].
  - intros H. inversion H. reflexivity.
  - destruct (existsb _ _); intros H; inversion H. reflexivity.
Qed.

Lemma Saver_raises n gr e : Saver n gr = Raise e -> e = ValueError.
Proof.
  unfold Saver. destruct (g_vars gr); intros H; inversion H. reflexivity.
Qed.

(** What stops [build_sagan]: a layer, the [range] of the generator on a
    float layer count, an optimizer or the saver without variables, or the
    summary writer when its directory cannot be made. *)
Lemma build_sagan_raises self gr e :
  build_sagan self gr = Raise e ->
  e = ValueError \/
  (e = TypeError /\ exists r, n_layer self = PyFloat r) \/
  (e = OpError /\ In "./model/" (fs_denied gr)).
Proof.
  intros H. unfold build_sagan in H.
  apply bind_raise_inv in H. destruct H as [H|(gen & g1 & Rg & H)].
  { destruct (generator_raises _ _ _ _ _ _ H) as [E|E]; [left; exact E|right; left; exact E]. }
  apply keeps_generator in Rg. destruct Rg as [D1 _].
  apply bind_raise_inv in H. destruct H as [H|([[c_real d_real] n_real] & g2 & Rr & H)];
    [left; eapply discriminator_raises; exact H|].
  apply keeps_discriminator in Rr. destruct Rr as [D2 _].
  apply bind_raise_inv in H. destruct H as [H|(img & g3 & Ri & H)]; [discriminate H|].
  apply ret_ok in Ri. destruct Ri as [-> ->].
  apply bind_raise_inv in H. destruct H as [H|([[c_fake d_fake] n_fake] & g4 & Rf & H)];
    [left; eapply discriminator_raises; exact H|].
  apply keeps_discriminator in Rf. destruct Rf as [D3 _].
  apply bind_raise_inv in H. destruct H as [H|(u1 & g5 & R1 & H)]; [discriminate H|].
  inversion R1; subst u1 g5; clear R1.
  apply bind_raise_inv in H. destruct H as [H|(u2 & g6 & R2 & H)]; [discriminate H|].
  inversion R2; subst u2 g6; clear R2.
  apply bind_raise_inv in H. destruct H as [H|(u3 & g7 & R3 & H)]; [discriminate H|].
  inversion R3; subst u3 g7; clear R3.
  apply bind_raise_inv in H. destruct H as [H|(u4 & g8 & R4 & H)]; [discriminate H|].
  inversion R4; subst u4 g8; clear R4.
  apply bind_raise_inv in H. destruct H as [H|(tv & g9 & R5 & H)]; [discriminate H|].
  inversion R5; subst tv g9; clear R5.
  apply bind_raise_inv in H. destruct H as [H|(o1 & g10 & R6 & H)];
    [left; eapply minimize_raises; exact H|].
  apply minimize_inv in R6. destruct R6 as [-> ->].
  apply bind_raise_inv in H. destruct H as [H|(o2 & g11 & R7 & H)];
    [left; eapply minimize_raises; exact H|].
  apply minimize_inv in R7. destruct R7 as [-> ->].
  apply bind_raise_inv in H. destruct H as [H|(m & g12 & R8 & H)]; [discriminate H|].
  inversion R8; subst m g12; clear R8.
  apply bind_raise_inv in H. destruct H as [H|(sv & g13 & R9 & H)];
    [left; eapply Saver_raises; exact H|].
  apply Saver_inv in R9. destruct R9 as [-> ->].
  apply bind_raise_inv in H. destruct H as [H|(w & g14 & _ & H)]; [|discriminate H].
  apply FileWriter_raises in H. destruct H as [-> Hin]. right. right.
  split; [reflexivity|]. simpl in Hin. rewrite D3, D2, D1 in Hin. exact Hin.
Qed.

(** X18: the discriminator raises no exception but [ValueError], whatever the
    object, the image, the reuse flag and the graph. *)
Theorem X18_discriminator_exceptions self img reuse gr e :
  discriminator self img reuse gr = Raise e -> e = ValueError.
Proof. apply discriminator_raises. Qed.

Lemma X18_witness :
  discriminator tiny_self (x tiny_self) (Some true) fresh_graph = Raise ValueError.
Proof.
  destruct (discriminator tiny_self (x tiny_self) (Some true) fresh_graph)
    as [[[[c d] n] g']|e] eqn:E; [vm_compute in E; discriminate E|].
  rewrite (X18_discriminator_exceptions tiny_self (x tiny_self) (Some true) fresh_graph e E).
  reflexivity.
Defined.

(** X19: [build_sagan] raises a [ValueError], or a [TypeError], the latter
    only when the layer count is a float, or the [OpError] of the summary
    writer, the latter only when the directory ./model/ cannot be made: it
    raises no [AssertionError], and with an integer layer count and a
    directory that can be made nothing but [ValueError]. *)
Theorem X19_build_sagan_exceptions self gr e :
  build_sagan self gr = Raise e ->
  e = ValueError \/
  (e = TypeError /\ exists r, n_layer self = PyFloat r) \/
  (e = OpError /\ In "./model/" (fs_denied gr)).
Proof. apply build_sagan_raises. Qed.

Lemma X19_witness :
  build_sagan tiny_self
    {| g_vars := []; g_summaries := []; fs_denied := ["./model/"]; fs_events := [] |}
  = Raise OpError.
Proof.
  destruct (build_sagan tiny_self
              {| g_vars := []; g_summaries := []; fs_denied := ["./model/"];
                 fs_events := [] |}) as [[self' g']|e] eqn:E;
    [vm_compute in E; discriminate E|].
  destruct (X19_build_sagan_exceptions tiny_self _ e E) as [->|[[-> [r Hr]]|[-> _]]].
  - vm_compute in E. discriminate E.
  - discriminate Hr.
  - reflexivity.
Defined.

(** X2: the body of [__init__] never returns an object, whatever its
    arguments and the graph.  It stops with the [TypeError] of [np.log2] when
    the height is outside the 64-bit ranges; else with the [AssertionError]
    of line 53 when height and width differ; else with the [ValueError] of
    [tf.placeholder] when the height, the channel count or the noise
    dimension is negative; and in every case with one of these three
    exceptions, which past the placeholders comes out of [build_sagan], the
    layer count being a float. *)
Theorem X2_init_never_returns s batch_size height width channel n_classes
    sample_num sample_size df_dim gf_dim fc_unit z_dim lr gr :
  (~ in_64_bits height ->
   __init__ s batch_size height width channel n_classes
     sample_num sample_size df_dim gf_dim fc_unit z_dim lr gr = Raise TypeError) /\
  (in_64_bits height -> height <> width ->
   __init__ s batch_size height width channel n_classes
     sample_num sample_size df_dim gf_dim fc_unit z_dim lr gr = Raise AssertionError) /\
  (in_64_bits height -> height = width ->
   height < 0 \/ channel < 0 \/ z_dim < 0 ->
   __init__ s batch_size height width channel n_classes
     sample_num sample_size df_dim gf_dim fc_unit z_dim lr gr = Raise ValueError) /\
  (exists e,
     __init__ s batch_size height width channel n_classes
       sample_num sample_size df_dim gf_dim fc_unit z_dim lr gr = Raise e /\
     (e = TypeError \/ e = AssertionError \/ e = ValueError)).
Proof.
  split; [|split; [|split]].
  - intros R. unfold __init__, init_fields. apply bind_raise. apply bind_raise.
    unfold lift. rewrite (np_log2_refuses _ R). reflexivity.
  - intros R N. unfold __init__, init_fields. apply bind_raise.
    unfold bind, lift. rewrite (np_log2_ok _ R).
    destruct (Z.eqb_spec height width) as [E|E]; [contradiction|reflexivity].
  - intros R E D. subst width. unfold __init__, init_fields. apply bind_raise.
    unfold bind, lift, placeholder. rewrite (np_log2_ok _ R), Z.eqb_refl.
    simpl negb. cbv iota. cbn [forallb].
    destruct (dim_ok (Some height)) eqn:A; destruct (dim_ok (Some channel)) eqn:B;
      destruct (dim_ok (Some z_dim)) eqn:C; try reflexivity.
    apply dim_ok_size in A, B, C. lia.
  - apply init_raises.
Qed.

(** C8: the assertion of line 53 is the one check [__init__] makes of its
    arguments itself.  When height and width differ the constructor stops
    before anything is built: with the [AssertionError] of that assertion, or,
    for a height outside the 64-bit ranges, with the [TypeError] of [np.log2]
    on the line before it.  When they are equal the assertion does not fire,
    and the constructor is the sequence of its library calls, [np.log2], the
    two placeholders and [build_sagan], none of which raises an
    [AssertionError]: the assertion is the only source of one. *)
Theorem C8_assertion_only_validation s batch_size height width channel n_classes
    sample_num sample_size df_dim gf_dim fc_unit z_dim lr gr :
  (height <> width ->
   __init__ s batch_size height width channel n_classes
     sample_num sample_size df_dim gf_dim fc_unit z_dim lr gr =
   Raise (match np_log2 height with Ok _ => AssertionError | Raise e => e end)) /\
  (__init__ s batch_size height width channel n_classes
     sample_num sample_size df_dim gf_dim fc_unit z_dim lr gr = Raise AssertionError
   <-> height <> width /\ in_64_bits height) /\
  (height = width ->
   __init__ s batch_size height width channel n_classes
     sample_num sample_size df_dim gf_dim fc_unit z_dim lr gr =
   (l <- lift (np_log2 height) ;;
    x <- placeholder [None; Some height; Some width; Some channel] "x-image" ;;
    z <- placeholder [None; Some z_dim] "z-noise" ;;
    build_sagan (init_attrs s batch_size height width channel n_classes
                   sample_num sample_size df_dim gf_dim fc_unit z_dim lr
                   (py_sub (PyFloat l) 2) x z)) gr) /\
  (np_log2 height <> Raise AssertionError /\
   forall sh name g, placeholder sh name g <> Raise AssertionError) /\
  (forall self g, build_sagan self g <> Raise AssertionError).
Proof.
  assert (B : forall self g, build_sagan self g <> Raise AssertionError).
  { intros self g H. apply build_sagan_raises in H.
    destruct H as [H|[[H _]|[H _]]]; discriminate H. }
  split; [|split; [|split; [|split]]].
  - intros N. unfold __init__, init_fields. unfold bind at 1. unfold bind at 1. unfold lift.
    destruct (np_log2 height) as [l|e]; [|reflexivity].
    destruct (Z.eqb_spec height width) as [E|E]; [contradiction|reflexivity].
  - split.
    + intros H. unfold __init__ in H.
      apply bind_raise_inv in H. destruct H as [H|(self & g1 & _ & H)].
      * apply init_fields_raises in H. destruct H as [[H _]|[(_ & R & N)|[H _]]];
          [discriminate H|tauto|discriminate H].
      * exfalso. exact (B _ _ H).
    + intros [N R]. unfold __init__, init_fields. apply bind_raise.
      unfold bind, lift. rewrite (np_log2_ok _ R).
      destruct (Z.eqb_spec height width) as [E|E]; [contradiction|reflexivity].
  - intros E. subst width. unfold __init__, init_fields, bind, lift, ret.
    rewrite Z.eqb_refl.
    destruct (np_log2 height) as [l|e]; [|reflexivity].
    cbv beta iota delta [negb].
    destruct (placeholder _ "x-image" gr) as [[x0 g1]|e]; [|reflexivity].
    destruct (placeholder _ "z-noise" g1) as [[z0 g2]|e]; reflexivity.
  - split.
    + intros H. apply np_log2_raises in H. destruct H as [H _]. discriminate H.
    + intros sh name g H. apply placeholder_raises in H. destruct H as [H _]. discriminate H.
  - exact B.
Qed.

Lemma C8_witness :
  __init__ Session 100 32 16 3 10 100 10 64 64 512 128 (1 # 10000) fresh_graph
    = Raise AssertionError /\
  __init__ Session 100 32 32 3 10 100 10 64 64 512 128 (1 # 10000) fresh_graph
    <> Raise AssertionError /\
  __init__ Session 100 (2 ^ 64) 16 3 10 100 10 64 64 512 128 (1 # 10000) fresh_graph
    = Raise TypeError.
Proof.
  split; [|split].
  - apply (proj2 (proj1 (proj2 (C8_assertion_only_validation
             Session 100 32 16 3 10 100 10 64 64 512 128 (1 # 10000) fresh_graph)))).
    unfold in_64_bits. lia.
  - intros H.
    apply (proj1 (proj1 (proj2 (C8_assertion_only_validation
             Session 100 32 32 3 10 100 10 64 64 512 128 (1 # 10000) fresh_graph)))) in H.
    destruct H as [H _]. apply H. reflexivity.
  - rewrite (proj1 (C8_assertion_only_validation
               Session 100 (2 ^ 64) 16 3 10 100 10 64 64 512 128 (1 # 10000) fresh_graph)).
    + reflexivity.
    + discriminate.
Defined.
